(** * tox-conda: the conda environment runner and the filtered cache info

    A shallow embedding of [tox_conda/plugin.py] and
    [tox_conda/FilteredInfo.py].  Python code that reads the process
    environment, the file system or runs [conda] is written in a small
    state-and-exception monad over [State]; dictionaries are [gmap]s;
    library calls whose code is not part of the plugin (SHA-1, [shlex],
    the YAML and JSON parsers, decoding and stripping of text, the limit of
    [int()], whether a program can be started and the process it then runs)
    are the fields of the [Platform] class, so every statement holds for
    each implementation of them. *)

From Stdlib Require Import String Ascii ZArith List Bool.
From stdpp Require Import base strings gmap list.

Local Open Scope string_scope.
Local Open Scope Z_scope.

(* ===================================================================== *)
(** ** Python values used by the plugin *)
(* ===================================================================== *)

(** Python's truth test on an optional string ([None] and [""] are false):
    the value when it is true. *)
Definition truthy (o : option string) : option string :=
  match o with
  | Some s => if decide (s = "") then None else Some s
  | None => None
  end.

(** The same test on an optional list ([None] and [[]] are false). *)
Definition truthy_list (o : option (list string)) : option (list string) :=
  match o with
  | Some (x :: l) => Some (x :: l)
  | _ => None
  end.

(** A setting is "set" when Python's [if value:] takes the branch. *)
Definition is_set (o : option string) : Prop := is_Some (truthy o).
Definition is_set_list (o : option (list string)) : Prop := is_Some (truthy_list o).

(** Exceptions that the modelled code raises or lets through. *)
Inductive exn : Type :=
  | Fail (msg : string)
  | KeyError (key : string)
  | IndexError
  | TypeError
  | AttributeError
  | ValueError
  | FileNotFoundError (name : string)
  | YAMLError
  | JSONDecodeError
  | CalledProcessError (cmd : list string) (code : Z)
  | OSError              (* a program that cannot be started *)
  | UnicodeDecodeError.

Inductive outcome (A : Type) : Type :=
  | Return (a : A)
  | Raise (e : exn).
Arguments Return {A} a.
Arguments Raise {A} e.

(* ===================================================================== *)
(** ** pathlib *)
(* ===================================================================== *)

Module Path.

(** A path: whether it starts at the root, and its components. *)
Record t : Type := mk { anchored : bool; parts : list string }.

Fixpoint split_slash (cur s : string) : list string :=
  match s with
  | EmptyString => [cur]
  | String c s' =>
      if Ascii.eqb c "/" then cur :: split_slash "" s'
      else split_slash (cur +:+ String c EmptyString) s'
  end.

Definition keep_part (p : string) : bool :=
  negb (String.eqb p "") && negb (String.eqb p ".").

(** [Path(s)]: empty components and ["."] are dropped. *)
Definition of_string (s : string) : t :=
  {| anchored := String.prefix "/" s;
     parts := List.filter keep_part (split_slash "" s) |}.

(** [str(path)] *)
Definition to_string (p : t) : string :=
  if anchored p then "/" +:+ String.concat "/" (parts p)
  else match parts p with
       | [] => "."
       | _ => String.concat "/" (parts p)
       end.

(** [path.name]: the final component, [""] when there is none. *)
Definition name (p : t) : string := List.last (parts p) "".

(** [path.parent] *)
Definition parent (p : t) : t :=
  {| anchored := anchored p; parts := List.removelast (parts p) |}.

(** Folding [".."] into the components seen so far (kept reversed). *)
Fixpoint collapse (seen : list string) (ps : list string) : list string :=
  match ps with
  | [] => List.rev seen
  | p :: ps' =>
      if String.eqb p ".." then collapse (List.tl seen) ps'
      else collapse (p :: seen) ps'
  end.

(** [path.resolve()] in a file system without symbolic links: the path is
    made absolute against the working directory and [".."] is folded. *)
Definition resolve (cwd : list string) (p : t) : t :=
  {| anchored := true;
     parts := collapse [] (if anchored p then parts p else cwd ++ parts p) |}.

(** [path / child] for a single component. *)
Definition child (p : t) (c : string) : t :=
  {| anchored := anchored p; parts := parts p ++ [c] |}.

End Path.

(* ===================================================================== *)
(** ** The process state and the platform *)
(* ===================================================================== *)

(** Which statement of the plugin spawned a process. *)
Inductive site : Type :=
  | ProbeConda      (* find_conda: [conda -h] *)
  | CreateEnv       (* create_python_env: the creation command *)
  | InstallDeps     (* create_python_env: the installation command *)
  | ListEnvs        (* _ensure_python_env_exists: [conda env list --json] *)
  | InEnv.          (* the executor: a command run inside the environment *)

#[global] Instance site_eq_dec : EqDecision site.
Proof. solve_decision. Defined.

(** One spawned process: where from, its argument vector, its exit code. *)
Record call : Type := mk_call { c_site : site; c_argv : list string; c_code : Z }.

(** What the plugin can observe, together with the one mutable attribute of
    the runner instance ([self._created]). *)
Record State : Type := mk_state {
  environ : gmap string string;      (* os.environ *)
  cwd : list string;                 (* components of the working directory *)
  files : gmap string string;        (* regular files: absolute path to content *)
  dirs : gset string;                (* existing directories, absolute paths *)
  which_conda : option string;       (* shutil.which("conda") *)
  created : bool;                    (* self._created *)
  log : list call                    (* processes spawned so far, oldest first *)
}.

(** A finished process. It may create directories; it leaves the regular
    files of [files] alone. *)
Record Completed : Type := mk_completed {
  returncode : Z;
  stdout : string;
  stderr : string;
  new_dirs : gset string
}.

(** Python values as the plugin handles them: a string, a list of strings,
    or any other object (a number, a boolean, [None], a mapping). Of such
    an object the plugin only takes [str()] and iterates: [text] is its
    [str()], [items] what a [for] loop walks, [None] when the object is not
    iterable. *)
Inductive cval : Type :=
  | VStr (s : string)
  | VList (l : list string)
  | VOther (text : string) (items : option (list string)).

(** An item of [dependencies]: a package specification, or a nested [pip:]
    list. *)
Inductive dependency : Type :=
  | Pkg (spec : string)
  | PipList (pkgs : list string).

(** A conda [environment.yml] after parsing, when the document is a
    mapping: the value under [name] as YAML loads it (a string, or an
    integer, a boolean, [None], ...); the value under [dependencies], a list
    or something else ([None] for a key without items), which has no
    [append]; and the keys the plugin never looks at. *)
Record EnvFile : Type := mk_env_file {
  ef_name : option cval;
  ef_dependencies : option (option (list dependency));
  ef_rest : list (string * string)
}.

(** What [YAML().load] returns: a mapping, or a document that cannot be
    subscripted with a key (an empty file gives [None]; a scalar, a
    sequence). *)
Inductive document : Type :=
  | Mapping (m : EnvFile)
  | NotMapping.

Class Platform : Type := {
  (** [hashlib.sha1(content).hexdigest()] *)
  sha1_hexdigest : string -> string;
  (** [shlex.split]; [None] when it raises [ValueError] *)
  shlex_split : string -> option (list string);
  (** [YAML().load] on the content of a file; [None] when it raises *)
  yaml_load : string -> option document;
  (** [YAML().dump] *)
  yaml_dump : EnvFile -> string;
  (** [json.loads] on an object of string arrays; [None] when it raises *)
  json_loads : string -> option (gmap string (list string));
  (** [str(list)] *)
  str_of_list : list string -> string;
  (** [str(e)] for a [CalledProcessError] *)
  str_of_called_process_error : list string -> Z -> string;
  (** the random infix [tempfile] picks for a new file; [tempfile] picks one
      that makes a name no file has, and the statements that need this say
      so *)
  mkstemp_infix : State -> string;
  (** whether the program of an argument vector can be started:
      [subprocess.run] and [subprocess.check_output] raise [OSError] when it
      cannot (no such file, no permission, no valid format) *)
  can_start : list string -> State -> bool;
  (** the process that an argument vector starts, once it has ended *)
  spawn : list string -> State -> Completed;
  (** [bytes.decode()]; [None] when it raises [UnicodeDecodeError] *)
  decode : string -> option string;
  (** [str.strip()] *)
  str_strip : string -> string;
  (** [list(s)]: the characters of a string, which a [for] loop walks *)
  str_chars : string -> list string;
  (** [sys.get_int_max_str_digits()]: the longest digit string that [int()]
      converts, 0 when there is no limit *)
  int_max_str_digits : nat
}.

(* ===================================================================== *)
(** ** The monad: state and exceptions *)
(* ===================================================================== *)

Definition Py (A : Type) : Type := State -> outcome A * State.

Definition ret {A} (a : A) : Py A := fun st => (Return a, st).
Definition raise {A} (e : exn) : Py A := fun st => (Raise e, st).

Definition bind {A B} (m : Py A) (k : A -> Py B) : Py B :=
  fun st =>
    match m st with
    | (Return a, st') => k a st'
    | (Raise e, st') => (Raise e, st')
    end.

Notation "'let!' x ':=' m 'in' k" := (bind m (fun x => k))
  (at level 10, x name, m at level 200, k at level 200, only parsing).
Notation "'let!' ' p ':=' m 'in' k" := (bind m (fun x => let 'p := x in k))
  (at level 10, p pattern, m at level 200, k at level 200, only parsing).
Notation "'run!' m 'in' k" := (bind m (fun _ => k))
  (at level 10, m at level 200, k at level 200, only parsing).

(** Lifting a computation that only reads the state. *)
Definition lift {A} (f : State -> outcome A) : Py A := fun st => (f st, st).
Definition of_outcome {A} (o : outcome A) : Py A := fun st => (o, st).
Definition get : Py State := fun st => (Return st, st).
Definition modify (f : State -> State) : Py unit := fun st => (Return tt, f st).

(** [try: body finally: fin] *)
Definition try_finally {A} (body : Py A) (fin : Py unit) : Py A :=
  fun st =>
    match body st with
    | (r, st1) =>
        match fin st1 with
        | (Return _, st2) => (r, st2)
        | (Raise e, st2) => (Raise e, st2)
        end
    end.

(** [try: body except subprocess.CalledProcessError as e: handler] *)
Definition except_called_process_error {A}
    (body : Py A) (handler : list string -> Z -> Py A) : Py A :=
  fun st =>
    match body st with
    | (Raise (CalledProcessError cmd code), st1) => handler cmd code st1
    | other => other
    end.

Section Subprocess.
Context `{Platform}.

Definition set_created (b : bool) : Py unit :=
  modify (fun st => mk_state (environ st) (cwd st) (files st) (dirs st)
                             (which_conda st) b (log st)).

Definition set_files (f : gmap string string) : Py unit :=
  modify (fun st => mk_state (environ st) (cwd st) f (dirs st)
                             (which_conda st) (created st) (log st)).

(** The state after a process has run: its directories are there and the
    call is logged. *)
Definition after_process (s : site) (argv : list string) (st : State) : State :=
  let p := spawn argv st in
  mk_state (environ st) (cwd st) (files st) (dirs st ∪ new_dirs p)
           (which_conda st) (created st)
           (log st ++ [mk_call s argv (returncode p)]).

(** A process that has been started, run to its end. *)
Definition run_process (s : site) (argv : list string) : Py Completed :=
  fun st => (Return (spawn argv st), after_process s argv st).

(** [subprocess.run(argv)]: [OSError] when the program cannot be started,
    and then no process has run. *)
Definition subprocess_run (s : site) (argv : list string) : Py Completed :=
  fun st =>
    if can_start argv st then run_process s argv st
    else (Raise OSError, st).

(** [subprocess.run(argv, check=True)] *)
Definition subprocess_run_check (s : site) (argv : list string) : Py Completed :=
  let! p := subprocess_run s argv in
  if decide (returncode p = 0) then ret p
  else raise (CalledProcessError argv (returncode p)).

Definition shlex_split_py (cmd : string) : Py (list string) :=
  match shlex_split cmd with
  | Some argv => ret argv
  | None => raise ValueError
  end.

(** [Path(s).resolve()] in the current working directory. *)
Definition resolve_in (st : State) (s : string) : Path.t :=
  Path.resolve (cwd st) (Path.of_string s).

(** [open(name, "rb").read()]: a relative name is looked up from the
    working directory. *)
Definition read_file (st : State) (name : string) : outcome string :=
  match files st !! Path.to_string (resolve_in st name) with
  | Some content => Return content
  | None => Raise (FileNotFoundError name)
  end.

(** [path.exists()] *)
Definition path_exists (st : State) (path : Path.t) : bool :=
  let p := Path.to_string (Path.resolve (cwd st) path) in
  bool_decide (p ∈ dirs st) || bool_decide (is_Some (files st !! p)).

End Subprocess.

(* ===================================================================== *)
(** ** plugin.py: free functions *)
(* ===================================================================== *)

Section FreeFunctions.
Context `{Platform}.

Definition find_conda : Py Path.t :=
  let! st := get in
  (* This should work if we're not already in an environment *)
  match truthy (environ st !! "_CONDA_EXE") with
  | Some conda_exe => ret (resolve_in st conda_exe)
  | None =>
      (* This should work if we're in an active environment *)
      match truthy (environ st !! "CONDA_EXE") with
      | Some conda_exe => ret (resolve_in st conda_exe)
      | None =>
          match truthy (which_conda st) with
          | Some found =>
              let conda_exe := resolve_in st found in
              run! subprocess_run ProbeConda [Path.to_string conda_exe; "-h"] in
              ret conda_exe
          | None => raise (Fail "Failed to find 'conda' executable.")
          end
      end
  end.

(** [hash_file(file)]: the file is opened by [file.name], the last
    component of the path, and its content is hashed. *)
Definition hash_file (st : State) (file : Path.t) : outcome string :=
  match read_file st (Path.name file) with
  | Return content => Return (sha1_hexdigest content)
  | Raise e => Raise e
  end.

End FreeFunctions.

(* ===================================================================== *)
(** ** plugin.py: CondaEnvRunner *)
(* ===================================================================== *)

(** Entries of the cache dictionary: what the base class put there, and the
    [conda] dictionary. *)
Inductive entry : Type :=
  | Host (v : string)
  | Conda (d : gmap string cval).

(** The configuration of one tox environment ([self.conf]); [conda_deps] is
    the list [unroll()] gives. *)
Record Conf : Type := mk_conf {
  base_python : list string;
  conda_name : option string;
  conda_env : option string;
  conda_spec : option string;
  conda_deps : list string;
  conda_channels : option (list string);
  conda_install_args : option (list string);
  conda_create_args : option (list string);
  change_dir : string
}.

(** The runner instance ([self]) as far as it is immutable. *)
Record Runner : Type := mk_runner {
  conf : Conf;
  options_conda_name : option string;      (* getattr(self.options, "conda_name", None) *)
  env_dir : Path.t;                        (* self.env_dir *)
  version_dot : outcome string;            (* evaluating self.base_python.version_dot:
                                              the property of the host probes the
                                              interpreter of base_python, with
                                              _get_python below, the first time it
                                              is read, and raises what the probe
                                              raises *)
  base_cache : gmap string string;         (* super().python_cache() *)
  environment_variables : gmap string string
}.

Inductive StdinSource : Type := OFF | USER | API.

Record ExecuteRequest : Type := mk_request {
  cmd : list string;
  req_cwd : string;
  env : gmap string string;
  stdin : StdinSource;
  run_id : string;
  allow : option (list string)
}.

Record ExecuteInstance : Type := mk_instance {
  i_request : ExecuteRequest;
  i_options : bool;
  i_out : string;
  i_err : string
}.

Definition obind {A B} (o : outcome A) (k : A -> outcome B) : outcome B :=
  match o with
  | Return a => k a
  | Raise e => Raise e
  end.

Notation "'let?' x ':=' m 'in' k" := (obind m (fun x => k))
  (at level 10, x name, m at level 200, k at level 200, only parsing).

(** [d[key]] *)
Definition getitem {V} (d : gmap string V) (key : string) : outcome V :=
  match d !! key with
  | Some v => Return v
  | None => Raise (KeyError key)
  end.

Definition is_digit (c : ascii) : bool :=
  (48 <=? nat_of_ascii c)%nat && (nat_of_ascii c <=? 57)%nat.

(** The longest run of digits at the start of a string, and what follows. *)
Fixpoint span_digits (s : string) : string * string :=
  match s with
  | String c s' =>
      if is_digit c then
        let '(ds, rest) := span_digits s' in (String c ds, rest)
      else (EmptyString, s)
  | EmptyString => (EmptyString, EmptyString)
  end.

(** [str.strip()] on ASCII text, which the sample platform below takes for
    [str_strip]: the white space of ASCII is removed at both ends. *)
Definition is_space (c : ascii) : bool :=
  let n := nat_of_ascii c in
  ((9 <=? n)%nat && (n <=? 13)%nat) || ((28 <=? n)%nat && (n <=? 32)%nat).

Fixpoint lstrip (s : string) : string :=
  match s with
  | String c s' => if is_space c then lstrip s' else s
  | EmptyString => EmptyString
  end.

Fixpoint rstrip (s : string) : string :=
  match s with
  | String c s' =>
      match rstrip s' with
      | EmptyString => if is_space c then EmptyString else String c EmptyString
      | r => String c r
      end
  | EmptyString => EmptyString
  end.

Definition py_strip (s : string) : string := rstrip (lstrip s).

(** The double quote character, as a string. *)
Definition dquote : string := String (ascii_of_nat 34) EmptyString.

(** The name that selects the environment, when there is one: the
    [conda_name] option of the runner when it is true, the configuration
    value otherwise ([python_cache], lines 111-115). *)
Definition effective_conda_name (self : Runner) : option string :=
  truthy (match truthy (options_conda_name self) with
          | Some n => Some n
          | None => conda_name (conf self)
          end).

Section CondaEnvRunner.
Context `{Platform}.

(** [str(v)] inside an f-string. *)
Definition py_str (v : cval) : string :=
  match v with
  | VStr s => s
  | VList l => str_of_list l
  | VOther text _ => text
  end.

(** [for x in v]: the items of a list, the characters of a string;
    [TypeError] for an object that is not iterable. *)
Definition py_iter (v : cval) : outcome (list string) :=
  match v with
  | VList l => Return l
  | VStr s => Return (str_chars s)
  | VOther _ (Some l) => Return l
  | VOther _ None => Raise TypeError
  end.

(** [re.match(r"python(\d)(?:\.(\d+))?(?:\.?(\d))?", s)]: the three
    groups, when the pattern matches at the start of [s]. The digits are
    those of ASCII: for a name of ASCII characters this is the match of
    Python, whose [\d] also takes the decimal digits of other scripts. *)
Definition match_base_python (s : string)
    : option (string * option string * option string) :=
  if String.prefix "python" s then
    match String.substring 6 (String.length s - 6) s with
    | String d0 r =>
        if is_digit d0 then
          let '(g1, r') :=
            match r with
            | String "."%char r1 =>
                match span_digits r1 with
                | (EmptyString, _) => (None, r)
                | (ds, r2) => (Some ds, r2)
                end
            | _ => (None, r)
            end in
          let g2 :=
            match r' with
            | String "."%char (String d _) =>
                if is_digit d then Some (String d EmptyString) else None
            | String d _ =>
                if is_digit d then Some (String d EmptyString) else None
            | EmptyString => None
            end in
          Some (String d0 EmptyString, g1, g2)
        else None
    | EmptyString => None
    end
  else None.

Definition _get_python_env_version (self : Runner) : outcome string :=
  match base_python (conf self) with
  | [] => Raise IndexError
  | bp :: _ =>
      (* Try to use base_python config *)
      match match_base_python bp with
      | Some (g0, g1, g2) =>
          let version := g0 in
          let version :=
            match truthy g1 with
            | Some g => version +:+ "." +:+ g
            | None => version
            end in
          let version :=
            match truthy g2 with
            | Some g => version +:+ "." +:+ g
            | None => version
            end in
          Return version
      | None => version_dot self
      end
  end.

(** [YAML().load(path)] *)
Definition load_yaml (st : State) (path : Path.t) : outcome document :=
  let? content := read_file st (Path.to_string path) in
  match yaml_load content with
  | Some doc => Return doc
  | None => Raise YAMLError
  end.

Definition python_cache (self : Runner) (st : State)
    : outcome (gmap string entry) :=
  let conda_dict : gmap string cval := ∅ in
  let conda_name :=
    match truthy (options_conda_name self) with
    | Some n => Some n
    | None => conda_name (conf self)
    end in
  let? conda_dict :=
    match truthy conda_name with
    | Some n =>
        Return (<["env" := VStr n]> (<["env_spec" := VStr "-n"]> conda_dict))
    | None =>
        match truthy (conda_env (conf self)) with
        | Some ce =>
            let conda_dict := <["env_spec" := VStr "-n"]> conda_dict in
            let env_path := resolve_in st ce in
            let? env_file := load_yaml st env_path in
            let? name := match env_file with
                         | Mapping m =>
                             match ef_name m with
                             | Some n => Return n
                             | None => Raise (KeyError "name")
                             end
                         | NotMapping => Raise TypeError
                         end in
            let conda_dict := <["env" := name]> conda_dict in
            let conda_dict :=
              <["env_path" := VStr (Path.to_string env_path)]> conda_dict in
            let? h := hash_file st (resolve_in st ce) in
            Return (<["env_hash" := VStr h]> conda_dict)
        | None =>
            Return (<["env" := VStr (Path.to_string (env_dir self))]>
                      (<["env_spec" := VStr "-p"]> conda_dict))
        end
    end in
  let conda_dict :=
    match conda_deps (conf self) with
    | [] => conda_dict
    | deps => <["deps" := VList deps]> conda_dict
    end in
  let? conda_dict :=
    match truthy (conda_spec (conf self)) with
    | Some spec =>
        let conda_dict := <["spec" := VStr spec]> conda_dict in
        let? h := hash_file st (resolve_in st spec) in
        Return (<["spec_hash" := VStr h]> conda_dict)
    | None => Return conda_dict
    end in
  let conda_dict :=
    match truthy_list (conda_channels (conf self)) with
    | Some l => <["channels" := VList l]> conda_dict
    | None => conda_dict
    end in
  let conda_dict :=
    match truthy_list (conda_install_args (conf self)) with
    | Some l => <["install_args" := VList l]> conda_dict
    | None => conda_dict
    end in
  let conda_dict :=
    match truthy_list (conda_create_args (conf self)) with
    | Some l => <["create_args" := VList l]> conda_dict
    | None => conda_dict
    end in
  let base : gmap string entry := Host <$> base_cache self in
  Return (<["conda" := Conda conda_dict]> base).

(** [conda_cache_conf.get(key, [])] as the sequence a [for] loop walks. *)
Definition get_items (d : gmap string cval) (key : string)
    : outcome (list string) :=
  py_iter (default (VList []) (d !! key)).

Definition _generate_create_command
    (conda_exe : Path.t) (python : string) (conda_cache_conf : gmap string cval)
    : Py (string * Py unit) :=
  let! env_spec := of_outcome (getitem conda_cache_conf "env_spec") in
  let! env := of_outcome (getitem conda_cache_conf "env") in
  let cmd :=
    "'" +:+ Path.to_string conda_exe +:+ "' create " +:+ py_str env_spec
        +:+ " '" +:+ py_str env +:+ "'"
        +:+ " " +:+ python +:+ " --yes --quiet" in
  let! create_args := of_outcome (get_items conda_cache_conf "create_args") in
  let cmd :=
    List.fold_left (fun cmd arg => cmd +:+ " '" +:+ arg +:+ "'") create_args cmd in
  let tear_down : Py unit := ret tt in
  ret (cmd, tear_down).

(** Creating the file [name] with the given content. *)
Definition write_file (name content : string) : Py unit :=
  let! st := get in
  set_files (<[Path.to_string (resolve_in st name) := content]> (files st)).

(** [Path(name).unlink()] *)
Definition unlink (name : string) : Py unit :=
  let! st := get in
  let p := Path.to_string (resolve_in st name) in
  match files st !! p with
  | Some _ => set_files (delete p (files st))
  | None => raise (FileNotFoundError name)
  end.

Definition _generate_env_create_command
    (conda_exe : Path.t) (python : string) (conda_cache_conf : gmap string cval)
    : Py (string * Py unit) :=
  let! st := get in
  let! v := of_outcome (getitem conda_cache_conf "env_path") in
  let! env_path :=
    match v with
    | VStr s => ret (resolve_in st s)
    | VList _ | VOther _ _ => raise TypeError
    end in
  let! env_file := of_outcome (load_yaml st env_path) in
  let! env_file :=
    match env_file with
    | Mapping m => ret m
    | NotMapping => raise TypeError
    end in
  let! deps :=
    match ef_dependencies env_file with
    | Some (Some l) => ret (l ++ [Pkg python])%list
    | Some None => raise AttributeError
    | None => raise (KeyError "dependencies")
    end in
  let env_file :=
    mk_env_file (ef_name env_file) (Some (Some deps)) (ef_rest env_file) in
  let tmp_name :=
    Path.to_string
      (Path.child (Path.parent env_path)
                  ("tox_conda_tmp" +:+ mkstemp_infix st +:+ ".yaml")) in
  run! write_file tmp_name (yaml_dump env_file) in
  let cmd :=
    "'" +:+ Path.to_string conda_exe +:+ "' env create --file '" +:+ tmp_name
        +:+ "' --quiet --force" in
  let tear_down : Py unit := unlink tmp_name in
  ret (cmd, tear_down).

Definition _generate_install_command
    (conda_exe : Path.t) (python : string) (conda_cache_conf : gmap string cval)
    : outcome (option string) :=
  (* Check if there is anything to install *)
  if bool_decide (conda_cache_conf !! "deps" = None)
     && bool_decide (conda_cache_conf !! "spec" = None)
  then Return None
  else
    let? env_spec := getitem conda_cache_conf "env_spec" in
    let? env := getitem conda_cache_conf "env" in
    let cmd :=
      "'" +:+ Path.to_string conda_exe +:+ "' install --quiet --yes"
          +:+ " " +:+ py_str env_spec +:+ " '" +:+ py_str env +:+ "'" in
    let? channels := get_items conda_cache_conf "channels" in
    let cmd :=
      List.fold_left (fun cmd channel => cmd +:+ " --channel " +:+ channel)
                     channels cmd in
    (* Add end-user conda install args *)
    let? install_args := get_items conda_cache_conf "install_args" in
    let cmd :=
      List.fold_left (fun cmd arg => cmd +:+ " " +:+ arg) install_args cmd in
    let cmd := cmd +:+ " " +:+ python in
    let? deps := get_items conda_cache_conf "deps" in
    let cmd :=
      List.fold_left (fun cmd dep => cmd +:+ " " +:+ dep) deps cmd in
    let cmd :=
      match conda_cache_conf !! "spec" with
      | Some spec => cmd +:+ " --file=" +:+ py_str spec
      | None => cmd
      end in
    Return (Some cmd).

(** [python_cache()["conda"]] *)
Definition conda_entry (cache : gmap string entry) : outcome (gmap string cval) :=
  match cache !! "conda" with
  | Some (Conda d) => Return d
  | Some (Host _) => Raise TypeError
  | None => Raise (KeyError "conda")
  end.

Definition create_python_env (self : Runner) : Py unit :=
  let! conda_exe := find_conda in
  let! python_version := of_outcome (_get_python_env_version self) in
  let python := "python=" +:+ python_version in
  let! cache := lift (python_cache self) in
  let! conda_cache_conf := of_outcome (conda_entry cache) in
  let! '(create_command, tear_down) :=
    match truthy (conda_env (conf self)) with
    | Some _ => _generate_env_create_command conda_exe python conda_cache_conf
    | None => _generate_create_command conda_exe python conda_cache_conf
    end in
  run! try_finally
         (except_called_process_error
            (let! create_command_args := shlex_split_py create_command in
             run! subprocess_run_check CreateEnv create_command_args in
             ret tt)
            (fun c code =>
               raise (Fail ("Failed to create '" +:+ Path.to_string (env_dir self)
                            +:+ "' conda environment. Error: "
                            +:+ str_of_called_process_error c code))))
         tear_down in
  let! install_command :=
    of_outcome (_generate_install_command conda_exe python conda_cache_conf) in
  match truthy install_command with
  | Some install_command =>
      except_called_process_error
        (let! install_command_args := shlex_split_py install_command in
         run! subprocess_run_check InstallDeps install_command_args in
         ret tt)
        (fun c code =>
           raise (Fail ("Failed to install dependencies in conda environment. Error: "
                        +:+ str_of_called_process_error c code)))
  | None => ret tt
  end.

(** [executor.get_conda_command_prefix] *)
Definition get_conda_command_prefix (self : Runner) : Py (list string) :=
  let! conda_exe := find_conda in
  let! cache_conf := lift (python_cache self) in
  let! conda := of_outcome (conda_entry cache_conf) in
  let! env_spec := of_outcome (getitem conda "env_spec") in
  let! env := of_outcome (getitem conda "env") in
  let cmd :=
    "'" +:+ Path.to_string conda_exe +:+ "' run"
        +:+ " " +:+ py_str env_spec +:+ " '" +:+ py_str env +:+ "' --live-stream" in
  shlex_split_py cmd.

(** [CondaExecutor.build_instance] *)
Definition build_instance (self : Runner)
    (request : ExecuteRequest) (options : bool) (out err : string)
    : Py ExecuteInstance :=
  let! conda_cmd := get_conda_command_prefix self in
  let conda_request :=
    mk_request (conda_cmd ++ cmd request) (req_cwd request) (env request)
               (stdin request) (run_id request) (allow request) in
  ret (mk_instance conda_request options out err).

(** Modelled from the spec: [call] of the host's executor, which is not part
    of the repository (the plugin "executes those commands via the host's
    subprocess execution abstraction"): the instance is built, by
    [build_instance] above, and its command is run as a process to its end.
    The host reports a command that it cannot start through the exit code
    of the status, so nothing is raised here. *)
Definition executor_call (self : Runner) (request : ExecuteRequest) : Py Completed :=
  let! inst := build_instance self request true "output" "error" in
  run_process InEnv (cmd (i_request inst)).

Definition _ensure_python_env_exists (self : Runner) : Py unit :=
  let! st := get in
  if negb (path_exists st (env_dir self)) then
    run! create_python_env self in
    run! set_created true in
    ret tt
  else if created st then ret tt
  else
    let! conda_exe := find_conda in
    let cmd := "'" +:+ Path.to_string conda_exe +:+ "' env list --json" in
    let! result :=
      except_called_process_error
        (let! cmd_list := shlex_split_py cmd in
         subprocess_run_check ListEnvs cmd_list)
        (fun c code =>
           raise (Fail ("Failed to list conda environments. Error: "
                        +:+ str_of_called_process_error c code))) in
    let! text :=
      match decode (stdout result) with
      | Some text => ret text
      | None => raise UnicodeDecodeError
      end in
    let! envs :=
      match json_loads text with
      | Some j => ret j
      | None => raise JSONDecodeError
      end in
    let! listed := of_outcome (getitem envs "envs") in
    if bool_decide (Path.to_string (env_dir self) ∈ listed) then
      set_created true
    else
      raise (Fail (Path.to_string (env_dir self)
                   +:+ " already exists, but it is not a conda environment. Delete in"
                   +:+ " manually first.")).

Definition _call_python_in_conda_env (self : Runner) (c : string) (rid : string)
    : Py string :=
  run! _ensure_python_env_exists self in
  let python_cmd := ["python"; "-c"] in
  let request :=
    mk_request (python_cmd ++ [c]) (change_dir (conf self))
               (environment_variables self) API rid None in
  let! execute_status := executor_call self request in
  if decide (returncode execute_status = 0) then
    match decode (stdout execute_status) with
    | Some out => ret (str_strip out)
    | None => raise UnicodeDecodeError
    end
  else
    match decode (stderr execute_status) with
    | Some err =>
        raise (Fail ("Failed to execute operation '" +:+ c +:+ "'. Stderr: " +:+ err))
    | None => raise UnicodeDecodeError
    end.

(** The site package folder within the tox environment. *)
Definition env_site_package_dir (self : Runner) : Py Path.t :=
  let c := "from sysconfig import get_paths; print(get_paths()["
             +:+ dquote +:+ "purelib" +:+ dquote +:+ "])" in
  let! path := _call_python_in_conda_env self c "env_site_package_dir" in
  let! st := get in
  ret (resolve_in st path).

(** The python executable within the tox environment. *)
Definition env_python (self : Runner) : Py Path.t :=
  let c := "import sys; print(sys.executable)" in
  let! path := _call_python_in_conda_env self c "env_python" in
  let! st := get in
  ret (resolve_in st path).

(** The binary folder within the tox environment. *)
Definition env_bin_dir (self : Runner) : Py Path.t :=
  let c := "from sysconfig import get_paths; print(get_paths()["
             +:+ dquote +:+ "scripts" +:+ dquote +:+ "])" in
  let! path := _call_python_in_conda_env self c "env_bin_dir" in
  let! st := get in
  ret (resolve_in st path).

End CondaEnvRunner.

(* ===================================================================== *)
(** ** The command lines, as the specification words them *)
(* ===================================================================== *)

(** The pieces of a command line, one after the other. *)
Definition cat (l : list string) : string := foldr String.append "" l.

(** ['<conda>' create <env_spec> '<env>' python=<version> --yes --quiet]
    and the creation arguments, each in single quotes. *)
Definition create_command_line
    (exe : Path.t) (python env_spec env : string) (create_args : list string)
    : string :=
  "'" +:+ Path.to_string exe +:+ "' create " +:+ env_spec +:+ " '" +:+ env +:+ "' "
      +:+ python +:+ " --yes --quiet"
      +:+ cat ((fun arg => " '" +:+ arg +:+ "'") <$> create_args).

(** ['<conda>' env create --file '<tmp>' --quiet --force] *)
Definition env_create_command_line (exe : Path.t) (tmp : string) : string :=
  "'" +:+ Path.to_string exe +:+ "' env create --file '" +:+ tmp
      +:+ "' --quiet --force".

(** ['<conda>' install --quiet --yes <env_spec> '<env>'], then
    [--channel <c>] per channel, the install arguments, the python pin, the
    dependencies and [--file=<spec>]. *)
Definition install_command_line
    (exe : Path.t) (python env_spec env : string)
    (channels install_args deps : list string) (spec : option string) : string :=
  "'" +:+ Path.to_string exe +:+ "' install --quiet --yes " +:+ env_spec
      +:+ " '" +:+ env +:+ "'"
      +:+ cat ((fun c => " --channel " +:+ c) <$> channels)
      +:+ cat ((fun a => " " +:+ a) <$> install_args)
      +:+ " " +:+ python
      +:+ cat ((fun dep => " " +:+ dep) <$> deps)
      +:+ match spec with
          | Some f => " --file=" +:+ f
          | None => ""
          end.

(** ['<conda>' run <env_spec> '<env>' --live-stream] *)
Definition run_prefix_line (exe : Path.t) (env_spec env : string) : string :=
  "'" +:+ Path.to_string exe +:+ "' run " +:+ env_spec +:+ " '" +:+ env
      +:+ "' --live-stream".

(** The temporary file next to the environment file. *)
Definition tmp_env_file_name (env_path : Path.t) (infix : string) : string :=
  Path.to_string
    (Path.child (Path.parent env_path) ("tox_conda_tmp" +:+ infix +:+ ".yaml")).

(** The environment file with one more dependency at the end. *)
Definition with_dependency (doc : EnvFile) (deps : list dependency) (python : string)
    : EnvFile :=
  mk_env_file (ef_name doc) (Some (Some (deps ++ [Pkg python])%list)) (ef_rest doc).

(** A tear-down that succeeds, and spawns nothing, wherever the files and
    the working directory are those of [st]. *)
Definition safe_tear_down (td : Py unit) (st : State) : Prop :=
  forall st', files st' = files st -> cwd st' = cwd st ->
    exists st'', td st' = (Return tt, st'') /\ log st'' = log st' /\
                 created st'' = created st'.

(** [argv] is the creation command of [create_python_env] in [st]: the
    tokens of the line that the generator chosen at lines 162-169 returns for
    the conda executable, the python pin and the fingerprint. *)
Definition creation_argv `{Platform} (self : Runner) (st : State)
    (line : string) (argv : list string) (before : State) : Prop :=
  exists exe st1 v cache d td,
    find_conda st = (Return exe, st1) /\
    _get_python_env_version self = Return v /\
    python_cache self st1 = Return cache /\
    conda_entry cache = Return d /\
    match truthy (conda_env (conf self)) with
    | Some _ => _generate_env_create_command exe ("python=" +:+ v) d
    | None => _generate_create_command exe ("python=" +:+ v) d
    end st1 = (Return (line, td), before) /\
    shlex_split line = Some argv.

(** The three queries of the environment. *)
Definition environment_queries `{Platform} : list (Runner -> Py Path.t) :=
  [env_python; env_bin_dir; env_site_package_dir].

(** The state after the queries [qs], one after the other, whatever each of
    them returns. *)
Fixpoint after_queries `{Platform} (qs : list (Runner -> Py Path.t))
    (self : Runner) (st : State) : State :=
  match qs with
  | [] => st
  | q :: qs' => after_queries qs' self (snd (q self st))
  end.

(** The state with [self._created] set to [b]. *)
Definition with_created (b : bool) (st : State) : State :=
  mk_state (environ st) (cwd st) (files st) (dirs st) (which_conda st) b (log st).

(* ===================================================================== *)
(** ** A platform to run the model on *)
(* ===================================================================== *)

Module Sample.

Inductive lex : Type :=
  | LSpace                        (* between tokens *)
  | LWord                         (* inside a token *)
  | LQuote (q : ascii)            (* inside quotes opened by [q] *)
  | LEscape (back : option ascii) (* after a backslash; where to return *).

Definition is_blank (c : ascii) : bool :=
  let n := nat_of_ascii c in
  (n =? 32)%nat || (n =? 9)%nat || (n =? 13)%nat || (n =? 10)%nat.
Definition is_quote (c : ascii) : bool :=
  let n := nat_of_ascii c in (n =? 39)%nat || (n =? 34)%nat.
Definition is_backslash (c : ascii) : bool := (nat_of_ascii c =? 92)%nat.
Definition snoc (s : string) (c : ascii) : string := s +:+ String c EmptyString.

(** The tokenizer of [shlex] in POSIX mode, splitting on white space only. *)
Fixpoint tokens (s : string) (state : lex) (tok : string) (acc : list string)
    : option (list string) :=
  match s with
  | EmptyString =>
      match state with
      | LSpace => Some (List.rev acc)
      | LWord => Some (List.rev (tok :: acc))
      | LQuote _ | LEscape _ => None
      end
  | String c s' =>
      match state with
      | LSpace =>
          if is_blank c then tokens s' LSpace "" acc
          else if is_backslash c then tokens s' (LEscape None) "" acc
          else if is_quote c then tokens s' (LQuote c) "" acc
          else tokens s' LWord (String c EmptyString) acc
      | LWord =>
          if is_blank c then tokens s' LSpace "" (tok :: acc)
          else if is_quote c then tokens s' (LQuote c) tok acc
          else if is_backslash c then tokens s' (LEscape None) tok acc
          else tokens s' LWord (snoc tok c) acc
      | LQuote q =>
          if Ascii.eqb c q then tokens s' LWord tok acc
          else if is_backslash c && (nat_of_ascii q =? 34)%nat
               then tokens s' (LEscape (Some q)) tok acc
          else tokens s' (LQuote q) (snoc tok c) acc
      | LEscape None => tokens s' LWord (snoc tok c) acc
      | LEscape (Some q) =>
          if is_backslash c || Ascii.eqb c q
          then tokens s' (LQuote q) (snoc tok c) acc
          else tokens s' (LQuote q) (snoc (snoc tok (ascii_of_nat 92)) c) acc
      end
  end.

Definition split (s : string) : option (list string) := tokens s LSpace "" [].

Definition nl : string := String (ascii_of_nat 10) EmptyString.

Fixpoint lines (cur s : string) : list string :=
  match s with
  | EmptyString => if String.eqb cur "" then [] else [cur]
  | String c s' =>
      if (nat_of_ascii c =? 10)%nat then cur :: lines "" s'
      else lines (snoc cur c) s'
  end.

Definition after (pre s : string) : option string :=
  if String.prefix pre s
  then Some (String.substring (String.length pre)
                              (String.length s - String.length pre) s)
  else None.

(** A plain scalar: an integer when it is a run of digits, a string
    otherwise. *)
Definition scalar (s : string) : cval :=
  match span_digits s with
  | (String _ _, EmptyString) => VOther s None
  | _ => VStr s
  end.

(** A line-oriented stand-in for an environment file: a [name: ] line, a
    [dependencies:] line and one [- spec] line per dependency. A file
    without a line is an empty document, and [dependencies:] without an item
    is [None]. *)
Definition load (content : string) : option document :=
  match lines "" content with
  | [] => Some NotMapping
  | ls =>
      Some (Mapping
              (mk_env_file
                 (scalar <$> List.head (omap (after "name: ") ls))
                 (if bool_decide ("dependencies:" ∈ ls)
                  then Some match omap (after "- ") ls with
                            | [] => None
                            | deps => Some (Pkg <$> deps)
                            end
                  else None)
                 []))
  end.

Definition dump_dependency (d : dependency) : string :=
  match d with
  | Pkg s => "- " +:+ s +:+ nl
  | PipList l => "- pip: " +:+ String.concat "," l +:+ nl
  end.

Definition repr_list (l : list string) : string :=
  "[" +:+ String.concat ", " ((fun s => "'" +:+ s +:+ "'") <$> l) +:+ "]".

Definition dump (doc : EnvFile) : string :=
  match ef_name doc with
  | Some (VStr n) | Some (VOther n _) => "name: " +:+ n +:+ nl
  | Some (VList l) => "name: " +:+ repr_list l +:+ nl
  | None => ""
  end
  +:+ match ef_dependencies doc with
      | Some (Some l) =>
          "dependencies:" +:+ nl +:+ String.concat "" (dump_dependency <$> l)
      | Some None => "dependencies:" +:+ nl
      | None => ""
      end.

(** The listing of environments, one path per line. *)
Definition loads (out : string) : option (gmap string (list string)) :=
  Some {[ "envs" := lines "" out ]}.

Definition digest (content : string) : string := "sha1:" +:+ content.

(** The platform in which the programs that [startable] accepts can be
    started and end as [sp] says; output is ASCII, and [int()] has the limit
    of Python 3.11. *)
Definition platform_where (startable : list string -> State -> bool)
    (sp : list string -> State -> Completed) : Platform := {|
  sha1_hexdigest := digest;
  shlex_split := split;
  yaml_load := load;
  yaml_dump := dump;
  json_loads := loads;
  str_of_list := repr_list;
  str_of_called_process_error :=
    fun argv code => "Command " +:+ repr_list argv +:+ " returned non-zero exit status.";
  mkstemp_infix := fun _ => "k3x9";
  can_start := startable;
  spawn := sp;
  decode := Some;
  str_strip := py_strip;
  str_chars := fun s => (fun c => String c EmptyString) <$> list_ascii_of_string s;
  int_max_str_digits := 4300
|}.

(** Every program can be started. *)
Definition platform (sp : list string -> State -> Completed) : Platform :=
  platform_where (fun _ _ => true) sp.

(** Every process succeeds silently and creates nothing. *)
Definition quiet (argv : list string) (st : State) : Completed :=
  mk_completed 0 "" "" ∅.

(** [conda create] and [conda env create] fail; everything else succeeds. *)
Definition no_create (argv : list string) (st : State) : Completed :=
  if bool_decide ("create" ∈ argv) then mk_completed 1 "" "" ∅
  else mk_completed 0 "" "" ∅.

(** [conda install] fails; everything else succeeds. *)
Definition no_install (argv : list string) (st : State) : Completed :=
  if bool_decide ("install" ∈ argv) then mk_completed 1 "" "" ∅
  else mk_completed 0 "" "" ∅.

(** [conda env list] prints the given paths. *)
Definition listing (envs : list string) (argv : list string) (st : State) : Completed :=
  if bool_decide ("list" ∈ argv)
  then mk_completed 0 (String.concat nl envs) "" ∅
  else mk_completed 0 "" "" ∅.

Definition conf0 : Conf :=
  mk_conf ["python3.10"] None None None [] None None None "/proj".

(** An environment name and nothing else. *)
Definition conf_named : Conf :=
  mk_conf ["python3.10"] (Some "myenv") None None [] None None None "/proj".

(** Both an environment name and an environment file. *)
Definition conf_name_and_env : Conf :=
  mk_conf ["python3.10"] (Some "myenv") (Some "environment.yml") None
          ["numpy"] None None None "/proj".

(** A spec file in a sub-directory of the project. *)
Definition conf_spec_in_subdir : Conf :=
  mk_conf ["python3.10"] None None (Some "ci/spec.txt") [] None None None "/proj".

(** An environment file, a spec file, dependencies, channels and
    arguments. *)
Definition conf_full : Conf :=
  mk_conf ["python3.10"] None (Some "environment.yml") (Some "spec.txt")
          ["numpy"; "scipy"] (Some ["conda-forge"]) (Some ["--override-channels"])
          (Some ["--no-default-packages"]) "/proj".

(** A request of the host: run [pytest -q] in the project. *)
Definition request : ExecuteRequest :=
  mk_request ["pytest"; "-q"] "/proj" {[ "HOME" := "/home/ci" ]} OFF "commands[0]"
             (Some ["pytest"]).

Definition runner (c : Conf) : Runner :=
  mk_runner c None (Path.of_string "/proj/.tox/py310") (Return "3.10")
            {[ "version_info" := "3.10.4" ]} ∅.

(** A project in [/proj] with an environment file and a spec file in a
    sub-directory, and [conda] announced by [CONDA_EXE]. *)
Definition world : State :=
  mk_state {[ "CONDA_EXE" := "/opt/conda/bin/conda" ]}
           ["proj"]
           {[ "/proj/environment.yml" :=
                "name: science" +:+ nl +:+ "dependencies:" +:+ nl
                +:+ "- numpy" +:+ nl;
              "/proj/ci/spec.txt" := "numpy=1.26" ;
              "/proj/ci/environment.yml" :=
                "name: ci" +:+ nl +:+ "dependencies:" +:+ nl +:+ "- pytest" +:+ nl ]}
           {[ "/proj" ; "/proj/ci" ]}
           None false [].

Definition quiet_platform : Platform := platform quiet.
Definition full : Runner := runner conf_full.
Definition plain : Runner := runner conf0.
Definition named : Runner := runner conf_named.

(** The fingerprint and its [conda] dictionary, where there is one. *)
Definition fingerprint `{Platform} (self : Runner) (st : State) : gmap string entry :=
  match python_cache self st with
  | Return cache => cache
  | Raise _ => ∅
  end.

Definition conda_dict `{Platform} (self : Runner) (st : State) : gmap string cval :=
  match conda_entry (fingerprint self st) with
  | Return d => d
  | Raise _ => ∅
  end.

(** [conda env list] knows the base environment only. *)
Definition base_only_platform : Platform :=
  platform (listing ["/opt/conda/envs/base"]).

(** The project once [.tox/py310] exists. *)
Definition world_with_env_dir : State :=
  mk_state (environ world) (cwd world) (files world)
           (dirs world ∪ {[ "/proj/.tox/py310" ]}) None false [].

(** The same project with another [spec.txt] in the working directory. *)
Definition world_two_specs : State :=
  mk_state (environ world) (cwd world)
           (<[ "/proj/spec.txt" := "scipy" ]> (files world))
           (dirs world) None false [].

(** The environment file in the working directory. *)
Definition conf_env_file : Conf :=
  mk_conf ["python3.10"] None (Some "environment.yml") None [] None None None "/proj".

(** The environment file of the sub-directory [ci]. *)
Definition conf_env_in_subdir : Conf :=
  mk_conf ["python3.10"] None (Some "ci/environment.yml") None [] None None None
          "/proj".

(** The project with an environment file that is named by a number. *)
Definition world_numeric_name : State :=
  mk_state (environ world) (cwd world)
           {[ "/proj/environment.yml" :=
                "name: 2024" +:+ nl +:+ "dependencies:" +:+ nl
                +:+ "- numpy" +:+ nl ]}
           (dirs world) None false [].

End Sample.

(* ===================================================================== *)
(** ** FilteredInfo.py *)
(* ===================================================================== *)

Module FilteredInfo.

(** Python objects live in a store; a value is a reference to a mutable
    object, or an immutable value without a [copy] method (a string, a
    number, [None], a tuple). *)
Inductive value : Type :=
  | Atom (repr : string)
  | Ref (l : positive).

(** The mutable built-in objects: both have [copy]; only a dictionary has
    the two-argument [pop]. *)
Inductive obj : Type :=
  | Dict (items : gmap string value)
  | List (items : list value).

Record t : Type := mk {
  filter_keys : option (list string);
  filter_section : option string
}.

(** [value.pop(fkey, None)] on the object at [l]. *)
Definition pop (h : gmap positive obj) (l : positive) (fkey : string)
    : outcome (gmap positive obj) :=
  match h !! l with
  | Some (Dict items) => Return (<[l := Dict (delete fkey items)]> h)
  | Some (List _) => Raise TypeError
  | None => Raise AttributeError
  end.

(** [for fkey in keys: value.pop(fkey, None)] *)
Fixpoint pop_all (h : gmap positive obj) (l : positive) (keys : list string)
    : outcome (gmap positive obj) :=
  match keys with
  | [] => Return h
  | fkey :: keys' =>
      match pop h l fkey with
      | Return h' => pop_all h' l keys'
      | Raise e => Raise e
      end
  end.

Section Compare.
(** The result type and the [compare] of the base class [Info], which
    looks at the store and at the value it is given. *)
Context {R : Type}.
Variable Info_compare :
  gmap positive obj -> value -> string -> option string -> R.

(** Perform comparison and update cached info after filtering [value]. *)
Definition compare (self : t) (h : gmap positive obj)
    (v : value) (section : string) (sub_section : option string)
    : outcome R * gmap positive obj :=
  let filtered : outcome (value * gmap positive obj) :=
    if bool_decide (filter_section self = None)
       || bool_decide (Some section = filter_section self)
    then
      match v with
      | Atom _ => Return (v, h)              (* except AttributeError: pass *)
      | Ref l =>
          match h !! l with
          | None => Return (v, h)
          | Some o =>
              let l' := fresh (dom h) in     (* value = value.copy() *)
              let h' := <[l' := o]> h in
              match pop_all h' l' (default [] (filter_keys self)) with
              | Return h'' => Return (Ref l', h'')
              | Raise e => Raise e
              end
          end
      end
    else Return (v, h) in
  match filtered with
  | Return (v', h') => (Return (Info_compare h' v' section sub_section), h')
  | Raise e => (Raise e, h)
  end.

End Compare.

(** Whether [compare] filters in a section: [filter_section] is unset or
    is that section. *)
Definition filters (self : t) (section : string) : Prop :=
  filter_section self = None \/ filter_section self = Some section.

(** What is left of a dictionary once the keys are popped. *)
Definition without (keys : list string) (items : gmap string value)
    : gmap string value :=
  List.fold_left (fun m k => delete k m) keys items.

(** A store with the requirements list at 1 and the python dictionary at 2. *)
Definition store : gmap positive obj :=
  {[ 1%positive := List [Atom "numpy"; Atom "scipy"];
     2%positive := Dict {[ "name" := Atom "py310"; "version" := Atom "3.10" ]} ]}.

End FilteredInfo.

(* ===================================================================== *)
(** ** plugin.py: the interpreter probe, the hooks and the search path *)
(* ===================================================================== *)

(** [os.linesep] on POSIX. *)
Definition linesep : string := String (ascii_of_nat 10) EmptyString.

(** [s.split(os.linesep)]: the pieces between line separators, empty ones
    included. *)
Fixpoint split_lines (cur s : string) : list string :=
  match s with
  | EmptyString => [cur]
  | String c s' =>
      if (nat_of_ascii c =? 10)%nat then cur :: split_lines "" s'
      else split_lines (cur +:+ String c EmptyString) s'
  end.

(** [\w] on ASCII: letters, digits and the underscore. *)
Definition is_word (c : ascii) : bool :=
  let n := nat_of_ascii c in
  is_digit c
  || ((65 <=? n)%nat && (n <=? 90)%nat)
  || ((97 <=? n)%nat && (n <=? 122)%nat)
  || (n =? 95)%nat.

(** The longest run of word characters at the start of a string, and what
    follows. *)
Fixpoint span_word (s : string) : string * string :=
  match s with
  | String c s' =>
      if is_word c then
        let '(w, rest) := span_word s' in (String c w, rest)
      else (EmptyString, s)
  | EmptyString => (EmptyString, EmptyString)
  end.

(** What follows the literal [lit] at the start of [s]. *)
Fixpoint after_literal (lit s : string) : option string :=
  match lit with
  | EmptyString => Some s
  | String a lit' =>
      match s with
      | String b s' => if Ascii.eqb a b then after_literal lit' s' else None
      | EmptyString => None
      end
  end.

(** The number that a string of ASCII digits writes in base ten. *)
Fixpoint int_of_digits (acc : N) (s : string) : N :=
  match s with
  | String c s' => int_of_digits (10 * acc + N.of_nat (nat_of_ascii c - 48))%N s'
  | EmptyString => acc
  end.

(** [(\d+)] followed by the literal [lit]. *)
Definition digits_then (lit s : string) : option (string * string) :=
  match span_digits s with
  | (EmptyString, _) => None
  | (ds, r) => r' ← after_literal lit r; Some (ds, r')
  end.

(** [(\w+)] followed by the literal [lit]. *)
Definition word_then (lit s : string) : option (string * string) :=
  match span_word s with
  | (EmptyString, _) => None
  | (w, r) => r' ← after_literal lit r; Some (w, r')
  end.

(** [re.match(r"sys\.version_info\(major=(\d+), minor=(\d+), micro=(\d+),
    releaselevel='(\w+)', serial=(\d+)\)", s)]: the five groups. Digits and
    word characters are those of ASCII: on a line of ASCII characters this
    is the match of Python. *)
Definition match_version_info (s : string)
    : option (string * string * string * string * string) :=
  r0 ← after_literal "sys.version_info(major=" s;
  '(g1, r1) ← digits_then ", minor=" r0;
  '(g2, r2) ← digits_then ", micro=" r1;
  '(g3, r3) ← digits_then ", releaselevel='" r2;
  '(g4, r4) ← word_then "', serial=" r3;
  '(g5, _) ← digits_then ")" r4;
  Some (g1, g2, g3, g4, g5).

Record VersionInfo : Type := mk_version_info {
  major : N;
  minor : N;
  micro : N;
  releaselevel : string;
  serial : N
}.

Record PythonInfo : Type := mk_python_info {
  implementation : string;
  version_info : VersionInfo;
  version : string;
  is_64 : bool;
  platform_name : string;
  extra : gmap string string
}.

(** The program that [_get_python] hands to the interpreter. *)
Definition probe_program : string :=
  "import os, platform, sys;"
  +:+ "print(platform.python_implementation());"
  +:+ "print(platform.sys.version_info);"
  +:+ " print(sys.version.split(os.linesep)[0]);"
  +:+ "print(sys.maxsize > 2**32);print(platform.system())".

(** The registry of environment runners that the host hands to
    [tox_register_tox_env]: the identifiers added, and the default one. *)
Record ToxEnvRegister : Type := mk_register {
  run_envs : gset string;
  default_env_runner : string
}.

(** One call of [env_conf.add_config]. *)
Inductive config_type : Type := OfStr | OfListStr | OfPythonDeps.

Inductive config_default : Type :=
  | DefaultNone
  | DefaultPythonDeps (raw : string).

Record ConfigDefinition : Type := mk_config {
  cd_key : string;
  cd_type : config_type;
  cd_desc : string;
  cd_default : config_default
}.

Section Hooks.
Context `{Platform}.

(** [CondaEnvRunner.id()] *)
Definition id_ : string := "conda".

(** [int(digits)] for a string of ASCII digits: [ValueError] when the
    string is longer than the limit of the interpreter. *)
Definition py_int (digits : string) : outcome N :=
  if (0 <? int_max_str_digits)%nat
     && (int_max_str_digits <? String.length digits)%nat
  then Raise ValueError
  else Return (int_of_digits 0 digits).

(** A digit string that [int()] converts: there is no limit, or the string
    is within it. *)
Definition int_fits (digits : string) : Prop :=
  (int_max_str_digits = 0 \/ String.length digits <= int_max_str_digits)%nat.

(** [CondaEnvRunner._get_python]; the interpreter is a process of its own
    and is not entered in the log of conda processes. *)
Definition _get_python (base_python : list string) (st : State)
    : outcome PythonInfo :=
  match base_python with
  | [] => Raise IndexError
  | exe_path :: _ =>
      let argv := [exe_path; "-c"; probe_program] in
      if can_start argv st then
        let p := spawn argv st in
        if decide (returncode p = 0) then
          match decode (stdout p) with
          | Some output =>
              match split_lines "" (str_strip output) with
              | [implementation; version_info; version; is_64; platform_name] =>
                  let is_64 := negb (String.eqb is_64 "") in
                  match match_version_info version_info with
                  | Some (g1, g2, g3, g4, g5) =>
                      let? major := py_int g1 in
                      let? minor := py_int g2 in
                      let? micro := py_int g3 in
                      let? serial := py_int g5 in
                      let version_info := mk_version_info major minor micro g4 serial in
                      let extra : gmap string string :=
                        {[ "executable_path" := exe_path ]} in
                      Return (mk_python_info implementation version_info version is_64
                                             platform_name extra)
                  | None => Raise AttributeError
                  end
              | _ => Raise ValueError
              end
          | None => Raise UnicodeDecodeError
          end
        else Raise (CalledProcessError argv (returncode p))
      else Raise OSError
  end.

(** [CondaEnvRunner.prepend_env_var_path] *)
Definition prepend_env_var_path : Py (list Path.t) :=
  let! conda_exe := find_conda in
  ret [Path.parent conda_exe].

(** [CondaEnvRunner._default_pass_env], on the list of the base class. *)
Definition _default_pass_env (base : list string) : list string :=
  (base ++ ["*CONDA*"])%list.

(** [tox_register_tox_env]: how it ends, and the registry it leaves, which
    the host sees also when the hook raises. *)
Definition tox_register_tox_env (register : ToxEnvRegister) (st : State)
    : outcome unit * ToxEnvRegister * State :=
  let register :=
    mk_register ({[ id_ ]} ∪ run_envs register) (default_env_runner register) in
  (* Change the default runner only if conda is available *)
  match find_conda st with
  | (Return _, st1) =>
      if bool_decide (is_Some (environ st1 !! "CONDA_DEFAULT_ENV"))
      then (Return tt, mk_register (run_envs register) "conda", st1)
      else (Return tt, register, st1)
  | (Raise (Fail _), st1) => (Return tt, register, st1)
  | (Raise e, st1) => (Raise e, register, st1)
  end.

(** [tox_add_env_config]: the definitions it adds to those of the
    environment; the default of [conda_deps] is the empty requirements
    text. *)
Definition tox_add_env_config (env_conf : list ConfigDefinition)
    : list ConfigDefinition :=
  (env_conf ++
   [ mk_config "conda_name" OfStr
       "Specifies the name of the conda environment. By default, .tox/<name> is used."
       DefaultNone;
     mk_config "conda_env" OfStr "specify a conda environment.yml file" DefaultNone;
     mk_config "conda_spec" OfStr "specify a conda spec-file.txt file" DefaultNone;
     mk_config "conda_deps" OfPythonDeps
       "each line specifies a conda dependency in pip/setuptools format"
       (DefaultPythonDeps "");
     mk_config "conda_channels" OfListStr "each line specifies a conda channel"
       DefaultNone;
     mk_config "conda_install_args" OfListStr
       "each line specifies a conda install argument" DefaultNone;
     mk_config "conda_create_args" OfListStr
       "each line specifies a conda create argument" DefaultNone ])%list.

End Hooks.

(** The configuration in which every conda setting is false for Python:
    absent or empty. *)
Definition nothing_set (c : Conf) : Prop :=
  truthy (conda_name c) = None /\ truthy (conda_env c) = None /\
  truthy (conda_spec c) = None /\ conda_deps c = [] /\
  truthy_list (conda_channels c) = None /\
  truthy_list (conda_install_args c) = None /\
  truthy_list (conda_create_args c) = None.

(** The value an environment has for a key it does not set: the default of
    the definition, [None] for [DefaultNone] and no requirement for an empty
    requirements text. *)
Definition default_is_false (d : config_default) : bool :=
  match d with
  | DefaultNone => true
  | DefaultPythonDeps raw => String.eqb raw ""
  end.

(** The ten keys of the [conda] dictionary. *)
Definition conda_keys : gset string :=
  {[ "env_spec"; "env"; "env_path"; "env_hash"; "deps"; "spec"; "spec_hash";
     "channels"; "install_args"; "create_args" ]}.

(** The version string of a matching [base_python]: one digit, then at most
    two dotted groups, the second of one digit. *)
Definition dotted (g0 : string) (g1 g2 : option string) : string :=
  g0 +:+ match g1 with Some g => "." +:+ g | None => "" end
     +:+ match g2 with Some g => "." +:+ g | None => "" end.

(** All characters of [s] satisfy [p]. *)
Fixpoint all_chars (p : ascii -> bool) (s : string) : bool :=
  match s with
  | String c s' => p c && all_chars p s'
  | EmptyString => true
  end.

(** A non-empty run of characters that satisfy [p]: what [p+] matches. *)
Definition run_of (p : ascii -> bool) (s : string) : bool :=
  negb (String.eqb s "") && all_chars p s.

(** What [print(sys.version_info)] writes for the five fields. *)
Definition version_info_repr (major minor micro releaselevel serial : string)
    : string :=
  "sys.version_info(major=" +:+ major +:+ ", minor=" +:+ minor
    +:+ ", micro=" +:+ micro +:+ ", releaselevel='" +:+ releaselevel
    +:+ "', serial=" +:+ serial +:+ ")".

(** A character of ASCII. *)
Definition is_ascii (c : ascii) : bool := (nat_of_ascii c <? 128)%nat.

(** A string or a list of strings. *)
Definition is_plain (v : cval) : Prop :=
  match v with
  | VStr _ | VList _ => True
  | VOther _ _ => False
  end.

(** The queries of the environment, each with the program it hands to the
    interpreter of the environment and the identifier of its run. *)
Definition query_programs `{Platform}
    : list ((Runner -> Py Path.t) * string * string) :=
  [ (env_site_package_dir,
     "from sysconfig import get_paths; print(get_paths()["
       +:+ dquote +:+ "purelib" +:+ dquote +:+ "])",
     "env_site_package_dir");
    (env_python, "import sys; print(sys.executable)", "env_python");
    (env_bin_dir,
     "from sysconfig import get_paths; print(get_paths()["
       +:+ dquote +:+ "scripts" +:+ dquote +:+ "])",
     "env_bin_dir") ].

(** The request that [_call_python_in_conda_env] hands to the executor. *)
Definition query_request (self : Runner) (c rid : string) : ExecuteRequest :=
  mk_request ["python"; "-c"; c] (change_dir (conf self))
             (environment_variables self) API rid None.

(** How many processes of a site a log has. *)
Definition count_site (s : site) (l : list call) : nat :=
  length (List.filter (fun c => bool_decide (c_site c = s)) l).

(** An interpreter to run the probe on: a 32-bit CPython 3.10.4. *)
Module Interpreter.

Definition answer : string :=
  "CPython" +:+ linesep
  +:+ "sys.version_info(major=3, minor=10, micro=4, releaselevel='final', serial=0)"
  +:+ linesep +:+ "3.10.4 (main, Jun  7 2022, 10:02:11) [GCC 11.2.0]" +:+ linesep
  +:+ "False" +:+ linesep +:+ "Linux" +:+ linesep.

Definition python (argv : list string) (st : State) : Completed :=
  if bool_decide (argv !! 1%nat = Some "-c") then mk_completed 0 answer "" ∅
  else mk_completed 0 "" "" ∅.

Definition platform : Platform := Sample.platform python.

(** The [conda] found on PATH is a file that cannot be started. *)
Definition not_startable (argv : list string) (st : State) : bool :=
  negb (bool_decide (argv !! 0%nat = Some "/usr/bin/conda")).

(** [conda] is on PATH only, and [conda -h] exits with 2. *)
Definition broken_help (argv : list string) (st : State) : Completed :=
  if bool_decide ("-h" ∈ argv) then mk_completed 2 "" "usage" ∅
  else mk_completed 0 "" "" ∅.

Definition world_path_only : State :=
  mk_state {[ "CONDA_DEFAULT_ENV" := "" ]} ["proj"] ∅ {[ "/proj" ]}
           (Some "/usr/bin/conda") false [].

(** What [_get_python] makes of [answer]. *)
Definition info : PythonInfo :=
  mk_python_info "CPython" (mk_version_info 3 10 4 "final" 0)
    "3.10.4 (main, Jun  7 2022, 10:02:11) [GCC 11.2.0]" true "Linux"
    {[ "executable_path" := "/usr/bin/python3" ]}.

(** A runner for the environment [/proj/.tox/py310] whose [base_python] is
    the one name [bp]; the host's interpreter is a Python 3.11. *)
Definition runner_for (bp : string) : Runner :=
  mk_runner (mk_conf [bp] None None None [] None None None "/proj")
            None (Path.of_string "/proj/.tox/py310") (Return "3.11") ∅ ∅.

(** A conda that lists [/proj/.tox/py310] and, for a command run inside an
    environment, prints the path of its interpreter on a line of its own. *)
Definition conda (argv : list string) (st : State) : Completed :=
  if bool_decide ("list" ∈ argv) then mk_completed 0 "/proj/.tox/py310" "" ∅
  else if bool_decide ("run" ∈ argv)
       then mk_completed 0 ("  /proj/.tox/py310/bin/python" +:+ linesep) "" ∅
       else mk_completed 0 "" "" ∅.

End Interpreter.

(* ===================================================================== *)
(** ** Properties *)
(* ===================================================================== *)

Lemma truthy_Some (o : option string) (s : string) :
  truthy o = Some s <-> o = Some s /\ s <> "".
Proof.
  unfold truthy. destruct o as [s'|]; [|split; [discriminate | intros [? _]; discriminate]].
  destruct (decide (s' = "")) as [->|Hne]; split.
  - discriminate.
  - intros [[= <-] Hs]. now elim Hs.
  - intros [= <-]. auto.
  - intros [[= <-] _]. reflexivity.
Qed.

(** A setting is set when it has a value and the value is not empty. *)
Lemma is_set_nonempty (o : option string) :
  is_set o <-> exists s, o = Some s /\ s <> "".
Proof.
  unfold is_set. split.
  - intros [s Hs]. exists s. now apply truthy_Some.
  - intros (s & Hs). exists s. now apply truthy_Some.
Qed.

Lemma is_set_list_cons (o : option (list string)) :
  is_set_list o <-> exists x l, o = Some (x :: l).
Proof.
  unfold is_set_list. destruct o as [[|x l]|]; simpl; split.
  all: try (intros [? ?]; discriminate).
  all: try (intros (? & ? & ?); discriminate).
  all: eauto.
Qed.

Section FindConda.
Context `{Platform}.

(** [find_conda] touches nothing but the directories and the log, and
    what it logs is its own probe. *)
Lemma find_conda_frame (st : State) :
  environ (snd (find_conda st)) = environ st /\
  cwd (snd (find_conda st)) = cwd st /\
  files (snd (find_conda st)) = files st /\
  which_conda (snd (find_conda st)) = which_conda st /\
  created (snd (find_conda st)) = created st /\
  exists new, log (snd (find_conda st)) = (log st ++ new)%list /\
              Forall (fun c => c_site c = ProbeConda) new.
Proof.
  unfold find_conda, bind, get, ret, raise. simpl.
  destruct (truthy (environ st !! "_CONDA_EXE")); simpl.
  { repeat split; exists []; rewrite app_nil_r; auto. }
  destruct (truthy (environ st !! "CONDA_EXE")); simpl.
  { repeat split; exists []; rewrite app_nil_r; auto. }
  destruct (truthy (which_conda st)); simpl.
  - unfold subprocess_run, run_process. destruct (can_start _ st); simpl.
    + repeat split. eexists; split; [reflexivity|]. repeat constructor.
    + repeat split; exists []; rewrite app_nil_r; auto.
  - repeat split; exists []; rewrite app_nil_r; auto.
Qed.

(** The three sources of [find_conda], in their order: [_CONDA_EXE] when
    that variable is set (present and non-empty, Python's truth test),
    otherwise [CONDA_EXE] when that is set, otherwise the result of the
    search for [conda] on PATH, which is probed with [-h]: the path is
    returned whatever the exit code of the probe, and [OSError] leaves
    [find_conda] when the probe cannot be started. With no source at all,
    [Fail "Failed to find 'conda' executable."] is raised. *)
Lemma find_conda_cases (st : State) :
  match truthy (environ st !! "_CONDA_EXE") with
  | Some exe => find_conda st = (Return (resolve_in st exe), st)
  | None =>
      match truthy (environ st !! "CONDA_EXE") with
      | Some exe => find_conda st = (Return (resolve_in st exe), st)
      | None =>
          match truthy (which_conda st) with
          | Some exe =>
              let argv := [Path.to_string (resolve_in st exe); "-h"] in
              find_conda st =
                if can_start argv st
                then (Return (resolve_in st exe), after_process ProbeConda argv st)
                else (Raise OSError, st)
          | None =>
              find_conda st = (Raise (Fail "Failed to find 'conda' executable."), st)
          end
      end
  end.
Proof.
  unfold find_conda, bind, get, ret, raise. simpl.
  destruct (truthy (environ st !! "_CONDA_EXE")); simpl; [reflexivity|].
  destruct (truthy (environ st !! "CONDA_EXE")); simpl; [reflexivity|].
  destruct (truthy (which_conda st)); simpl; [|reflexivity].
  unfold subprocess_run, run_process. destruct (can_start _ st); reflexivity.
Qed.

(** [find_conda] raises [Fail] exactly when all three sources yield
    nothing, and otherwise raises nothing but the [OSError] of a probe that
    cannot be started. *)
Lemma find_conda_raises (st : State) (e : exn) :
  fst (find_conda st) = Raise e ->
  (e = Fail "Failed to find 'conda' executable." /\
   truthy (environ st !! "_CONDA_EXE") = None /\
   truthy (environ st !! "CONDA_EXE") = None /\
   truthy (which_conda st) = None) \/
  (e = OSError /\ snd (find_conda st) = st /\
   truthy (environ st !! "_CONDA_EXE") = None /\
   truthy (environ st !! "CONDA_EXE") = None /\
   exists exe, truthy (which_conda st) = Some exe /\
     can_start [Path.to_string (resolve_in st exe); "-h"] st = false).
Proof.
  pose proof (find_conda_cases st) as Hc.
  destruct (truthy (environ st !! "_CONDA_EXE")); [rewrite Hc; discriminate|].
  destruct (truthy (environ st !! "CONDA_EXE")); [rewrite Hc; discriminate|].
  destruct (truthy (which_conda st)) as [exe|].
  - simpl in Hc. destruct (can_start _ st) eqn:Hs; rewrite Hc; simpl; [discriminate|].
    intros [= <-]. right. repeat split. eauto.
  - rewrite Hc. simpl. intros [= <-]. left. auto.
Qed.

End FindConda.

Ltac inv_outcome :=
  repeat match goal with
  | H : Return _ = Return _ |- _ => injection H as H; try subst
  | H : Raise _ = Return _ |- _ => discriminate H
  | H : obind ?o _ = Return _ |- _ =>
      let E := fresh "E" in destruct o eqn:E; simpl in H
  end.

Lemma lookup_opt_insert {A} (o : option A) (k : string) (f : A -> cval)
    (m : gmap string cval) (k' : string) :
  (match o with Some a => <[k := f a]> m | None => m end) !! k'
  = if decide (k = k')
    then match o with Some a => Some (f a) | None => m !! k' end
    else m !! k'.
Proof.
  destruct o; case_decide; subst; simplify_map_eq; reflexivity.
Qed.

Section PythonCache.
Context `{Platform}.

(** Every key of the [conda] dictionary that [python_cache] returns, in
    terms of the configuration. *)
Lemma python_cache_lookups (self : Runner) (st : State) (cache : gmap string entry) :
  python_cache self st = Return cache ->
  exists d : gmap string cval,
    cache = <["conda" := Conda d]> (Host <$> base_cache self) /\
    d !! "deps" = match conda_deps (conf self) with
                  | [] => None
                  | l => Some (VList l)
                  end /\
    d !! "spec" = VStr <$> truthy (conda_spec (conf self)) /\
    match truthy (conda_spec (conf self)) with
    | Some f => exists h, hash_file st (resolve_in st f) = Return h /\
                          d !! "spec_hash" = Some (VStr h)
    | None => d !! "spec_hash" = None
    end /\
    d !! "channels" = VList <$> truthy_list (conda_channels (conf self)) /\
    d !! "install_args" = VList <$> truthy_list (conda_install_args (conf self)) /\
    d !! "create_args" = VList <$> truthy_list (conda_create_args (conf self)) /\
    match effective_conda_name self with
    | Some n =>
        d !! "env_spec" = Some (VStr "-n") /\ d !! "env" = Some (VStr n) /\
        d !! "env_path" = None /\ d !! "env_hash" = None
    | None =>
        match truthy (conda_env (conf self)) with
        | Some ce =>
            exists doc name h,
              load_yaml st (resolve_in st ce) = Return (Mapping doc) /\
              ef_name doc = Some name /\
              hash_file st (resolve_in st ce) = Return h /\
              d !! "env_spec" = Some (VStr "-n") /\
              d !! "env" = Some name /\
              d !! "env_path" = Some (VStr (Path.to_string (resolve_in st ce))) /\
              d !! "env_hash" = Some (VStr h)
        | None =>
            d !! "env_spec" = Some (VStr "-p") /\
            d !! "env" = Some (VStr (Path.to_string (env_dir self))) /\
            d !! "env_path" = None /\ d !! "env_hash" = None
        end
    end.
Proof.
  unfold python_cache, effective_conda_name. intros Hc.
  inv_outcome.
  eexists. split; [reflexivity|].
  rewrite !lookup_opt_insert. simpl.
  destruct (truthy (conda_spec (conf self))) as [f|] eqn:Hsp; inv_outcome;
  destruct (conda_deps (conf self)) eqn:Hde;
  (destruct (truthy match truthy (options_conda_name self) with
          | Some n => Some n
          | None => conda_name (conf self)
          end) eqn:Hn;
   [|destruct (truthy (conda_env (conf self))) eqn:Hce]);
  inv_outcome; simplify_map_eq.
  all: try match goal with
       | E : match ?doc with Mapping _ => _ | NotMapping => _ end = Return _ |- _ =>
           destruct doc as [m|]; [destruct (ef_name m) eqn:?|]; inv_outcome
       end.
  all: repeat match goal with
       | |- _ /\ _ => split
       | |- exists _, _ => eexists
       | |- match ?o with _ => _ end = _ => destruct o; reflexivity
       | |- _ => eassumption || reflexivity
       end.
Qed.

(** [python_cache] returns exactly when the files it has to read can be
    read: the environment file, where it selects the environment, with its
    [name] and its hash, and the spec file with its hash. *)
Lemma python_cache_returns_iff (self : Runner) (st : State) :
  (exists cache, python_cache self st = Return cache) <->
  (is_Some (effective_conda_name self)
   \/ truthy (conda_env (conf self)) = None
   \/ exists ce doc name h,
        truthy (conda_env (conf self)) = Some ce /\
        load_yaml st (resolve_in st ce) = Return (Mapping doc) /\
        ef_name doc = Some name /\
        hash_file st (resolve_in st ce) = Return h) /\
  (truthy (conda_spec (conf self)) = None
   \/ exists f h, truthy (conda_spec (conf self)) = Some f /\
                  hash_file st (resolve_in st f) = Return h).
Proof.
  split.
  - intros [cache Hc]. destruct (python_cache_lookups _ _ _ Hc)
      as (d & _ & _ & _ & Hhash & _ & _ & _ & Hsel).
    split.
    + destruct (effective_conda_name self); [eauto|].
      destruct (truthy (conda_env (conf self))) as [ce|]; [|auto].
      destruct Hsel as (doc & name & h & ? & ? & ? & _). right; right.
      exists ce, doc, name, h. auto.
    + destruct (truthy (conda_spec (conf self))) as [f|]; [|auto].
      destruct Hhash as (h & ? & _). right. eauto.
  - intros [Hsel Hspec]. unfold python_cache.
    fold (effective_conda_name self).
    assert (exists d0,
      match effective_conda_name self with
      | Some n => Return (<["env" := VStr n]> (<["env_spec" := VStr "-n"]> ∅))
      | None =>
          match truthy (conda_env (conf self)) with
          | Some ce =>
              obind (load_yaml st (resolve_in st ce)) (fun env_file =>
              obind match env_file with
                    | Mapping m =>
                        match ef_name m with
                        | Some n => Return n
                        | None => Raise (KeyError "name")
                        end
                    | NotMapping => Raise TypeError
                    end (fun name =>
              obind (hash_file st (resolve_in st ce)) (fun h =>
              Return (<["env_hash" := VStr h]>
                        (<["env_path" := VStr (Path.to_string (resolve_in st ce))]>
                           (<["env" := name]>
                              (<["env_spec" := VStr "-n"]> ∅)))))))
          | None =>
              Return (<["env" := VStr (Path.to_string (env_dir self))]>
                        (<["env_spec" := VStr "-p"]> ∅))
          end
      end = Return d0) as [d0 ->].
    { destruct (effective_conda_name self) as [n|]; [eauto|].
      destruct Hsel as [[? ?]|[->|(ce & doc & name & h & -> & -> & Hname & ->)]];
        [discriminate|eauto|].
      simpl. rewrite Hname. simpl. eauto. }
    simpl.
    destruct Hspec as [->|(f & h & -> & ->)]; simpl; eauto.
Qed.

(** Every value of the [conda] dictionary is a string or a list of
    strings, the one under [env] apart. *)
Lemma python_cache_values (self : Runner) (st : State) (cache : gmap string entry) :
  python_cache self st = Return cache ->
  exists d : gmap string cval,
    cache = <["conda" := Conda d]> (Host <$> base_cache self) /\
    map_Forall (fun k v => k <> "env" -> is_plain v) d.
Proof.
  unfold python_cache. intros Hc.
  repeat (inv_outcome;
          match goal with
          | E : match ?o with _ => _ end = Return _ |- _ =>
              destruct o eqn:?; try discriminate E
          end).
  all: inv_outcome.
  all: eexists; (split; [reflexivity|]).
  all: repeat match goal with
       | |- map_Forall _ (match ?o with _ => _ end) => destruct o
       | |- map_Forall _ (<[_ := _]> _) =>
           apply map_Forall_insert_2; [simpl; first [tauto | congruence]|]
       | |- map_Forall _ ∅ => apply map_Forall_empty
       end.
Qed.

(** C5, as amended. The [conda] entry of the fingerprint that
    [python_cache] returns maps strings to strings or lists of strings,
    except that [env] holds the [name] of the environment file as YAML
    loads it (a string or not) when the file selects the environment, and a
    string otherwise; it always has the keys [env_spec] (a string) and
    [env]; it has [deps] exactly when [conda_deps] is non-empty, [spec] and
    [spec_hash] exactly when [conda_spec] is set, [channels] exactly when
    [conda_channels] is set and [install_args] exactly when
    [conda_install_args] is set (a setting is set when Python's truth test
    holds for it). *)
Theorem python_cache_conda_keys (self : Runner) (st : State)
    (cache : gmap string entry) :
  python_cache self st = Return cache ->
  exists d : gmap string cval,
    cache !! "conda" = Some (Conda d) /\
    (forall k v, d !! k = Some v -> k <> "env" -> is_plain v) /\
    (exists s, d !! "env_spec" = Some (VStr s)) /\
    is_Some (d !! "env") /\
    match effective_conda_name self, truthy (conda_env (conf self)) with
    | None, Some ce =>
        exists m, load_yaml st (resolve_in st ce) = Return (Mapping m) /\
                  is_Some (ef_name m) /\ d !! "env" = ef_name m
    | _, _ => exists e, d !! "env" = Some (VStr e)
    end /\
    (is_Some (d !! "deps") <-> conda_deps (conf self) <> []) /\
    (is_Some (d !! "spec") <-> is_set (conda_spec (conf self))) /\
    (is_Some (d !! "spec_hash") <-> is_set (conda_spec (conf self))) /\
    (is_Some (d !! "channels") <-> is_set_list (conda_channels (conf self))) /\
    (is_Some (d !! "install_args") <->
       is_set_list (conda_install_args (conf self))).
Proof.
  intros Hc. destruct (python_cache_lookups _ _ _ Hc)
    as (d & Hcache & Hdeps & Hspec & Hhash & Hch & Hia & _ & Hsel).
  destruct (python_cache_values _ _ _ Hc) as (d' & Heq & Hplain).
  assert (d' = d) as ->.
  { rewrite Hcache in Heq. apply (f_equal (fun m => m !! "conda")) in Heq.
    rewrite !lookup_insert_eq in Heq. now injection Heq. }
  subst cache. clear Heq.
  exists d. split; [apply lookup_insert_eq|].
  split; [intros k v Hk; exact (Hplain k v Hk)|].
  unfold is_set, is_set_list.
  rewrite Hdeps, Hspec, Hch, Hia, !fmap_is_Some.
  split; [|split; [|split]].
  - destruct (effective_conda_name self); [destruct Hsel as (? & ? & _); eauto|].
    destruct (truthy (conda_env (conf self))).
    + destruct Hsel as (? & ? & ? & _ & _ & _ & ? & ? & _); eauto.
    + destruct Hsel as (? & ? & _); eauto.
  - destruct (effective_conda_name self); [destruct Hsel as (? & -> & _); eauto|].
    destruct (truthy (conda_env (conf self))).
    + destruct Hsel as (? & ? & ? & _ & _ & _ & _ & -> & _); eauto.
    + destruct Hsel as (? & -> & _); eauto.
  - destruct (effective_conda_name self); [destruct Hsel as (? & ? & _); eauto|].
    destruct (truthy (conda_env (conf self))).
    + destruct Hsel as (m & name & ? & Hl & Hn & _ & _ & He & _).
      exists m. rewrite Hn, He. eauto.
    + destruct Hsel as (? & ? & _); eauto.
  - clear Hsel Hplain. repeat split; try tauto.
    + destruct (conda_deps (conf self)); [intros [? ?]|]; congruence.
    + destruct (conda_deps (conf self)); [congruence|eauto].
    + destruct (truthy (conda_spec (conf self))); [eauto|].
      rewrite Hhash. intros [? ?]; discriminate.
    + destruct (truthy (conda_spec (conf self))); [|intros [? ?]; discriminate].
      destruct Hhash as (h & _ & ->). eauto.
Qed.

(** The environment is selected in a fixed order (a setting is set when
    Python's truth test holds for it). When [conda_name] is
    set (the option of the runner before the configuration value) the
    fingerprint has [env_spec = "-n"] and that name; otherwise, when
    [conda_env] is set, it has [env_spec = "-n"], the [name] of the YAML
    file, the resolved path of the file and the hash [hash_file] gives for
    that path; otherwise it has [env_spec = "-p"] and the environment
    directory. *)
Lemma python_cache_env_precedence (self : Runner) (st : State)
    (cache : gmap string entry) :
  python_cache self st = Return cache ->
  exists d : gmap string cval,
    cache !! "conda" = Some (Conda d) /\
    (forall n, truthy (options_conda_name self) = Some n ->
       d !! "env_spec" = Some (VStr "-n") /\ d !! "env" = Some (VStr n)) /\
    (truthy (options_conda_name self) = None ->
     forall n, truthy (conda_name (conf self)) = Some n ->
       d !! "env_spec" = Some (VStr "-n") /\ d !! "env" = Some (VStr n)) /\
    (truthy (options_conda_name self) = None ->
     truthy (conda_name (conf self)) = None ->
     match truthy (conda_env (conf self)) with
     | Some ce =>
         exists doc name h,
           load_yaml st (resolve_in st ce) = Return (Mapping doc) /\
           ef_name doc = Some name /\
           hash_file st (resolve_in st ce) = Return h /\
           d !! "env_spec" = Some (VStr "-n") /\
           d !! "env" = Some name /\
           d !! "env_path" = Some (VStr (Path.to_string (resolve_in st ce))) /\
           d !! "env_hash" = Some (VStr h)
     | None =>
         d !! "env_spec" = Some (VStr "-p") /\
         d !! "env" = Some (VStr (Path.to_string (env_dir self)))
     end).
Proof.
  intros Hc. destruct (python_cache_lookups _ _ _ Hc)
    as (d & -> & _ & _ & _ & _ & _ & _ & Hsel).
  exists d. split; [apply lookup_insert_eq|].
  unfold effective_conda_name in Hsel.
  assert (forall n o, truthy o = Some n -> truthy (Some n) = Some n) as Hidem.
  { intros n o Hn. apply truthy_Some. split; [reflexivity|].
    now apply truthy_Some in Hn. }
  split; [|split].
  - intros n Hn. rewrite Hn, (Hidem _ _ Hn) in Hsel. tauto.
  - intros Ho n Hn. rewrite Ho, Hn in Hsel. tauto.
  - intros Ho Hn. rewrite Ho, Hn in Hsel.
    destruct (truthy (conda_env (conf self))); [exact Hsel|tauto].
Qed.

End PythonCache.

Lemma append_assoc (s1 s2 s3 : string) : (s1 +:+ s2) +:+ s3 = s1 +:+ s2 +:+ s3.
Proof.
  induction s1 as [|c s1 IH]; [reflexivity|].
  change (String c ((s1 +:+ s2) +:+ s3) = String c (s1 +:+ s2 +:+ s3)).
  now rewrite IH.
Qed.

Lemma append_nil_r (s : string) : s +:+ "" = s.
Proof.
  induction s as [|c s IH]; [reflexivity|].
  change (String c (s +:+ "") = String c s). now rewrite IH.
Qed.

Lemma fold_left_append (f : string -> string) (l : list string) (acc : string) :
  fold_left (fun cmd x => cmd +:+ f x) l acc = acc +:+ cat (f <$> l).
Proof.
  revert acc. induction l as [|x l IH]; intros acc; simpl.
  - now rewrite append_nil_r.
  - rewrite IH. apply append_assoc.
Qed.

Section CommandLines.
Context `{Platform}.

Lemma get_items_list (d : gmap string cval) (k : string) (o : option (list string)) :
  d !! k = VList <$> truthy_list o -> get_items d k = Return (default [] o).
Proof.
  unfold get_items. intros ->. destruct o as [[|x l]|]; reflexivity.
Qed.

(** The selection always leaves [env_spec], a string, and [env]. *)
Lemma python_cache_env (self : Runner) (st : State) (d : gmap string cval) :
  python_cache self st = Return (<["conda" := Conda d]> (Host <$> base_cache self)) ->
  exists s e, d !! "env_spec" = Some (VStr s) /\ d !! "env" = Some e.
Proof.
  intros Hc. destruct (python_cache_lookups _ _ _ Hc)
    as (d' & Heq & _ & _ & _ & _ & _ & _ & Hsel).
  assert (d' = d) as ->.
  { apply (f_equal (fun m => m !! "conda")) in Heq.
    rewrite !lookup_insert_eq in Heq. congruence. }
  destruct (effective_conda_name self); [destruct Hsel as (? & ? & _); eauto|].
  destruct (truthy (conda_env (conf self))).
  + destruct Hsel as (? & ? & ? & _ & _ & _ & ? & ? & _); eauto.
  + destruct Hsel as (? & ? & _); eauto.
Qed.

Lemma conda_entry_inv (self : Runner) (cache : gmap string entry)
    (d d' : gmap string cval) :
  cache = <["conda" := Conda d']> (Host <$> base_cache self) ->
  conda_entry cache = Return d -> d' = d.
Proof.
  intros -> Hd. unfold conda_entry in Hd. rewrite lookup_insert_eq in Hd.
  congruence.
Qed.

(** The installation command for the fingerprint of a configuration. *)
Lemma generate_install_command_line (self : Runner) (st : State)
    (cache : gmap string entry) (d : gmap string cval)
    (exe : Path.t) (python : string) :
  python_cache self st = Return cache ->
  conda_entry cache = Return d ->
  exists s e,
    d !! "env_spec" = Some (VStr s) /\ d !! "env" = Some e /\
    _generate_install_command exe python d =
      Return (if bool_decide (conda_deps (conf self) = [])
                 && bool_decide (truthy (conda_spec (conf self)) = None)
              then None
              else Some (install_command_line exe python s (py_str e)
                           (default [] (conda_channels (conf self)))
                           (default [] (conda_install_args (conf self)))
                           (conda_deps (conf self))
                           (truthy (conda_spec (conf self))))).
Proof.
  intros Hc Hd. destruct (python_cache_lookups _ _ _ Hc)
    as (d' & Heq & Hdeps & Hspec & _ & Hch & Hia & _ & _).
  pose proof (conda_entry_inv _ _ _ _ Heq Hd) as ->. subst cache.
  destruct (python_cache_env _ _ _ Hc) as (s & e & Hs & He).
  exists s, e. split; [exact Hs|]. split; [exact He|].
  unfold _generate_install_command, install_command_line, getitem.
  rewrite Hs, He, Hdeps, Hspec. simpl.
  rewrite (get_items_list _ _ _ Hch), (get_items_list _ _ _ Hia).
  assert (get_items d "deps" = Return (conda_deps (conf self))) as ->.
  { unfold get_items. rewrite Hdeps. now destruct (conda_deps (conf self)). }
  simpl. rewrite !fold_left_append.
  destruct (conda_deps (conf self)) as [|dep deps] eqn:Hde;
    destruct (truthy (conda_spec (conf self))) as [f|] eqn:Hsp; simpl.
  all: try reflexivity.
  all: rewrite ?append_assoc, ?append_nil_r; reflexivity.
Qed.

End CommandLines.

Lemma bind_run {A B} (m : Py A) (k : A -> Py B) (st : State) :
  bind m k st = match m st with
                | (Return a, st') => k a st'
                | (Raise e, st') => (Raise e, st')
                end.
Proof. reflexivity. Qed.

Lemma prefix_append (s t : string) : String.prefix s (s +:+ t) = true.
Proof.
  induction s as [|c s IH]; [now destruct t|].
  change (String c s +:+ t) with (String c (s +:+ t)). simpl.
  destruct (ascii_dec c c); [exact IH | congruence].
Qed.

Section Create.
Context `{Platform}.

Lemma generate_create_command_safe exe python d st :
  log (snd (_generate_create_command exe python d st)) = log st /\
  created (snd (_generate_create_command exe python d st)) = created st /\
  forall line td, fst (_generate_create_command exe python d st) = Return (line, td) ->
    safe_tear_down td (snd (_generate_create_command exe python d st)).
Proof.
  unfold _generate_create_command, bind, of_outcome, ret, getitem.
  destruct (d !! "env_spec"); simpl; [|repeat split; discriminate].
  destruct (d !! "env"); simpl; [|repeat split; discriminate].
  destruct (get_items d "create_args"); simpl; [|repeat split; discriminate].
  repeat split. intros line td [= _ <-] st' _ _. eauto.
Qed.

Lemma generate_env_create_command_safe exe python d st :
  log (snd (_generate_env_create_command exe python d st)) = log st /\
  created (snd (_generate_env_create_command exe python d st)) = created st /\
  forall line td, fst (_generate_env_create_command exe python d st) = Return (line, td) ->
    safe_tear_down td (snd (_generate_env_create_command exe python d st)).
Proof.
  unfold _generate_env_create_command, write_file, bind, of_outcome, ret, raise,
    get, getitem.
  simpl.
  destruct (d !! "env_path") as [[s|l|t i]|]; simpl;
    try (repeat split; discriminate).
  destruct (load_yaml st (resolve_in st s)) as [[doc|]|e]; simpl;
    try (repeat split; discriminate).
  destruct (ef_dependencies doc) as [[deps|]|]; simpl;
    try (repeat split; discriminate).
  split; [reflexivity|]. split; [reflexivity|].
  intros line td [= _ <-] st' Hf Hc.
  unfold unlink, bind, get, set_files, modify, resolve_in. simpl.
  rewrite Hf, Hc. simpl. unfold resolve_in. rewrite lookup_insert_eq. eauto.
Qed.

Lemma install_block_runs (line : string) (st3 st' : State) (r : outcome unit) :
  except_called_process_error
    (bind (shlex_split_py line)
       (fun install_command_args =>
          bind (subprocess_run_check InstallDeps install_command_args)
            (fun _ => ret tt)))
    (fun c code =>
       raise (Fail ("Failed to install dependencies in conda environment. Error: "
                    +:+ str_of_called_process_error c code)))
    st3 = (r, st') ->
  created st' = created st3 /\
  ((log st' = log st3 /\ (r = Raise ValueError \/ r = Raise OSError))
  \/ exists argv' code,
       log st' = (log st3 ++ [mk_call InstallDeps argv' code])%list /\
       ((code = 0 /\ r = Return tt)
        \/ (code <> 0 /\
            exists msg, r = Raise (Fail msg) /\
              String.prefix "Failed to install dependencies in conda environment."
                            msg = true))).
Proof.
  unfold except_called_process_error. rewrite bind_run.
  unfold shlex_split_py. destruct (shlex_split line) as [argv'|].
  2: { unfold raise. intros [= <- <-]. split; [reflexivity|]. left. auto. }
  unfold ret at 1. rewrite bind_run. unfold subprocess_run_check.
  rewrite bind_run. unfold subprocess_run, run_process.
  destruct (can_start argv' st3).
  2: { intros [= <- <-]. split; [reflexivity|]. left. auto. }
  destruct (decide (returncode (spawn argv' st3) = 0)) as [Hz|Hnz].
  - unfold ret. intros [= <- <-]. split; [reflexivity|].
    right. exists argv', 0. simpl. rewrite Hz. auto.
  - unfold raise. intros [= <- <-]. split; [reflexivity|]. right.
    exists argv', (returncode (spawn argv' st3)). simpl.
    split; [reflexivity|]. right. split; [exact Hnz|].
    eexists. split; [reflexivity|].
    apply (prefix_append "Failed to install dependencies in conda environment."
                         (" Error: " +:+ _)).
Qed.

Lemma create_python_env_runs (self : Runner) (st : State) :
  exists probes, Forall (fun c => c_site c = ProbeConda) probes /\
  ( (log (snd (create_python_env self st)) = (log st ++ probes)%list /\
     exists e, fst (create_python_env self st) = Raise e)
  \/ (exists line argv before code,
        creation_argv self st line argv before /\
        code = returncode (spawn argv before) /\
        log (snd (create_python_env self st))
          = (log st ++ probes ++ [mk_call CreateEnv argv code])%list /\
        code <> 0 /\
        exists msg, fst (create_python_env self st) = Raise (Fail msg) /\
                    String.prefix "Failed to create '" msg = true)
  \/ (exists line argv before,
        creation_argv self st line argv before /\
        returncode (spawn argv before) = 0 /\
        log (snd (create_python_env self st))
          = (log st ++ probes ++ [mk_call CreateEnv argv 0])%list /\
        ((conda_deps (conf self) = [] /\ truthy (conda_spec (conf self)) = None /\
          fst (create_python_env self st) = Return tt)
         \/ ((conda_deps (conf self) <> [] \/ truthy (conda_spec (conf self)) <> None) /\
             (fst (create_python_env self st) = Raise ValueError \/
              fst (create_python_env self st) = Raise OSError))))
  \/ (exists line argv before argv' code,
        creation_argv self st line argv before /\
        returncode (spawn argv before) = 0 /\
        log (snd (create_python_env self st))
          = (log st ++ probes
               ++ [mk_call CreateEnv argv 0; mk_call InstallDeps argv' code])%list /\
        (conda_deps (conf self) <> [] \/ truthy (conda_spec (conf self)) <> None) /\
        ((code = 0 /\ fst (create_python_env self st) = Return tt)
         \/ (code <> 0 /\
             exists msg, fst (create_python_env self st) = Raise (Fail msg) /\
               String.prefix "Failed to install dependencies in conda environment."
                             msg = true)))).
Proof.
  destruct (find_conda_frame st) as (_ & Hcwd & Hfiles & _ & _ & probes & Hlog & Hprobes).
  exists probes. split; [exact Hprobes|].
  destruct (create_python_env self st) as [r st'] eqn:Hrun. simpl.
  unfold create_python_env in Hrun. rewrite bind_run in Hrun.
  destruct (find_conda st) as [[exe|e] st1] eqn:Hfc; simpl in Hlog, Hcwd, Hfiles;
    [|injection Hrun as <- <-; left; eauto].
  rewrite bind_run in Hrun. unfold of_outcome at 1 in Hrun.
  destruct (_get_python_env_version self) as [v|e] eqn:Hv;
    [|injection Hrun as <- <-; left; eauto].
  rewrite bind_run in Hrun. unfold lift at 1 in Hrun.
  destruct (python_cache self st1) as [cache|e] eqn:Hpc;
    [|injection Hrun as <- <-; left; eauto].
  rewrite bind_run in Hrun. unfold of_outcome at 1 in Hrun.
  destruct (conda_entry cache) as [d|e] eqn:Hd;
    [|injection Hrun as <- <-; left; eauto].
  rewrite bind_run in Hrun.
  set (gen := match truthy (conda_env (conf self)) with
              | Some _ => _generate_env_create_command exe ("python=" +:+ v) d
              | None => _generate_create_command exe ("python=" +:+ v) d
              end) in Hrun.
  assert (log (snd (gen st1)) = log st1 /\
          created (snd (gen st1)) = created st1 /\
          forall line td, fst (gen st1) = Return (line, td) ->
            safe_tear_down td (snd (gen st1))) as (Hglog & Hgcr & Hsafe).
  { subst gen. destruct (truthy (conda_env (conf self)));
      [apply generate_env_create_command_safe | apply generate_create_command_safe]. }
  destruct (gen st1) as [[[line td]|e] st2] eqn:Hgen; simpl in Hglog;
    [|injection Hrun as <- <-; left; split; [congruence|eauto]].
  specialize (Hsafe line td eq_refl). simpl in Hsafe. subst gen.
  rewrite bind_run in Hrun.
  unfold try_finally at 1 in Hrun.
  unfold except_called_process_error at 1 in Hrun.
  rewrite bind_run in Hrun. unfold shlex_split_py at 1 in Hrun.
  destruct (shlex_split line) as [argv|] eqn:Hsplit.
  2: { unfold raise at 1 in Hrun.
       destruct (Hsafe st2 eq_refl eq_refl) as (st3 & Htd & Hl3 & _).
       rewrite Htd in Hrun. injection Hrun as <- <-. left.
       split; [congruence|eauto]. }
  assert (creation_argv self st line argv st2) as Hca.
  { exists exe, st1, v, cache, d, td. auto 10. }
  unfold ret at 1 in Hrun. rewrite bind_run in Hrun.
  unfold subprocess_run_check at 1 in Hrun. rewrite bind_run in Hrun.
  unfold subprocess_run at 1 in Hrun. unfold run_process at 1 in Hrun.
  destruct (can_start argv st2).
  2: { destruct (Hsafe st2 eq_refl eq_refl) as (st3 & Htd & Hl3 & _).
       rewrite Htd in Hrun. injection Hrun as <- <-. left.
       split; [congruence|eauto]. }
  destruct (Hsafe (after_process CreateEnv argv st2) eq_refl eq_refl)
    as (st3 & Htd & Hl3 & _).
  simpl in Hl3. rewrite Hglog, Hlog in Hl3.
  destruct (decide (returncode (spawn argv st2) = 0)) as [Hz|Hnz].
  2: { unfold raise in Hrun. rewrite Htd in Hrun. injection Hrun as <- <-.
       right; left. exists line, argv, st2, (returncode (spawn argv st2)).
       rewrite Hl3, <- app_assoc. split; [exact Hca|].
       split; [reflexivity|]. split; [reflexivity|]. split; [exact Hnz|].
       eexists. split; [reflexivity | apply prefix_append]. }
  unfold ret at 1 2 in Hrun. rewrite Htd in Hrun. rewrite Hz in Hl3.
  rewrite <- app_assoc in Hl3.
  rewrite bind_run in Hrun. unfold of_outcome at 1 in Hrun.
  destruct (generate_install_command_line self st1 cache d exe ("python=" +:+ v) Hpc Hd)
    as (s & e & _ & _ & Hinst).
  rewrite Hinst in Hrun. clear Hinst.
  destruct (conda_deps (conf self)) as [|dep deps] eqn:Hdeps;
    destruct (truthy (conda_spec (conf self))) as [f|] eqn:Hspec;
    simpl in Hrun.
  - apply install_block_runs in Hrun.
    destruct Hrun as [_ [[Hl Hr]|(argv' & code & Hl & Hcode)]].
    + right; right; left. exists line, argv, st2.
      split; [exact Hca|]. split; [exact Hz|]. split; [congruence|].
      right. split; [right; discriminate | exact Hr].
    + right; right; right. exists line, argv, st2, argv', code.
      rewrite Hl, Hl3, <- !app_assoc. split; [exact Hca|]. split; [exact Hz|].
      split; [reflexivity|].
      split; [right; discriminate | exact Hcode].
  - unfold ret in Hrun. injection Hrun as <- <-.
    right; right; left. exists line, argv, st2. auto 10.
  - apply install_block_runs in Hrun.
    destruct Hrun as [_ [[Hl Hr]|(argv' & code & Hl & Hcode)]].
    + right; right; left. exists line, argv, st2.
      split; [exact Hca|]. split; [exact Hz|]. split; [congruence|].
      right. split; [left; discriminate | exact Hr].
    + right; right; right. exists line, argv, st2, argv', code.
      rewrite Hl, Hl3, <- !app_assoc. split; [exact Hca|]. split; [exact Hz|].
      split; [reflexivity|].
      split; [left; discriminate | exact Hcode].
  - apply install_block_runs in Hrun.
    destruct Hrun as [_ [[Hl Hr]|(argv' & code & Hl & Hcode)]].
    + right; right; left. exists line, argv, st2.
      split; [exact Hca|]. split; [exact Hz|]. split; [congruence|].
      right. split; [left; discriminate | exact Hr].
    + right; right; right. exists line, argv, st2, argv', code.
      rewrite Hl, Hl3, <- !app_assoc. split; [exact Hca|]. split; [exact Hz|].
      split; [reflexivity|].
      split; [left; discriminate | exact Hcode].
Qed.
End Create.

Section CreatePythonEnv.
Context `{Platform}.

(** C2. For the fingerprint of a configuration,
    [_generate_install_command] returns a command exactly when the
    fingerprint has [deps] or [spec]; the command is
    ['<conda>' install --quiet --yes <env_spec> '<env>'] followed by
    [--channel <c>] for each configured channel, each install argument,
    the python pin, each dependency and at last [--file=<spec>] when a
    spec file is configured, where [<env>] is [str()] of the value under
    [env]; and when it returns nothing, [create_python_env] spawns no
    install process. *)
Theorem install_command_of_fingerprint (self : Runner) (st : State)
    (cache : gmap string entry) (d : gmap string cval)
    (exe : Path.t) (python : string) :
  python_cache self st = Return cache ->
  conda_entry cache = Return d ->
  ((exists line, _generate_install_command exe python d = Return (Some line))
     <-> (is_Some (d !! "deps") \/ is_Some (d !! "spec"))) /\
  (exists s e,
     d !! "env_spec" = Some (VStr s) /\ d !! "env" = Some e /\
     (is_Some (d !! "deps") \/ is_Some (d !! "spec") ->
      _generate_install_command exe python d =
        Return (Some (install_command_line exe python s (py_str e)
                        (default [] (conda_channels (conf self)))
                        (default [] (conda_install_args (conf self)))
                        (conda_deps (conf self))
                        (truthy (conda_spec (conf self))))))) /\
  (_generate_install_command exe python d = Return None ->
   forall st0 c, c ∈ log (snd (create_python_env self st0)) ->
                 c_site c = InstallDeps -> c ∈ log st0).
Proof.
  intros Hc Hd.
  destruct (generate_install_command_line self st cache d exe python Hc Hd)
    as (s & e & Hs & He & Hgen).
  destruct (python_cache_lookups _ _ _ Hc)
    as (d' & Heq & Hdeps & Hspec & _).
  pose proof (conda_entry_inv _ _ _ _ Heq Hd) as ->. clear Heq.
  assert ((is_Some (d !! "deps") \/ is_Some (d !! "spec")) <->
          (conda_deps (conf self) <> [] \/ truthy (conda_spec (conf self)) <> None))
    as Hkeys.
  { rewrite Hdeps, Hspec, fmap_is_Some.
    destruct (conda_deps (conf self)); destruct (truthy (conda_spec (conf self)));
      split; intros [?|?]; eauto; try congruence;
      try (destruct H0 as [? ?]; discriminate);
      try (left; discriminate); try (right; discriminate). }
  rewrite Hgen. split; [|split].
  - rewrite Hkeys.
    destruct (conda_deps (conf self)); destruct (truthy (conda_spec (conf self)));
      simpl; split; eauto; try (intros [? ?]; discriminate);
      try (intros [?|?]; congruence);
      try (intros _; left; discriminate); try (intros _; right; discriminate).
  - exists s, e. split; [exact Hs|]. split; [exact He|].
    rewrite Hkeys.
    destruct (conda_deps (conf self)); destruct (truthy (conda_spec (conf self)));
      simpl; try reflexivity. intros [?|?]; congruence.
  - intros Hnone st0 c Hin Hsite.
    assert (conda_deps (conf self) = [] /\ truthy (conda_spec (conf self)) = None)
      as [Hnd Hns].
    { destruct (conda_deps (conf self)); destruct (truthy (conda_spec (conf self)));
        simpl in Hnone; try discriminate; auto. }
    destruct (create_python_env_runs self st0) as (probes & Hprobes & Hcases).
    rewrite Forall_forall in Hprobes.
    assert (forall x, x ∈ probes -> c_site x <> InstallDeps) as Hp.
    { intros x Hx. rewrite (Hprobes x Hx). discriminate. }
    destruct Hcases as [[Hl _]|[(? & argv & ? & code & _ & _ & Hl & _)
                       |[(? & argv & ? & _ & _ & Hl & _)
                       |(? & argv & ? & argv' & code & _ & _ & _ & [Hx|Hx] & _)]]];
      try congruence.
    all: rewrite Hl in Hin; rewrite ?elem_of_app in Hin.
    + destruct Hin as [?|Hin]; [assumption|]. now apply Hp in Hin.
    + destruct Hin as [?|[Hin|Hin]]; [assumption|now apply Hp in Hin|].
      apply list_elem_of_singleton in Hin. subst c. discriminate.
    + destruct Hin as [?|[Hin|Hin]]; [assumption|now apply Hp in Hin|].
      apply list_elem_of_singleton in Hin. subst c. discriminate.
Qed.

(** C3. Whenever the creation process or the installation process that
    [create_python_env] spawns exits with a nonzero code, [Fail] is raised
    with a message that names the step; when both exit with code zero no
    error is raised. *)
Theorem create_python_env_exit_codes (self : Runner) (st : State) :
  exists new,
    log (snd (create_python_env self st)) = (log st ++ new)%list /\
    (forall c, c ∈ new -> c_site c = CreateEnv -> c_code c <> 0 ->
       exists msg, fst (create_python_env self st) = Raise (Fail msg) /\
                   String.prefix "Failed to create '" msg = true) /\
    (forall c, c ∈ new -> c_site c = InstallDeps -> c_code c <> 0 ->
       exists msg, fst (create_python_env self st) = Raise (Fail msg) /\
                   String.prefix
                     "Failed to install dependencies in conda environment." msg
                   = true) /\
    ((exists c, c ∈ new /\ c_site c = CreateEnv /\ c_code c = 0) ->
     (exists c, c ∈ new /\ c_site c = InstallDeps /\ c_code c = 0) ->
     fst (create_python_env self st) = Return tt).
Proof.
  destruct (create_python_env_runs self st) as (probes & Hprobes & Hcases).
  rewrite Forall_forall in Hprobes.
  assert (forall x, x ∈ probes -> c_site x = CreateEnv \/ c_site x = InstallDeps -> False)
    as Hp.
  { intros x Hx [Hs|Hs]; rewrite (Hprobes x Hx) in Hs; discriminate. }
  destruct Hcases as [[Hl _]|[(? & argv & ? & code & _ & _ & Hl & Hnz & Hmsg)
                     |[(? & argv & ? & _ & _ & Hl & _)
                     |(? & argv & ? & argv' & code & _ & _ & Hl & _ & Hcode)]]];
    rewrite Hl; eexists; (split; [reflexivity|]).
  - repeat split.
    + intros c Hc Hs _. exfalso. eauto.
    + intros c Hc Hs _. exfalso. eauto.
    + intros (c & Hc & Hs & _). exfalso. eauto.
  - repeat split.
    + intros _ _ _ _. exact Hmsg.
    + intros c Hc Hs _. exfalso. apply elem_of_app in Hc as [Hc|Hc]; [eauto|].
      apply list_elem_of_singleton in Hc. subst c. discriminate.
    + intros _ (c & Hc & Hs & _). exfalso.
      apply elem_of_app in Hc as [Hc|Hc]; [eauto|].
      apply list_elem_of_singleton in Hc. subst c. discriminate.
  - repeat split.
    + intros c Hc Hs Hnz. exfalso. apply elem_of_app in Hc as [Hc|Hc]; [eauto|].
      apply list_elem_of_singleton in Hc. subst c. now apply Hnz.
    + intros c Hc Hs _. exfalso. apply elem_of_app in Hc as [Hc|Hc]; [eauto|].
      apply list_elem_of_singleton in Hc. subst c. discriminate.
    + intros _ (c & Hc & Hs & _). exfalso.
      apply elem_of_app in Hc as [Hc|Hc]; [eauto|].
      apply list_elem_of_singleton in Hc. subst c. discriminate.
  - repeat split.
    + intros c Hc Hs Hnz. exfalso. apply elem_of_app in Hc as [Hc|Hc]; [eauto|].
      apply elem_of_cons in Hc as [->|Hc]; [now apply Hnz|].
      apply list_elem_of_singleton in Hc. subst c. discriminate.
    + intros c Hc Hs Hnz. apply elem_of_app in Hc as [Hc|Hc]; [exfalso; eauto|].
      apply elem_of_cons in Hc as [->|Hc]; [discriminate|].
      apply list_elem_of_singleton in Hc. subst c. simpl in Hnz.
      destruct Hcode as [[-> _]|[_ Hmsg]]; [now elim Hnz | exact Hmsg].
    + intros _ (c & Hc & Hs & Hz).
      apply elem_of_app in Hc as [Hc|Hc]; [exfalso; eauto|].
      apply elem_of_cons in Hc as [->|Hc]; [discriminate|].
      apply list_elem_of_singleton in Hc. subst c. simpl in Hz.
      destruct Hcode as [[_ Hr]|[Hnz _]]; [exact Hr | now elim Hnz].
Qed.

End CreatePythonEnv.

Section CreationCommand.
Context `{Platform}.

(** Without an environment file the creation line is
    ['<conda>' create <env_spec> '<env>' python=<version> --yes --quiet]
    followed by the creation arguments, each in single quotes. *)
Lemma generate_create_command_line (self : Runner) (st st' : State)
    (cache : gmap string entry) (d : gmap string cval)
    (exe : Path.t) (python : string) :
  python_cache self st = Return cache ->
  conda_entry cache = Return d ->
  exists s e,
    d !! "env_spec" = Some (VStr s) /\ d !! "env" = Some e /\
    exists td,
      _generate_create_command exe python d st'
      = (Return (create_command_line exe python s (py_str e)
                   (default [] (conda_create_args (conf self))), td), st') /\
      td = ret tt.
Proof.
  intros Hc Hd. destruct (python_cache_lookups _ _ _ Hc)
    as (d' & Heq & _ & _ & _ & _ & _ & Hca & _).
  pose proof (conda_entry_inv _ _ _ _ Heq Hd) as ->. subst cache.
  destruct (python_cache_env _ _ _ Hc) as (s & e & Hs & He).
  exists s, e. split; [exact Hs|]. split; [exact He|].
  eexists. split; [|reflexivity].
  unfold _generate_create_command, bind, of_outcome, getitem, ret.
  rewrite Hs, He. simpl.
  rewrite (get_items_list _ _ _ Hca). simpl.
  rewrite (fold_left_append (fun arg => " '" +:+ arg +:+ "'")).
  unfold create_command_line. rewrite ?append_assoc. reflexivity.
Qed.

(** With an environment file, and no environment name, the creation line
    is ['<conda>' env create --file '<tmp>' --quiet --force] and [<tmp>]
    holds the environment file with the python pin as its last
    dependency. *)
Lemma generate_env_create_command_line (self : Runner) (st : State)
    (cache : gmap string entry) (d : gmap string cval)
    (exe : Path.t) (python ce : string) (doc : EnvFile) (deps : list dependency) :
  effective_conda_name self = None ->
  truthy (conda_env (conf self)) = Some ce ->
  python_cache self st = Return cache ->
  conda_entry cache = Return d ->
  let env_path := resolve_in st (Path.to_string (resolve_in st ce)) in
  let tmp := tmp_env_file_name env_path (mkstemp_infix st) in
  load_yaml st env_path = Return (Mapping doc) ->
  ef_dependencies doc = Some (Some deps) ->
  exists td st2,
    _generate_env_create_command exe python d st
    = (Return (env_create_command_line exe tmp, td), st2) /\
    files st2 !! Path.to_string (resolve_in st tmp)
    = Some (yaml_dump (with_dependency doc deps python)) /\
    (forall p, p <> Path.to_string (resolve_in st tmp) ->
               files st2 !! p = files st !! p) /\
    td = unlink tmp.
Proof.
  intros Hn Hce Hc Hd env_path tmp Hdoc Hdeps.
  destruct (python_cache_lookups _ _ _ Hc)
    as (d' & Heq & _ & _ & _ & _ & _ & _ & Hsel).
  pose proof (conda_entry_inv _ _ _ _ Heq Hd) as ->. subst cache.
  rewrite Hn, Hce in Hsel.
  destruct Hsel as (_ & _ & _ & _ & _ & _ & _ & _ & Hpath & _).
  unfold _generate_env_create_command, bind, of_outcome, getitem, ret, get.
  rewrite Hpath. simpl. fold env_path. rewrite Hdoc. simpl. rewrite Hdeps. simpl.
  do 2 eexists. split; [reflexivity|]. simpl.
  split; [apply lookup_insert_eq|]. split; [|reflexivity].
  intros p Hp. now apply lookup_insert_ne.
Qed.

(** An environment name together with an environment file: the branch for
    the file is taken (line 162) on a fingerprint without [env_path]. *)
Lemma create_python_env_name_and_file (self : Runner) (st st1 : State)
    (exe : Path.t) (v : string) (cache : gmap string entry) :
  is_Some (effective_conda_name self) ->
  is_set (conda_env (conf self)) ->
  find_conda st = (Return exe, st1) ->
  _get_python_env_version self = Return v ->
  python_cache self st1 = Return cache ->
  create_python_env self st = (Raise (KeyError "env_path"), st1).
Proof.
  intros [n Hn] [ce Hce] Hfc Hv Hc.
  destruct (python_cache_lookups _ _ _ Hc)
    as (d & -> & _ & _ & _ & _ & _ & _ & Hsel).
  rewrite Hn in Hsel. destruct Hsel as (_ & _ & Hpath & _).
  unfold create_python_env. rewrite bind_run, Hfc.
  rewrite bind_run. unfold of_outcome at 1. rewrite Hv.
  rewrite bind_run. unfold lift at 1. rewrite Hc.
  rewrite bind_run. unfold of_outcome at 1, conda_entry.
  rewrite lookup_insert_eq. rewrite bind_run. rewrite Hce.
  unfold _generate_env_create_command, bind, of_outcome, getitem, get.
  now rewrite Hpath.
Qed.

(** C1. At a configuration that sets both [conda_name] and [conda_env]
    (the environment file exists and is well formed): no creation command
    is built; [create_python_env] stops with [KeyError: 'env_path'] before
    anything is spawned. *)
Theorem create_python_env_name_and_env_file :
  is_set (conda_name (conf (Sample.runner Sample.conf_name_and_env))) /\
  is_set (conda_env (conf (Sample.runner Sample.conf_name_and_env))) /\
  create_python_env (Sample.runner Sample.conf_name_and_env) Sample.world
  = (Raise (KeyError "env_path"), Sample.world).
Proof.
  split; [eexists; reflexivity|]. split; [eexists; reflexivity|].
  vm_compute. reflexivity.
Qed.

End CreationCommand.

Section CreationLine.
Context `{Platform}.

(** The creation command without an environment file, as
    [create_python_env] builds and splits it. *)
Lemma creation_line_without_env_file (self : Runner) (st before : State)
    (line : string) (argv : list string) :
  truthy (conda_env (conf self)) = None ->
  creation_argv self st line argv before ->
  exists exe v s e,
    fst (find_conda st) = Return exe /\
    _get_python_env_version self = Return v /\
    line = create_command_line exe ("python=" +:+ v) s (py_str e)
             (default [] (conda_create_args (conf self))) /\
    shlex_split line = Some argv.
Proof.
  intros Hce (exe & st1 & v & cache & d & td & Hfc & Hv & Hc & Hd & Hgen & Hsplit).
  rewrite Hce in Hgen.
  destruct (generate_create_command_line self st1 st1 cache d exe ("python=" +:+ v) Hc Hd)
    as (s & e & _ & _ & td' & Hline & _).
  rewrite Hline in Hgen. injection Hgen as <- _ _.
  exists exe, v, s, e. rewrite Hfc. auto.
Qed.

(** The creation command with an environment file and no environment
    name: the line names the temporary file, and when the command runs that
    file holds the environment file with the python pin as last
    dependency. *)
Lemma creation_line_with_env_file (self : Runner) (st before : State)
    (line ce : string) (argv : list string) :
  effective_conda_name self = None ->
  truthy (conda_env (conf self)) = Some ce ->
  creation_argv self st line argv before ->
  exists exe st1 v doc deps,
    find_conda st = (Return exe, st1) /\
    _get_python_env_version self = Return v /\
    let env_path := resolve_in st1 (Path.to_string (resolve_in st1 ce)) in
    let tmp := tmp_env_file_name env_path (mkstemp_infix st1) in
    load_yaml st1 env_path = Return (Mapping doc) /\
    ef_dependencies doc = Some (Some deps) /\
    line = env_create_command_line exe tmp /\
    files before !! Path.to_string (resolve_in st1 tmp)
    = Some (yaml_dump (with_dependency doc deps ("python=" +:+ v))) /\
    shlex_split line = Some argv.
Proof.
  intros Hn Hce (exe & st1 & v & cache & d & td & Hfc & Hv & Hc & Hd & Hgen & Hsplit).
  rewrite Hce in Hgen.
  exists exe, st1, v.
  destruct (python_cache_lookups _ _ _ Hc) as (d' & Heq & _ & _ & _ & _ & _ & _ & Hsel).
  pose proof (conda_entry_inv _ _ _ _ Heq Hd) as ->.
  rewrite Hn, Hce in Hsel.
  destruct Hsel as (_ & _ & _ & _ & _ & _ & _ & _ & Hpath & _).
  revert Hgen.
  unfold _generate_env_create_command, bind, of_outcome, getitem, ret, get, raise.
  rewrite Hpath. simpl.
  destruct (load_yaml st1 (resolve_in st1 (Path.to_string (resolve_in st1 ce))))
    as [[doc|]|e0] eqn:Hdoc; simpl; [|discriminate|discriminate].
  destruct (ef_dependencies doc) as [[deps|]|] eqn:Hdeps; simpl;
    [|discriminate|discriminate].
  intros [= <- _ <-]. exists doc, deps. simpl.
  repeat split; try assumption; try reflexivity.
  apply lookup_insert_eq.
Qed.

End CreationLine.

Section HashFile.
Context `{Platform}.

(** [hash_file] is the SHA-1 digest of whatever [file.name], the last
    component of the path, names from the working directory. *)
Lemma hash_file_digest (st : State) (file : Path.t) (h : string) :
  hash_file st file = Return h <->
  exists content, read_file st (Path.name file) = Return content /\
                  h = sha1_hexdigest content.
Proof.
  unfold hash_file. destruct (read_file st (Path.name file)) as [content|e]; split.
  - intros [= <-]. eauto.
  - intros (c & [= <-] & ->). reflexivity.
  - discriminate.
  - intros (c & ? & _). discriminate.
Qed.

(** For a file that its own name reaches from the working directory, the
    hash is the digest of the content of the file. *)
Lemma hash_file_in_cwd (st : State) (file : Path.t) (content : string) :
  resolve_in st (Path.name file) = file ->
  files st !! Path.to_string file = Some content ->
  hash_file st file = Return (sha1_hexdigest content).
Proof.
  intros Hname Hfile. unfold hash_file, read_file. now rewrite Hname, Hfile.
Qed.

(** C6. At a spec file in a sub-directory ([conda_spec = ci/spec.txt],
    working directory [/proj]): the configured file holds ["numpy=1.26"],
    but [hash_file] opens [spec.txt] in the working directory; where there
    is none no fingerprint is produced, and where there is another one the
    [spec_hash] is the digest of that other file. *)
Theorem hash_file_opens_name_in_cwd :
  let self := Sample.runner Sample.conf_spec_in_subdir in
  read_file Sample.world "ci/spec.txt" = Return "numpy=1.26" /\
  python_cache self Sample.world = Raise (FileNotFoundError "spec.txt") /\
  read_file Sample.world_two_specs "ci/spec.txt" = Return "numpy=1.26" /\
  exists cache d,
    python_cache self Sample.world_two_specs = Return cache /\
    conda_entry cache = Return d /\
    d !! "spec" = Some (VStr "ci/spec.txt") /\
    d !! "spec_hash" = Some (VStr (sha1_hexdigest "scipy")).
Proof.
  simpl. split; [reflexivity|]. split; [vm_compute; reflexivity|].
  split; [reflexivity|].
  do 2 eexists. split; [vm_compute; reflexivity|].
  split; [vm_compute; reflexivity|].
  split; vm_compute; reflexivity.
Qed.

End HashFile.

Section Executor.
Context `{Platform}.

(** C8. The instance that the executor builds for a request carries the
    request's command behind the tokens of
    ['<conda>' run <env_spec> '<env>' --live-stream] ([<env>] being
    [str()] of the value under [env]), and the request's
    [cwd], [env], [stdin], [run_id] and [allow] as they were; the process
    that [executor.call] starts has that command. *)
Theorem build_instance_prefixes_command (self : Runner)
    (request : ExecuteRequest) (options : bool) (out err : string)
    (st st' : State) (inst : ExecuteInstance) :
  build_instance self request options out err st = (Return inst, st') ->
  exists exe cache d s e prefix,
    find_conda st = (Return exe, st') /\
    python_cache self st' = Return cache /\
    conda_entry cache = Return d /\
    d !! "env_spec" = Some (VStr s) /\ d !! "env" = Some e /\
    shlex_split (run_prefix_line exe s (py_str e)) = Some prefix /\
    inst = mk_instance
             (mk_request (prefix ++ cmd request) (req_cwd request) (env request)
                         (stdin request) (run_id request) (allow request))
             options out err /\
    log (snd (executor_call self request st))
    = (log st' ++ [mk_call InEnv (prefix ++ cmd request)
                     (returncode (spawn (prefix ++ cmd request) st'))])%list.
Proof.
  intros Hb.
  assert (build_instance self request true "output" "error" st
          = (Return (mk_instance (i_request inst) true "output" "error"), st')
          /\ i_options inst = options /\ i_out inst = out /\ i_err inst = err)
    as (Hb' & Ho & Hout & Herr).
  { revert Hb. unfold build_instance. rewrite !bind_run.
    destruct (get_conda_command_prefix self st) as [[p|e0] st0];
      [|intros Hx; cbn in Hx; discriminate Hx].
    unfold ret. intros [= <- <-]. auto. }
  unfold executor_call. rewrite bind_run, Hb'. clear Hb'.
  revert Hb. unfold build_instance, get_conda_command_prefix.
  rewrite !bind_run.
  destruct (find_conda st) as [[exe|e0] st1]; [|intros Hx; cbn in Hx; discriminate Hx].
  rewrite bind_run. unfold lift at 1.
  destruct (python_cache self st1) as [cache|e0] eqn:Hc; [|intros Hx; cbn in Hx; discriminate Hx].
  rewrite bind_run. unfold of_outcome at 1.
  destruct (conda_entry cache) as [d|e0] eqn:Hd; [|intros Hx; cbn in Hx; discriminate Hx].
  rewrite bind_run. unfold of_outcome at 1, getitem at 1.
  destruct (python_cache_lookups _ _ _ Hc) as (d' & Heq & _).
  pose proof (conda_entry_inv _ _ _ _ Heq Hd) as ->. subst cache.
  destruct (python_cache_env _ _ _ Hc) as (s & e & Hs & He).
  rewrite Hs. rewrite bind_run. unfold of_outcome at 1, getitem at 1. rewrite He.
  unfold shlex_split_py. unfold py_str at 1.
  change ("'" +:+ Path.to_string exe +:+ "' run" +:+ " " +:+ s +:+ " '" +:+ py_str e
            +:+ "' --live-stream") with (run_prefix_line exe s (py_str e)).
  destruct (shlex_split (run_prefix_line exe s (py_str e))) as [prefix|] eqn:Hsplit;
    [|intros Hx; cbn in Hx; discriminate Hx].
  unfold ret. intros [= <- <-].
  eexists exe, _, d, s, e, prefix. simpl.
  repeat (split; [eassumption || reflexivity|]). reflexivity.
Qed.

(** [build_instance] returns wherever conda is found, the fingerprint
    exists and the run line can be split. *)
Lemma build_instance_returns (self : Runner) (request : ExecuteRequest)
    (options : bool) (out err : string) (st st1 : State) (exe : Path.t)
    (cache : gmap string entry) :
  find_conda st = (Return exe, st1) ->
  python_cache self st1 = Return cache ->
  exists s e,
    (exists d, conda_entry cache = Return d /\
               d !! "env_spec" = Some (VStr s) /\ d !! "env" = Some e) /\
    forall prefix,
      shlex_split (run_prefix_line exe s (py_str e)) = Some prefix ->
      build_instance self request options out err st
      = (Return (mk_instance
                   (mk_request (prefix ++ cmd request) (req_cwd request) (env request)
                               (stdin request) (run_id request) (allow request))
                   options out err), st1).
Proof.
  intros Hfc Hc.
  destruct (python_cache_lookups _ _ _ Hc) as (d & Heq & _). subst cache.
  destruct (python_cache_env _ _ _ Hc) as (s & e & Hs & He).
  exists s, e. split.
  { exists d. unfold conda_entry. rewrite lookup_insert_eq. auto. }
  intros prefix Hsplit.
  unfold build_instance, get_conda_command_prefix.
  rewrite !bind_run, Hfc. rewrite bind_run. unfold lift at 1. rewrite Hc.
  rewrite bind_run. unfold of_outcome at 1, conda_entry. rewrite lookup_insert_eq.
  rewrite bind_run. unfold of_outcome at 1, getitem at 1. rewrite Hs.
  rewrite bind_run. unfold of_outcome at 1, getitem at 1. rewrite He.
  unfold shlex_split_py. unfold py_str at 1.
  change ("'" +:+ Path.to_string exe +:+ "' run" +:+ " " +:+ s +:+ " '" +:+ py_str e
            +:+ "' --live-stream") with (run_prefix_line exe s (py_str e)).
  rewrite Hsplit. reflexivity.
Qed.
End Executor.

Section Ensure.
Context `{Platform}.

Lemma create_python_env_created (self : Runner) (st : State) :
  created (snd (create_python_env self st)) = created st.
Proof.
  destruct (find_conda_frame st) as (_ & Hcwd & Hfiles & _ & Hcr & _).
  destruct (create_python_env self st) as [r st'] eqn:Hrun. simpl.
  unfold create_python_env in Hrun. rewrite bind_run in Hrun.
  destruct (find_conda st) as [[exe|e] st1]; simpl in Hcr;
    [|injection Hrun as <- <-; exact Hcr].
  rewrite bind_run in Hrun. unfold of_outcome at 1 in Hrun.
  destruct (_get_python_env_version self) as [v|e];
    [|injection Hrun as <- <-; exact Hcr].
  rewrite bind_run in Hrun. unfold lift at 1 in Hrun.
  destruct (python_cache self st1) as [cache|e];
    [|injection Hrun as <- <-; exact Hcr].
  rewrite bind_run in Hrun. unfold of_outcome at 1 in Hrun.
  destruct (conda_entry cache) as [d|e];
    [|injection Hrun as <- <-; exact Hcr].
  rewrite bind_run in Hrun.
  set (gen := match truthy (conda_env (conf self)) with
              | Some _ => _generate_env_create_command exe ("python=" +:+ v) d
              | None => _generate_create_command exe ("python=" +:+ v) d
              end) in Hrun.
  assert (created (snd (gen st1)) = created st1 /\
          forall line td, fst (gen st1) = Return (line, td) ->
            safe_tear_down td (snd (gen st1))) as (Hgcr & Hsafe).
  { subst gen. destruct (truthy (conda_env (conf self)));
      [apply generate_env_create_command_safe | apply generate_create_command_safe]. }
  destruct (gen st1) as [[[line td]|e] st2]; simpl in Hgcr;
    [|injection Hrun as <- <-; congruence].
  specialize (Hsafe line td eq_refl). simpl in Hsafe. clear gen.
  rewrite bind_run in Hrun.
  unfold try_finally at 1 in Hrun.
  unfold except_called_process_error at 1 in Hrun.
  rewrite bind_run in Hrun. unfold shlex_split_py at 1 in Hrun.
  destruct (shlex_split line) as [argv|].
  2: { unfold raise at 1 in Hrun.
       destruct (Hsafe st2 eq_refl eq_refl) as (st3 & Htd & _ & Hc3).
       rewrite Htd in Hrun. injection Hrun as <- <-. congruence. }
  unfold ret at 1 in Hrun. rewrite bind_run in Hrun.
  unfold subprocess_run_check at 1 in Hrun. rewrite bind_run in Hrun.
  unfold subprocess_run at 1 in Hrun. unfold run_process at 1 in Hrun.
  destruct (can_start argv st2).
  2: { destruct (Hsafe st2 eq_refl eq_refl) as (st3 & Htd & _ & Hc3).
       rewrite Htd in Hrun. injection Hrun as <- <-. congruence. }
  destruct (Hsafe (after_process CreateEnv argv st2) eq_refl eq_refl)
    as (st3 & Htd & _ & Hc3).
  simpl in Hc3.
  destruct (decide (returncode (spawn argv st2) = 0)) as [Hz|Hnz].
  2: { unfold raise in Hrun. rewrite Htd in Hrun. injection Hrun as <- <-.
       congruence. }
  unfold ret at 1 2 in Hrun. rewrite Htd in Hrun.
  rewrite bind_run in Hrun. unfold of_outcome at 1 in Hrun.
  destruct (_generate_install_command exe ("python=" +:+ v) d) as [[line'|]|e].
  - destruct (truthy (Some line')).
    + apply install_block_runs in Hrun. destruct Hrun as [Hc' _]. congruence.
    + unfold ret in Hrun. injection Hrun as <- <-. congruence.
  - simpl in Hrun. unfold ret in Hrun. injection Hrun as <- <-. congruence.
  - injection Hrun as <- <-. congruence.
Qed.

(** With [_created] set and the directory there, nothing is done. *)
Lemma ensure_checked (self : Runner) (st : State) :
  path_exists st (env_dir self) = true ->
  created st = true ->
  _ensure_python_env_exists self st = (Return tt, st).
Proof.
  intros Hex Hcr. unfold _ensure_python_env_exists. rewrite bind_run.
  unfold get at 1. rewrite Hex, Hcr. reflexivity.
Qed.

(** On a directory that exists and has not been checked, an error of
    [find_conda] is the error of [_ensure_python_env_exists]. *)
Lemma ensure_no_conda (self : Runner) (st st1 : State) (e : exn) :
  path_exists st (env_dir self) = true ->
  created st = false ->
  find_conda st = (Raise e, st1) ->
  _ensure_python_env_exists self st = (Raise e, st1).
Proof.
  intros Hex Hcr Hfc. unfold _ensure_python_env_exists. rewrite bind_run.
  unfold get at 1. rewrite Hex, Hcr. change (negb true) with false. cbv iota.
  rewrite bind_run, Hfc. reflexivity.
Qed.

(** ... and a listing line that cannot be split is a [ValueError]. *)
Lemma ensure_no_split (self : Runner) (st st1 : State) (exe : Path.t) :
  path_exists st (env_dir self) = true ->
  created st = false ->
  find_conda st = (Return exe, st1) ->
  shlex_split ("'" +:+ Path.to_string exe +:+ "' env list --json") = None ->
  _ensure_python_env_exists self st = (Raise ValueError, st1).
Proof.
  intros Hex Hcr Hfc Hsplit. unfold _ensure_python_env_exists. rewrite bind_run.
  unfold get at 1. rewrite Hex, Hcr. change (negb true) with false. cbv iota.
  rewrite bind_run, Hfc. rewrite bind_run.
  unfold except_called_process_error at 1.
  rewrite bind_run. unfold shlex_split_py at 1. rewrite Hsplit. reflexivity.
Qed.

(** The steps of [_ensure_python_env_exists] on a directory that exists and
    has not been checked, once conda is found: the listing runs, if it can
    be started, and its output is decoded, parsed and searched. *)
Lemma ensure_lists (self : Runner) (st st1 : State) (exe : Path.t)
    (argv : list string) :
  path_exists st (env_dir self) = true ->
  created st = false ->
  find_conda st = (Return exe, st1) ->
  shlex_split ("'" +:+ Path.to_string exe +:+ "' env list --json") = Some argv ->
  _ensure_python_env_exists self st
  = if can_start argv st1 then
      let p := spawn argv st1 in
      let st2 := after_process ListEnvs argv st1 in
      if decide (returncode p = 0) then
        match decode (stdout p) with
        | Some text =>
            match json_loads text with
            | Some j =>
                match j !! "envs" with
                | Some listed =>
                    if bool_decide (Path.to_string (env_dir self) ∈ listed)
                    then (Return tt, with_created true st2)
                    else (Raise (Fail (Path.to_string (env_dir self)
                           +:+ " already exists, but it is not a conda environment. Delete in"
                           +:+ " manually first.")), st2)
                | None => (Raise (KeyError "envs"), st2)
                end
            | None => (Raise JSONDecodeError, st2)
            end
        | None => (Raise UnicodeDecodeError, st2)
        end
      else (Raise (Fail ("Failed to list conda environments. Error: "
                         +:+ str_of_called_process_error argv (returncode p))), st2)
    else (Raise OSError, st1).
Proof.
  intros Hex Hcr Hfc Hsplit. unfold _ensure_python_env_exists.
  rewrite bind_run. unfold get at 1. rewrite Hex, Hcr.
  change (negb true) with false. cbv iota.
  rewrite bind_run, Hfc. rewrite bind_run.
  unfold except_called_process_error at 1.
  rewrite bind_run. unfold shlex_split_py at 1. rewrite Hsplit.
  unfold ret at 1. unfold subprocess_run_check. rewrite bind_run.
  unfold subprocess_run at 1. unfold run_process at 1. cbv zeta.
  destruct (can_start argv st1); [|reflexivity].
  destruct (decide (returncode (spawn argv st1) = 0)); [|reflexivity].
  unfold ret at 1. rewrite bind_run.
  destruct (decode (stdout (spawn argv st1))) as [text|]; [|reflexivity].
  unfold ret at 1. rewrite bind_run.
  destruct (json_loads text) as [j|]; [|reflexivity].
  unfold ret at 1. rewrite bind_run. unfold of_outcome, getitem.
  destruct (j !! "envs") as [listed|]; [|reflexivity].
  destruct (bool_decide (Path.to_string (env_dir self) ∈ listed)); reflexivity.
Qed.

(** What [_ensure_python_env_exists] logs when the directory exists. *)
Lemma ensure_existing (self : Runner) (st : State) :
  path_exists st (env_dir self) = true ->
  created st = true /\ _ensure_python_env_exists self st = (Return tt, st)
  \/ created st = false /\
     exists probes,
       Forall (fun c => c_site c = ProbeConda) probes /\
       ((log (snd (_ensure_python_env_exists self st)) = (log st ++ probes)%list /\
         created (snd (_ensure_python_env_exists self st)) = false /\
         exists e, fst (_ensure_python_env_exists self st) = Raise e)
        \/ exists exe st1 argv,
             find_conda st = (Return exe, st1) /\
             shlex_split ("'" +:+ Path.to_string exe +:+ "' env list --json")
             = Some argv /\
             can_start argv st1 = true /\
             log (snd (_ensure_python_env_exists self st))
             = (log st ++ probes
                  ++ [mk_call ListEnvs argv (returncode (spawn argv st1))])%list /\
             match
               (if decide (returncode (spawn argv st1) = 0)
                then match decode (stdout (spawn argv st1)) with
                     | Some text =>
                         match json_loads text with
                         | Some j => j !! "envs"
                         | None => None
                         end
                     | None => None
                     end
                else None)
             with
             | Some listed =>
                 if bool_decide (Path.to_string (env_dir self) ∈ listed)
                 then fst (_ensure_python_env_exists self st) = Return tt /\
                      created (snd (_ensure_python_env_exists self st)) = true
                 else fst (_ensure_python_env_exists self st)
                      = Raise (Fail (Path.to_string (env_dir self)
                          +:+ " already exists, but it is not a conda environment. Delete in"
                          +:+ " manually first.")) /\
                      created (snd (_ensure_python_env_exists self st)) = false
             | None =>
                 created (snd (_ensure_python_env_exists self st)) = false /\
                 exists e, fst (_ensure_python_env_exists self st) = Raise e
             end).
Proof.
  intros Hex.
  destruct (created st) eqn:Hcr;
    [left; split; [reflexivity|]; now apply ensure_checked|].
  right. split; [reflexivity|].
  destruct (find_conda_frame st) as (_ & _ & _ & _ & Hcr1 & probes & Hlog & Hprobes).
  exists probes. split; [exact Hprobes|].
  destruct (find_conda st) as [[exe|e] st1] eqn:Hfc; simpl in Hlog, Hcr1.
  2: { left. rewrite (ensure_no_conda self st st1 e Hex Hcr Hfc). simpl.
       split; [exact Hlog|]. split; [congruence|eauto]. }
  destruct (shlex_split ("'" +:+ Path.to_string exe +:+ "' env list --json"))
    as [argv|] eqn:Hsplit.
  2: { left. rewrite (ensure_no_split self st st1 exe Hex Hcr Hfc Hsplit). simpl.
       split; [exact Hlog|]. split; [congruence|eauto]. }
  rewrite (ensure_lists self st st1 exe argv Hex Hcr Hfc Hsplit).
  destruct (can_start argv st1) eqn:Hcs.
  2: { left. simpl. split; [exact Hlog|]. split; [congruence|eauto]. }
  right. exists exe, st1, argv. split; [reflexivity|]. split; [exact Hsplit|].
  split; [exact Hcs|]. cbv zeta.
  destruct (decide (returncode (spawn argv st1) = 0)) as [Hz|Hnz];
    [destruct (decode (stdout (spawn argv st1))) as [text|];
       [destruct (json_loads text) as [j|];
          [destruct (j !! "envs") as [listed|];
             [destruct (bool_decide (Path.to_string (env_dir self) ∈ listed))|]|]|]|].
  all: simpl; rewrite Hlog, <- app_assoc; (split; [reflexivity|]).
  all: repeat split; eauto; congruence.
Qed.

Lemma ensure_missing (self : Runner) (st : State) :
  path_exists st (env_dir self) = false ->
  _ensure_python_env_exists self st =
    match create_python_env self st with
    | (Return _, st1) => (Return tt, with_created true st1)
    | (Raise e, st1) => (Raise e, st1)
    end.
Proof.
  intros Hex. unfold _ensure_python_env_exists. rewrite bind_run.
  unfold get at 1. rewrite Hex. change (negb false) with true. cbv iota.
  rewrite bind_run. destruct (create_python_env self st) as [[[]|e] st1]; reflexivity.
Qed.

(** [_call_python_in_conda_env] stops where
    [_ensure_python_env_exists] raises. *)
Lemma call_python_ensure_raises (self : Runner) (c rid : string)
    (st st1 : State) (e : exn) :
  _ensure_python_env_exists self st = (Raise e, st1) ->
  _call_python_in_conda_env self c rid st = (Raise e, st1).
Proof.
  intros Hens. unfold _call_python_in_conda_env. now rewrite bind_run, Hens.
Qed.

(** ... and where the instance cannot be built. *)
Lemma call_python_build_raises (self : Runner) (c rid : string)
    (st st1 st2 : State) (e : exn) :
  _ensure_python_env_exists self st = (Return tt, st1) ->
  build_instance self (query_request self c rid) true "output" "error" st1
  = (Raise e, st2) ->
  _call_python_in_conda_env self c rid st = (Raise e, st2).
Proof.
  intros Hens Hb. unfold _call_python_in_conda_env. rewrite bind_run, Hens.
  rewrite bind_run. unfold executor_call. rewrite bind_run.
  change (["python"; "-c"] ++ [c])%list with ["python"; "-c"; c].
  unfold query_request in Hb. now rewrite Hb.
Qed.

(** Once the environment is ensured and the instance is built, the command
    of the instance runs, and its exit code and output decide. *)
Lemma call_python_run (self : Runner) (c rid : string)
    (st st1 st2 : State) (inst : ExecuteInstance) :
  _ensure_python_env_exists self st = (Return tt, st1) ->
  build_instance self (query_request self c rid) true "output" "error" st1
  = (Return inst, st2) ->
  let argv := cmd (i_request inst) in
  let p := spawn argv st2 in
  _call_python_in_conda_env self c rid st
  = (if decide (returncode p = 0) then
       match decode (stdout p) with
       | Some out => Return (str_strip out)
       | None => Raise UnicodeDecodeError
       end
     else
       match decode (stderr p) with
       | Some err =>
           Raise (Fail ("Failed to execute operation '" +:+ c +:+ "'. Stderr: "
                        +:+ err))
       | None => Raise UnicodeDecodeError
       end,
     after_process InEnv argv st2).
Proof.
  intros Hens Hb argv p.
  unfold _call_python_in_conda_env. rewrite bind_run, Hens.
  rewrite bind_run. unfold executor_call. rewrite bind_run.
  change (["python"; "-c"] ++ [c])%list with ["python"; "-c"; c].
  unfold query_request in Hb. rewrite Hb. unfold run_process. fold argv. fold p.
  destruct (decide (returncode p = 0));
    [destruct (decode (stdout p))|destruct (decode (stderr p))]; reflexivity.
Qed.

(** What [build_instance] leaves of the state: [find_conda] may have
    probed. *)
Lemma build_instance_frame (self : Runner) (request : ExecuteRequest)
    (options : bool) (out err : string) (st : State) :
  created (snd (build_instance self request options out err st)) = created st /\
  exists probes,
    log (snd (build_instance self request options out err st))
    = (log st ++ probes)%list /\
    Forall (fun c => c_site c = ProbeConda) probes.
Proof.
  destruct (find_conda_frame st) as (_ & _ & _ & _ & Hcr & probes & Hlog & Hprobes).
  destruct (build_instance self request options out err st) as [r st'] eqn:Hrun.
  simpl. unfold build_instance in Hrun. rewrite bind_run in Hrun.
  unfold get_conda_command_prefix in Hrun. rewrite bind_run in Hrun.
  destruct (find_conda st) as [[exe|e] st2]; simpl in Hcr, Hlog;
    [|injection Hrun as <- <-; eauto].
  rewrite bind_run in Hrun. unfold lift at 1 in Hrun.
  destruct (python_cache self st2) as [cache|e];
    [|injection Hrun as <- <-; eauto].
  rewrite bind_run in Hrun. unfold of_outcome at 1 in Hrun.
  destruct (conda_entry cache) as [d|e]; [|injection Hrun as <- <-; eauto].
  rewrite bind_run in Hrun. unfold of_outcome at 1 in Hrun.
  destruct (getitem d "env_spec") as [s|e]; [|injection Hrun as <- <-; eauto].
  rewrite bind_run in Hrun. unfold of_outcome at 1 in Hrun.
  destruct (getitem d "env") as [s'|e]; [|injection Hrun as <- <-; eauto].
  unfold shlex_split_py in Hrun.
  match type of Hrun with
  | context [shlex_split ?l] => destruct (shlex_split l) as [prefix|]
  end; injection Hrun as <- <-; eauto.
Qed.

(** After [_ensure_python_env_exists], a query runs its command in the
    environment and nothing else. *)
Lemma call_python_after_ensure (self : Runner) (c rid : string) (st : State) :
  match _ensure_python_env_exists self st with
  | (Raise e, st1) => _call_python_in_conda_env self c rid st = (Raise e, st1)
  | (Return _, st1) =>
      created (snd (_call_python_in_conda_env self c rid st)) = created st1 /\
      exists new,
        log (snd (_call_python_in_conda_env self c rid st)) = (log st1 ++ new)%list /\
        Forall (fun x => c_site x = ProbeConda \/ c_site x = InEnv) new
  end.
Proof.
  destruct (_ensure_python_env_exists self st) as [[[]|e] st1] eqn:Hens;
    [|now apply call_python_ensure_raises].
  destruct (build_instance_frame self (query_request self c rid) true
              "output" "error" st1) as (Hcr & probes & Hlog & Hprobes).
  assert (Forall (fun x => c_site x = ProbeConda \/ c_site x = InEnv) probes) as Hp.
  { eapply Forall_impl; [exact Hprobes|]. auto. }
  destruct (build_instance self (query_request self c rid) true "output" "error" st1)
    as [[inst|e] st2] eqn:Hb; simpl in Hcr, Hlog.
  - rewrite (call_python_run self c rid st st1 st2 inst Hens Hb). simpl.
    split; [exact Hcr|]. rewrite Hlog, <- app_assoc.
    eexists; split; [reflexivity|]. apply Forall_app; split; [exact Hp|].
    constructor; [right; reflexivity | constructor].
  - rewrite (call_python_build_raises self c rid st st1 st2 e Hens Hb). simpl.
    eauto.
Qed.

(** A query resolves what [_call_python_in_conda_env] returns for its
    program, and raises what that raises. *)
Lemma query_run (self : Runner) (q : Runner -> Py Path.t) (c rid : string)
    (st : State) :
  (q, c, rid) ∈ query_programs ->
  q self st = match _call_python_in_conda_env self c rid st with
              | (Return out, st') => (Return (resolve_in st' out), st')
              | (Raise e, st') => (Raise e, st')
              end.
Proof.
  intros Hq. unfold query_programs in Hq.
  repeat (apply elem_of_cons in Hq as [[= -> -> ->]|Hq]);
    [| | |now apply elem_of_nil in Hq].
  all: unfold env_python, env_bin_dir, env_site_package_dir; cbv zeta.
  all: rewrite bind_run.
  all: match goal with
       | |- context [_call_python_in_conda_env ?s ?c ?rid ?t] =>
           destruct (_call_python_in_conda_env s c rid t) as [[path|e0] st2]
       end; reflexivity.
Qed.

(** The queries are those of [query_programs]. *)
Lemma environment_queries_programs (q : Runner -> Py Path.t) :
  q ∈ environment_queries -> exists c rid, (q, c, rid) ∈ query_programs.
Proof.
  intros Hq. unfold environment_queries in Hq. unfold query_programs.
  repeat (apply elem_of_cons in Hq as [->|Hq]); [| | |now apply elem_of_nil in Hq].
  all: do 2 eexists.
  - apply elem_of_cons; right. apply elem_of_cons; left. reflexivity.
  - apply elem_of_cons; right. apply elem_of_cons; right.
    apply elem_of_cons; left. reflexivity.
  - apply elem_of_cons; left. reflexivity.
Qed.

Lemma query_state (self : Runner) (q : Runner -> Py Path.t) (st : State) :
  q ∈ environment_queries ->
  exists c rid,
    snd (q self st) = snd (_call_python_in_conda_env self c rid st) /\
    forall e, fst (_call_python_in_conda_env self c rid st) = Raise e ->
              fst (q self st) = Raise e.
Proof.
  intros Hq. destruct (environment_queries_programs q Hq) as (c & rid & Hp).
  exists c, rid. rewrite (query_run self q c rid st Hp).
  destruct (_call_python_in_conda_env self c rid st) as [[path|e0] st2]; simpl.
  - split; [reflexivity|]. discriminate.
  - split; [reflexivity|]. now intros e [= ->].
Qed.

Lemma create_python_env_sites (self : Runner) (st : State) :
  exists new,
    log (snd (create_python_env self st)) = (log st ++ new)%list /\
    Forall (fun c => c_site c = ProbeConda \/ c_site c = CreateEnv
                     \/ c_site c = InstallDeps) new.
Proof.
  destruct (create_python_env_runs self st) as (probes & Hprobes & Hcases).
  assert (Forall (fun c => c_site c = ProbeConda \/ c_site c = CreateEnv
                           \/ c_site c = InstallDeps) probes) as Hp.
  { eapply Forall_impl; [exact Hprobes|]. auto. }
  destruct Hcases as [[Hl _]|[(? & argv & ? & code & _ & _ & Hl & _)
                     |[(? & argv & ? & _ & _ & Hl & _)
                     |(? & argv & ? & argv' & code & _ & _ & Hl & _)]]];
    rewrite Hl; eexists; (split; [reflexivity|]); [exact Hp|..].
  all: apply Forall_app; (split; [exact Hp|]).
  all: repeat (constructor; [simpl; auto|]); constructor.
Qed.

(** Once [_created] is set it stays set, and the environments are not
    listed again. *)
Lemma ensure_when_created (self : Runner) (st : State) :
  created st = true ->
  created (snd (_ensure_python_env_exists self st)) = true /\
  forall c, c ∈ log (snd (_ensure_python_env_exists self st)) ->
            c_site c = ListEnvs -> c ∈ log st.
Proof.
  intros Hcr. destruct (path_exists st (env_dir self)) eqn:Hex.
  - destruct (ensure_existing self st Hex) as [[_ ->]|[Hf _]]; [|congruence].
    simpl. auto.
  - rewrite (ensure_missing self st Hex).
    pose proof (create_python_env_created self st) as Hc.
    destruct (create_python_env_sites self st) as (new & Hl & Hnew).
    rewrite Forall_forall in Hnew.
    assert (forall c, c ∈ (log st ++ new)%list -> c_site c = ListEnvs -> c ∈ log st)
      as Hno.
    { intros c Hin Hs. apply elem_of_app in Hin as [?|Hin]; [assumption|].
      destruct (Hnew c Hin) as [Hx|[Hx|Hx]]; congruence. }
    destruct (create_python_env self st) as [[[]|e] st1]; simpl in *.
    + split; [reflexivity|]. now rewrite Hl.
    + split; [congruence|]. now rewrite Hl.
Qed.

Lemma query_when_created (self : Runner) (q : Runner -> Py Path.t) (st : State) :
  q ∈ environment_queries ->
  created st = true ->
  created (snd (q self st)) = true /\
  forall c, c ∈ log (snd (q self st)) -> c_site c = ListEnvs -> c ∈ log st.
Proof.
  intros Hq Hcr. destruct (query_state self q st Hq) as (c & rid & Hsnd & Hfst).
  pose proof (call_python_after_ensure self c rid st) as Hcall.
  rewrite Hsnd. destruct (ensure_when_created self st Hcr) as [Hc1 Hl1].
  destruct (_ensure_python_env_exists self st) as [[[]|e'] st1]; simpl in *.
  - destruct Hcall as (Hc2 & new & Hl2 & Hnew). split; [congruence|].
    intros x Hx Hs. rewrite Hl2 in Hx.
    apply elem_of_app in Hx as [Hx|Hx]; [now apply Hl1|].
    rewrite Forall_forall in Hnew. destruct (Hnew x Hx); congruence.
  - rewrite Hcall. simpl. auto.
Qed.

(** Any sequence of queries issued once [_created] is set lists the
    environments no more, whatever each of them returns. *)
Lemma subsequent_queries_skip_listing (self : Runner)
    (qs : list (Runner -> Py Path.t)) (st : State) :
  Forall (fun q => q ∈ environment_queries) qs ->
  created st = true ->
  created (after_queries qs self st) = true /\
  forall c, c ∈ log (after_queries qs self st) -> c_site c = ListEnvs -> c ∈ log st.
Proof.
  intros Hqs. revert st. induction Hqs as [|q qs Hq _ IH]; intros st Hcr; simpl.
  - auto.
  - destruct (query_when_created self q st Hq Hcr) as [Hc Hl].
    destruct (IH _ Hc) as [Hc' Hl']. split; [exact Hc'|]. auto.
Qed.

(** C9, as amended. For every query of the environment
    ([env_site_package_dir], [env_python], [env_bin_dir]):
    when the environment directory does not exist, the environment is
    created first, on every query, whether or not an earlier creation has
    succeeded; when the directory exists and has not been checked, nothing
    is created, and if the JSON listing of [conda env list] does not have
    the directory, [Fail] is raised; a check or a creation that succeeds
    sets [_created], and from then on no query lists the environments
    again: with the directory there nothing is done before the command of
    the query. A query stops with the error of these steps; after them it
    runs its program in the environment, and nothing else but probes of
    [find_conda]. *)
Theorem ensure_python_env_exists_cases (self : Runner) (st : State) :
  let ensured := _ensure_python_env_exists self st in
  (path_exists st (env_dir self) = false ->
   ensured =
     match create_python_env self st with
     | (Return _, st1) => (Return tt, with_created true st1)
     | (Raise e, st1) => (Raise e, st1)
     end) /\
  (path_exists st (env_dir self) = true -> created st = false ->
   (forall c, c ∈ log (snd ensured) -> c_site c = CreateEnv -> c ∈ log st) /\
   (forall exe st1 argv text j listed,
      find_conda st = (Return exe, st1) ->
      shlex_split ("'" +:+ Path.to_string exe +:+ "' env list --json") = Some argv ->
      can_start argv st1 = true ->
      returncode (spawn argv st1) = 0 ->
      decode (stdout (spawn argv st1)) = Some text ->
      json_loads text = Some j ->
      j !! "envs" = Some listed ->
      Path.to_string (env_dir self) ∉ listed ->
      fst ensured
      = Raise (Fail (Path.to_string (env_dir self)
          +:+ " already exists, but it is not a conda environment. Delete in"
          +:+ " manually first.")) /\
      created (snd ensured) = false)) /\
  (fst ensured = Return tt -> created (snd ensured) = true) /\
  (created st = true ->
   (path_exists st (env_dir self) = true -> ensured = (Return tt, st)) /\
   created (snd ensured) = true /\
   forall c, c ∈ log (snd ensured) -> c_site c = ListEnvs -> c ∈ log st) /\
  (forall q c rid, (q, c, rid) ∈ query_programs ->
     (forall e, fst ensured = Raise e -> q self st = (Raise e, snd ensured)) /\
     (fst ensured = Return tt ->
      (exists new,
         log (snd (q self st)) = (log (snd ensured) ++ new)%list /\
         Forall (fun x => c_site x = ProbeConda \/ c_site x = InEnv) new) /\
      created (snd (q self st)) = true /\
      forall inst st2,
        build_instance self (query_request self c rid) true "output" "error"
                       (snd ensured) = (Return inst, st2) ->
        let argv := cmd (i_request inst) in
        let p := spawn argv st2 in
        let st3 := after_process InEnv argv st2 in
        q self st
        = (if decide (returncode p = 0) then
             match decode (stdout p) with
             | Some out => Return (resolve_in st3 (str_strip out))
             | None => Raise UnicodeDecodeError
             end
           else
             match decode (stderr p) with
             | Some err =>
                 Raise (Fail ("Failed to execute operation '" +:+ c
                              +:+ "'. Stderr: " +:+ err))
             | None => Raise UnicodeDecodeError
             end, st3)) /\
     (created st = true ->
      created (snd (q self st)) = true /\
      forall x, x ∈ log (snd (q self st)) -> c_site x = ListEnvs -> x ∈ log st)).
Proof.
  cbv zeta.
  pose proof (ensure_when_created self st) as HD.
  assert (fst (_ensure_python_env_exists self st) = Return tt ->
          created (snd (_ensure_python_env_exists self st)) = true) as HC.
  { intros Hret. destruct (path_exists st (env_dir self)) eqn:Hex.
    + destruct (ensure_existing self st Hex) as [[Ht ->]|[_ Hcases]];
        [exact Ht|].
      destruct Hcases as (probes & _ & [(_ & _ & e & He)
                                       |(exe & st1 & argv & _ & _ & _ & _ & Hm)]);
        [congruence|].
      destruct (if decide (returncode (spawn argv st1) = 0)
                then match decode (stdout (spawn argv st1)) with
                     | Some text =>
                         match json_loads text with
                         | Some j => j !! "envs"
                         | None => None
                         end
                     | None => None
                     end
                else None) as [listed|].
      * destruct (bool_decide (Path.to_string (env_dir self) ∈ listed));
          destruct Hm as [Hm1 Hm2]; [exact Hm2 | congruence].
      * destruct Hm as (_ & e & He). congruence.
    + revert Hret. rewrite (ensure_missing self st Hex).
      destruct (create_python_env self st) as [[[]|e] st1]; simpl;
        [reflexivity | discriminate]. }
  split; [apply ensure_missing|].
  split; [|split; [exact HC|split]].
  - intros Hex Hcr. destruct (ensure_existing self st Hex) as [[Ht _]|[_ Hcases]];
      [congruence|].
    destruct Hcases as (probes & Hprobes & Hcases). rewrite Forall_forall in Hprobes.
    split.
    + intros c Hin Hs.
      destruct Hcases as [(Hl & _)|(exe & st1 & argv & _ & _ & _ & Hl & _)];
        rewrite Hl in Hin; rewrite ?elem_of_app in Hin.
      * destruct Hin as [?|Hin]; [assumption|].
        specialize (Hprobes c Hin). congruence.
      * destruct Hin as [?|[Hin|Hin]]; [assumption| |].
        -- specialize (Hprobes c Hin). congruence.
        -- apply list_elem_of_singleton in Hin. subst c. discriminate.
    + intros exe st1 argv text j listed Hfc Hsplit Hcs Hz Hd Hj Henvs Hnot.
      clear Hcases.
      rewrite (ensure_lists self st st1 exe argv Hex Hcr Hfc Hsplit).
      rewrite Hcs. cbv zeta.
      destruct (decide (returncode (spawn argv st1) = 0)); [|contradiction].
      rewrite Hd, Hj, Henvs. rewrite bool_decide_eq_false_2 by exact Hnot.
      simpl. split; [reflexivity|].
      destruct (find_conda_frame st) as (_ & _ & _ & _ & Hc1 & _).
      rewrite Hfc in Hc1. simpl in Hc1. congruence.
  - intros Hcr. split; [intros Hex; now apply ensure_checked|exact (HD Hcr)].
  - intros q c rid Hq. rewrite (query_run self q c rid st Hq).
    pose proof (call_python_after_ensure self c rid st) as Hcall.
    assert (q ∈ environment_queries) as Hq'.
    { unfold query_programs in Hq. unfold environment_queries.
      repeat (apply elem_of_cons in Hq as [[= -> -> ->]|Hq]);
        [| | |now apply elem_of_nil in Hq].
      - do 2 (apply elem_of_cons; right). apply elem_of_cons; left. reflexivity.
      - apply elem_of_cons; left. reflexivity.
      - apply elem_of_cons; right. apply elem_of_cons; left. reflexivity. }
    split; [|split].
    + intros e He.
      destruct (_ensure_python_env_exists self st) as [[[]|e'] st1];
        simpl in He; [discriminate|]. injection He as ->.
      rewrite Hcall. reflexivity.
    + intros Hret. specialize (HC Hret).
      destruct (_ensure_python_env_exists self st) as [[[]|e'] st1] eqn:Hens;
        simpl in Hret, HC; [|discriminate]. simpl.
      destruct Hcall as (Hcr2 & new & Hl2 & Hnew).
      split; [|split].
      * exists new.
        destruct (_call_python_in_conda_env self c rid st) as [[out|e0] st']; simpl in *;
          auto.
      * destruct (_call_python_in_conda_env self c rid st) as [[out|e0] st']; simpl in *;
          congruence.
      * intros inst st2 Hb.
        rewrite (call_python_run self c rid st st1 st2 inst Hens Hb). cbv zeta.
        destruct (decide (returncode (spawn (cmd (i_request inst)) st2) = 0));
          [destruct (decode (stdout (spawn (cmd (i_request inst)) st2)))
          |destruct (decode (stderr (spawn (cmd (i_request inst)) st2)))];
          reflexivity.
    + intros Hcr. rewrite <- (query_run self q c rid st Hq).
      now apply query_when_created.
Qed.

End Ensure.

Module FilteredInfoFacts.
Import FilteredInfo.

Section Compare.
Context {R : Type}.
Variable Info_compare :
  gmap positive obj -> value -> string -> option string -> R.

Lemma filters_decide (self : t) (section : string) :
  bool_decide (filter_section self = None)
  || bool_decide (Some section = filter_section self) = true
  <-> filters self section.
Proof.
  unfold filters. rewrite orb_true_iff, !bool_decide_eq_true.
  split; intros [?|?]; auto.
Qed.

Lemma pop_all_dict (h : gmap positive obj) (l : positive)
    (items : gmap string value) (keys : list string) :
  h !! l = Some (Dict items) ->
  pop_all h l keys = Return (<[l := Dict (without keys items)]> h).
Proof.
  revert h items. induction keys as [|k keys IH]; intros h items Hl; simpl.
  - now rewrite insert_id.
  - unfold pop. rewrite Hl.
    rewrite (IH _ (delete k items)) by apply lookup_insert_eq.
    now rewrite insert_insert_eq.
Qed.

(** A dictionary is filtered on a fresh copy: the base class compares
    the copy without the filter keys, and every object the caller had,
    the dictionary itself among them, is as it was. *)
Lemma compare_dict (self : t) (h : gmap positive obj) (l : positive)
    (items : gmap string value) (section : string) (sub_section : option string) :
  h !! l = Some (Dict items) ->
  filters self section ->
  let l' := fresh (dom h) in
  let h' := <[l' := Dict (without (default [] (filter_keys self)) items)]> h in
  compare Info_compare self h (Ref l) section sub_section
  = (Return (Info_compare h' (Ref l') section sub_section), h') /\
  (forall l0, is_Some (h !! l0) -> h' !! l0 = h !! l0) /\
  h' !! l = Some (Dict items).
Proof.
  intros Hl Hf l' h'.
  assert (h !! l' = None) as Hfresh.
  { apply not_elem_of_dom. apply is_fresh. }
  assert (forall l0, is_Some (h !! l0) -> h' !! l0 = h !! l0) as Hsame.
  { intros l0 [o Ho]. subst h'. apply lookup_insert_ne. congruence. }
  split; [|split; [exact Hsame|]].
  - unfold compare. apply filters_decide in Hf. rewrite Hf, Hl.
    fold l'. rewrite (pop_all_dict _ _ items) by apply lookup_insert_eq.
    rewrite insert_insert_eq. reflexivity.
  - rewrite Hsame; [exact Hl | eauto].
Qed.

(** A value without [copy] goes to the base class as it is. *)
Lemma compare_atom (self : t) (h : gmap positive obj) (repr : string)
    (section : string) (sub_section : option string) :
  compare Info_compare self h (Atom repr) section sub_section
  = (Return (Info_compare h (Atom repr) section sub_section), h).
Proof.
  unfold compare.
  destruct (bool_decide (filter_section self = None)
            || bool_decide (Some section = filter_section self)); reflexivity.
Qed.

(** Outside the filtered section nothing is copied or removed. *)
Lemma compare_other_section (self : t) (h : gmap positive obj) (v : value)
    (section : string) (sub_section : option string) :
  ~ filters self section ->
  compare Info_compare self h v section sub_section
  = (Return (Info_compare h v section sub_section), h).
Proof.
  intros Hf. unfold compare.
  destruct (bool_decide (filter_section self = None)
            || bool_decide (Some section = filter_section self)) eqn:Hb;
    [|reflexivity].
  apply filters_decide in Hb. contradiction.
Qed.

(** C10. At a list value (the requirements that the host compares in its
    own sections) with a filter key and no [filter_section]: the copy
    succeeds, [pop(fkey, None)] raises [TypeError], and the base
    [compare] is never reached. *)
Theorem compare_list_value :
  store !! 1%positive = Some (List [Atom "numpy"; Atom "scipy"]) /\
  compare Info_compare (mk (Some ["name"]) None) store (Ref 1) "deps" None
  = (Raise TypeError, store).
Proof. split; vm_compute; reflexivity. Qed.

End Compare.

End FilteredInfoFacts.

(* ===================================================================== *)
(** ** The statements at work on the sample project *)
(* ===================================================================== *)

(** C4. At a [conda] that the search on PATH finds and that cannot be
    started, with neither variable set: [find_conda] does not return the
    path and does not raise [Fail]; the [OSError] of the probe leaves it. *)
Theorem find_conda_probe_cannot_start :
  truthy (environ Interpreter.world_path_only !! "_CONDA_EXE") = None /\
  truthy (environ Interpreter.world_path_only !! "CONDA_EXE") = None /\
  which_conda Interpreter.world_path_only = Some "/usr/bin/conda" /\
  @find_conda (Sample.platform_where Interpreter.not_startable Sample.quiet)
     Interpreter.world_path_only
  = (Raise OSError, Interpreter.world_path_only).
Proof. repeat split; vm_compute; reflexivity. Qed.

(** At an environment file whose [name] is the number 2024: the value under
    [env] is that number, neither a string nor a list of strings. *)
Lemma python_cache_env_not_a_string :
  exists cache d v,
    @python_cache Sample.quiet_platform (Sample.runner Sample.conf_env_file)
       Sample.world_numeric_name = Return cache /\
    cache !! "conda" = Some (Conda d) /\
    d !! "env" = Some v /\ ~ is_plain v.
Proof.
  eexists _, _, _. split; [vm_compute; reflexivity|].
  split; [vm_compute; reflexivity|]. split; [vm_compute; reflexivity|].
  simpl. tauto.
Qed.

Lemma python_cache_conda_keys_witness :
  @python_cache Sample.quiet_platform (Sample.runner Sample.conf_env_file)
     Sample.world_numeric_name
  = Return (@Sample.fingerprint Sample.quiet_platform
              (Sample.runner Sample.conf_env_file) Sample.world_numeric_name)
  /\
  exists d : gmap string cval,
    @Sample.fingerprint Sample.quiet_platform (Sample.runner Sample.conf_env_file)
       Sample.world_numeric_name !! "conda" = Some (Conda d) /\
    (forall k v, d !! k = Some v -> k <> "env" -> is_plain v) /\
    d !! "env_spec" = Some (VStr "-n") /\
    d !! "env" = Some (VOther "2024" None) /\
    (is_Some (d !! "deps") <-> False).
Proof.
  split; [vm_compute; reflexivity|].
  destruct (@python_cache_conda_keys Sample.quiet_platform
              (Sample.runner Sample.conf_env_file) Sample.world_numeric_name
              (@Sample.fingerprint Sample.quiet_platform
                 (Sample.runner Sample.conf_env_file) Sample.world_numeric_name)
              ltac:(vm_compute; reflexivity))
    as (d & Hd & Hplain & Hspec & _ & Hsel & Hdeps & _).
  exists d. split; [exact Hd|]. split; [exact Hplain|].
  vm_compute in Hd. injection Hd as <-.
  split; [vm_compute; reflexivity|]. split; [vm_compute; reflexivity|].
  split; [intros [? Hx]; vm_compute in Hx; discriminate Hx | tauto].
Defined.

(** C7. At an environment file in a sub-directory
    ([conda_env = ci/environment.yml], working directory [/proj], which has
    an [environment.yml] of its own): the fingerprint has the name and the
    resolved path of the configured file, but under [env_hash] the digest of
    the other file, the one that [environment.yml] names from the working
    directory. *)
Theorem python_cache_env_hash_of_other_file :
  exists configured other cache d,
    read_file Sample.world "ci/environment.yml" = Return configured /\
    read_file Sample.world "environment.yml" = Return other /\
    @python_cache Sample.quiet_platform (Sample.runner Sample.conf_env_in_subdir)
       Sample.world = Return cache /\
    conda_entry cache = Return d /\
    d !! "env_spec" = Some (VStr "-n") /\
    d !! "env" = Some (VStr "ci") /\
    d !! "env_path" = Some (VStr "/proj/ci/environment.yml") /\
    d !! "env_hash" = Some (VStr (@sha1_hexdigest Sample.quiet_platform other)) /\
    d !! "env_hash" <> Some (VStr (@sha1_hexdigest Sample.quiet_platform configured)).
Proof.
  eexists _, _, _, _. split; [vm_compute; reflexivity|].
  split; [vm_compute; reflexivity|]. split; [vm_compute; reflexivity|].
  split; [vm_compute; reflexivity|].
  repeat split; try (vm_compute; reflexivity).
  vm_compute. discriminate.
Qed.

Lemma install_command_of_fingerprint_witness :
  @python_cache Sample.quiet_platform Sample.full Sample.world_two_specs
  = Return (@Sample.fingerprint Sample.quiet_platform Sample.full Sample.world_two_specs)
  /\
  conda_entry (@Sample.fingerprint Sample.quiet_platform Sample.full
                 Sample.world_two_specs)
  = Return (@Sample.conda_dict Sample.quiet_platform Sample.full Sample.world_two_specs)
  /\
  @_generate_install_command Sample.quiet_platform
    (Path.of_string "/opt/conda/bin/conda") "python=3.10"
    (@Sample.conda_dict Sample.quiet_platform Sample.full Sample.world_two_specs)
  = Return (Some ("'/opt/conda/bin/conda' install --quiet --yes -n 'science'"
                  +:+ " --channel conda-forge --override-channels python=3.10"
                  +:+ " numpy scipy --file=spec.txt")).
Proof.
  split; [vm_compute; reflexivity|]. split; [vm_compute; reflexivity|].
  destruct (@install_command_of_fingerprint Sample.quiet_platform Sample.full
              Sample.world_two_specs
              (@Sample.fingerprint Sample.quiet_platform Sample.full
                 Sample.world_two_specs)
              (@Sample.conda_dict Sample.quiet_platform Sample.full
                 Sample.world_two_specs)
              (Path.of_string "/opt/conda/bin/conda") "python=3.10"
              ltac:(vm_compute; reflexivity) ltac:(vm_compute; reflexivity))
    as (_ & (s & e & Hs & He & Hline) & _).
  rewrite Hline.
  - vm_compute in Hs. injection Hs as <-. vm_compute in He. injection He as <-.
    vm_compute. reflexivity.
  - left. vm_compute. eauto.
Defined.

Lemma build_instance_prefixes_command_witness :
  exists inst st',
    @build_instance Sample.quiet_platform Sample.plain Sample.request
      false "out" "err" Sample.world = (Return inst, st') /\
    cmd (i_request inst)
    = ["/opt/conda/bin/conda"; "run"; "-p"; "/proj/.tox/py310"; "--live-stream";
       "pytest"; "-q"] /\
    req_cwd (i_request inst) = "/proj" /\
    run_id (i_request inst) = "commands[0]" /\
    allow (i_request inst) = Some ["pytest"].
Proof.
  eexists _, _. split; [vm_compute; reflexivity|].
  match goal with
  | |- cmd (i_request ?inst) = _ /\ _ =>
      destruct (@build_instance_prefixes_command Sample.quiet_platform Sample.plain
                  Sample.request false "out" "err" Sample.world Sample.world inst
                  ltac:(vm_compute; reflexivity))
        as (exe & cache & d & s & e & prefix & Hfc & Hc & Hd & Hs & He & Hsplit
            & Hinst & _)
  end.
  vm_compute. auto.
Defined.

(** An environment selected by name, which conda keeps among its own
    environments: the directory of the tox environment is not there after
    the creation. After the creation that the first query ran has
    succeeded, and with [_created] set, a second query tests the directory
    again and creates the environment again. *)
Lemma second_query_creates_again :
  fst (@_ensure_python_env_exists Sample.quiet_platform Sample.named Sample.world)
  = Return tt /\
  created (snd (@env_python Sample.quiet_platform Sample.named Sample.world)) = true /\
  List.map c_argv
    (log (snd (@env_python Sample.quiet_platform Sample.named Sample.world)))
  = [ ["/opt/conda/bin/conda"; "create"; "-n"; "myenv"; "python=3.10"; "--yes";
       "--quiet"];
      ["/opt/conda/bin/conda"; "run"; "-n"; "myenv"; "--live-stream"; "python";
       "-c"; "import sys; print(sys.executable)"] ] /\
  count_site CreateEnv
    (log (snd (@env_python Sample.quiet_platform Sample.named Sample.world)))
  = 1%nat /\
  count_site CreateEnv
    (log (snd (@env_python Sample.quiet_platform Sample.named
                 (snd (@env_python Sample.quiet_platform Sample.named Sample.world)))))
  = 2%nat.
Proof. vm_compute. auto 10. Qed.

Lemma ensure_python_env_exists_cases_witness :
  path_exists Sample.world_with_env_dir (env_dir Sample.plain) = true /\
  created Sample.world_with_env_dir = false /\
  fst (@_ensure_python_env_exists Sample.base_only_platform Sample.plain
         Sample.world_with_env_dir)
  = Raise (Fail ("/proj/.tox/py310 already exists, but it is not a conda"
                 +:+ " environment. Delete in manually first.")) /\
  created (snd (@_ensure_python_env_exists Sample.base_only_platform Sample.plain
                  Sample.world_with_env_dir)) = false.
Proof.
  split; [vm_compute; reflexivity|]. split; [reflexivity|].
  pose proof (@ensure_python_env_exists_cases Sample.base_only_platform Sample.plain
                Sample.world_with_env_dir) as Hcases.
  cbv zeta in Hcases. destruct Hcases as (_ & Hexisting & _).
  destruct (Hexisting ltac:(vm_compute; reflexivity) eq_refl) as (_ & Hlisted).
  apply (Hlisted (Path.of_string "/opt/conda/bin/conda") Sample.world_with_env_dir
           ["/opt/conda/bin/conda"; "env"; "list"; "--json"]
           "/opt/conda/envs/base"
           {[ "envs" := ["/opt/conda/envs/base"] ]} ["/opt/conda/envs/base"]).
  - vm_compute. reflexivity.
  - vm_compute. reflexivity.
  - vm_compute. reflexivity.
  - vm_compute. reflexivity.
  - vm_compute. reflexivity.
  - vm_compute. reflexivity.
  - vm_compute. reflexivity.
  - intros Hin. apply list_elem_of_singleton in Hin. discriminate Hin.
Defined.

(** *** Runs of the model *)

Example version_of_base_python :
  List.map (fun bp => _get_python_env_version
                        (mk_runner (mk_conf [bp] None None None [] None None None "")
                                   None (Path.of_string "/e") (Return "3.11") ∅ ∅))
           ["python3"; "python3.10"; "python3.8.5"; "python38"; "python310"; "py38"]
  = [Return "3"; Return "3.10"; Return "3.8.5"; Return "3.8"; Return "3.1";
     Return "3.11"].
Proof. vm_compute. reflexivity. Qed.

Example paths :
  Path.to_string (Path.resolve ["proj"] (Path.of_string "ci/../env/./spec.txt"))
  = "/proj/env/spec.txt" /\
  Path.name (Path.of_string "/proj/ci/spec.txt") = "spec.txt" /\
  Path.to_string (Path.parent (Path.of_string "/proj/environment.yml")) = "/proj".
Proof. vm_compute. auto. Qed.

Example creation_without_env_file :
  log (snd (@create_python_env Sample.quiet_platform Sample.plain Sample.world))
  = [mk_call CreateEnv
       ["/opt/conda/bin/conda"; "create"; "-p"; "/proj/.tox/py310"; "python=3.10";
        "--yes"; "--quiet"] 0].
Proof. vm_compute. reflexivity. Qed.

Example creation_and_installation_with_env_file :
  log (snd (@create_python_env Sample.quiet_platform Sample.full
              Sample.world_two_specs))
  = [mk_call CreateEnv
       ["/opt/conda/bin/conda"; "env"; "create"; "--file";
        "/proj/tox_conda_tmpk3x9.yaml"; "--quiet"; "--force"] 0;
     mk_call InstallDeps
       ["/opt/conda/bin/conda"; "install"; "--quiet"; "--yes"; "-n"; "science";
        "--channel"; "conda-forge"; "--override-channels"; "python=3.10";
        "numpy"; "scipy"; "--file=spec.txt"] 0] /\
  files (snd (@create_python_env Sample.quiet_platform Sample.full
                Sample.world_two_specs))
  = files Sample.world_two_specs.
Proof. split; vm_compute; reflexivity. Qed.

Example creation_fails :
  fst (@create_python_env (Sample.platform Sample.no_create) Sample.plain Sample.world)
  = Raise (Fail ("Failed to create '/proj/.tox/py310' conda environment. Error: "
                 +:+ "Command ['/opt/conda/bin/conda', 'create', '-p', "
                 +:+ "'/proj/.tox/py310', 'python=3.10', '--yes', '--quiet']"
                 +:+ " returned non-zero exit status.")).
Proof. vm_compute. reflexivity. Qed.

Example installation_fails :
  exists msg,
    fst (@create_python_env (Sample.platform Sample.no_install) Sample.full
           Sample.world_two_specs) = Raise (Fail msg) /\
    String.prefix "Failed to install dependencies in conda environment. Error: " msg
    = true.
Proof. eexists. split; vm_compute; reflexivity. Qed.

Example query_creates_then_runs :
  let r := @env_python Sample.quiet_platform Sample.plain Sample.world in
  List.map c_site (log (snd r)) = [CreateEnv; InEnv] /\ created (snd r) = true.
Proof. vm_compute. auto. Qed.

Example query_of_listed_environment :
  let r := @env_python (Sample.platform (Sample.listing ["/proj/.tox/py310"]))
             Sample.plain Sample.world_with_env_dir in
  List.map c_site (log (snd r)) = [ListEnvs; InEnv] /\ created (snd r) = true.
Proof. vm_compute. auto. Qed.

Example filtered_dictionary :
  FilteredInfo.compare (fun h v _ _ => match v with
                                       | FilteredInfo.Ref l => h !! l
                                       | FilteredInfo.Atom _ => None
                                       end)
    (FilteredInfo.mk (Some ["name"]) (Some "python")) FilteredInfo.store
    (FilteredInfo.Ref 2) "python" None
  = (Return (Some (FilteredInfo.Dict {[ "version" := FilteredInfo.Atom "3.10" ]})),
     <[ 3%positive := FilteredInfo.Dict {[ "version" := FilteredInfo.Atom "3.10" ]} ]>
       FilteredInfo.store).
Proof. vm_compute. reflexivity. Qed.

(* ===================================================================== *)
(** ** Further properties: the python pin *)
(* ===================================================================== *)

Lemma substring_all (s : string) : String.substring 0 (String.length s) s = s.
Proof. induction s as [|c s IH]; simpl; [reflexivity | now rewrite IH]. Qed.

Lemma after_python (t : string) :
  String.substring 6 (String.length ("python" +:+ t) - 6) ("python" +:+ t) = t.
Proof.
  change ("python" +:+ t)
    with (String "p" (String "y" (String "t" (String "h" (String "o" (String "n" t)))))).
  simpl String.length. simpl Nat.sub. rewrite Nat.sub_0_r. simpl. apply substring_all.
Qed.

(** A string that has a prefix is the prefix and what [substring] leaves. *)
Lemma prefix_split (p s : string) :
  String.prefix p s = true ->
  s = p +:+ String.substring (String.length p) (String.length s - String.length p) s.
Proof.
  revert s. induction p as [|a p IH]; intros s Hp.
  - simpl. rewrite Nat.sub_0_r, substring_all. reflexivity.
  - destruct s as [|b s]; [discriminate Hp|]. simpl in Hp.
    destruct (ascii_dec a b) as [->|]; [|discriminate Hp].
    change (String b p +:+ ?t) with (String b (p +:+ t)). simpl.
    f_equal. apply IH, Hp.
Qed.

Lemma span_digits_app (ds r : string) :
  all_chars is_digit ds = true ->
  match r with String c _ => is_digit c = false | EmptyString => True end ->
  span_digits (ds +:+ r) = (ds, r).
Proof.
  intros Hds Hr. induction ds as [|c ds IH].
  - change ("" +:+ r) with r. destruct r as [|c r]; [reflexivity|]. simpl.
    now rewrite Hr.
  - change (String c ds +:+ r) with (String c (ds +:+ r)). simpl in *.
    apply andb_true_iff in Hds as [Hc Hds]. rewrite Hc, (IH Hds). reflexivity.
Qed.

Lemma span_digits_split (s : string) :
  s = fst (span_digits s) +:+ snd (span_digits s) /\
  all_chars is_digit (fst (span_digits s)) = true /\
  match snd (span_digits s) with
  | String c _ => is_digit c = false
  | EmptyString => True
  end.
Proof.
  induction s as [|c s (IH1 & IH2 & IH3)]; simpl; [auto|].
  destruct (is_digit c) eqn:Hc.
  - destruct (span_digits s) as [ds r]. simpl in *.
    change (String c ds +:+ r) with (String c (ds +:+ r)).
    rewrite Hc. split; [congruence|]. auto.
  - simpl. auto.
Qed.

Lemma all_chars_app (p : ascii -> bool) (s t : string) :
  all_chars p (s +:+ t) = all_chars p s && all_chars p t.
Proof.
  induction s as [|c s IH]; [reflexivity|].
  change (String c s +:+ t) with (String c (s +:+ t)). simpl.
  now rewrite IH, andb_assoc.
Qed.

(** The groups of the pattern in a name that starts with [python] and a
    digit. *)
Lemma match_base_python_python (d0 : ascii) (r : string) :
  is_digit d0 = true ->
  match_base_python ("python" +:+ String d0 r) =
  let '(g1, r') :=
    match r with
    | String "."%char r1 =>
        match span_digits r1 with
        | (EmptyString, _) => (None, r)
        | (ds, r2) => (Some ds, r2)
        end
    | _ => (None, r)
    end in
  Some (String d0 EmptyString, g1,
        match r' with
        | String "."%char (String d _) =>
            if is_digit d then Some (String d EmptyString) else None
        | String d _ => if is_digit d then Some (String d EmptyString) else None
        | EmptyString => None
        end).
Proof.
  intros Hd. unfold match_base_python.
  rewrite prefix_append, after_python, Hd. reflexivity.
Qed.

Lemma match_base_python_None (bp : string) :
  (forall d r, bp = "python" +:+ String d r -> is_digit d = false) ->
  match_base_python bp = None.
Proof.
  intros Hno. unfold match_base_python.
  destruct (String.prefix "python" bp) eqn:Hp; [|reflexivity].
  apply prefix_split in Hp. simpl String.length in Hp.
  destruct (String.substring 6 (String.length bp - 6) bp) as [|d r]; [reflexivity|].
  now rewrite (Hno d r Hp).
Qed.

(** The three groups of a match: a digit, a run of digits, a digit. *)
Lemma match_base_python_groups (bp g0 : string) (g1 g2 : option string) :
  match_base_python bp = Some (g0, g1, g2) ->
  (exists d0, g0 = String d0 EmptyString /\ is_digit d0 = true) /\
  (g1 = None \/ exists c ds, g1 = Some (String c ds) /\
                             all_chars is_digit (String c ds) = true) /\
  (g2 = None \/ exists d, g2 = Some (String d EmptyString) /\ is_digit d = true).
Proof.
  unfold match_base_python.
  destruct (String.prefix "python" bp); [|discriminate].
  destruct (String.substring 6 (String.length bp - 6) bp) as [|d0 r]; [discriminate|].
  destruct (is_digit d0) eqn:H0; [|discriminate].
  set (p := match r with
            | String "."%char r1 =>
                match span_digits r1 with
                | (EmptyString, _) => (None, r)
                | (ds, r2) => (Some ds, r2)
                end
            | _ => (None, r)
            end).
  assert (fst p = None \/ exists c ds, fst p = Some (String c ds) /\
                                       all_chars is_digit (String c ds) = true) as H1.
  { subst p. destruct r as [|c r1]; [now left|].
    destruct (ascii_dec c ".") as [->|Hne].
    - destruct (span_digits_split r1) as (_ & Hds & _).
      destruct (span_digits r1) as [[|c ds] r2]; [now left|].
      right. exists c, ds. auto.
    - left. destruct c as [[] [] [] [] [] [] [] []]; try reflexivity. now elim Hne. }
  destruct p as [g1' r']. simpl in H1.
  set (q := match r' with
            | String "."%char (String d _) =>
                if is_digit d then Some (String d EmptyString) else None
            | String d _ => if is_digit d then Some (String d EmptyString) else None
            | EmptyString => None
            end).
  assert (q = None \/ exists d, q = Some (String d EmptyString) /\ is_digit d = true) as H2.
  { subst q. destruct r' as [|c r'']; [now left|].
    destruct (ascii_dec c ".") as [->|Hne].
    - destruct r'' as [|d r'']; [now left|].
      destruct (is_digit d) eqn:Hd; [right; eauto | now left].
    - assert (match String c r'' with
              | String "."%char (String d _) =>
                  if is_digit d then Some (String d EmptyString) else None
              | String d _ => if is_digit d then Some (String d EmptyString) else None
              | EmptyString => None
              end = if is_digit c then Some (String c EmptyString) else None) as ->.
      { destruct c as [[] [] [] [] [] [] [] []]; try reflexivity. now elim Hne. }
      destruct (is_digit c) eqn:Hd; [right; eauto | now left]. }
  intros [= <- <- <-]. split; [eauto|]. split; assumption.
Qed.

Lemma truthy_digits (c : ascii) (s : string) :
  truthy (Some (String c s)) = Some (String c s).
Proof. unfold truthy. destruct (decide (String c s = "")); [discriminate|reflexivity]. Qed.

Section PythonPin.

(** X1. [_get_python_env_version] raises [IndexError] when [base_python]
    is empty; when the first name, a name of ASCII characters, is not
    [python] followed by a digit, it ends as the evaluation of
    [self.base_python.version_dot] ends: with the dotted version of the
    host's base interpreter, or with the error of the host's probe of that
    interpreter. *)
Theorem get_python_env_version_fallback (self : Runner) :
  (base_python (conf self) = [] -> _get_python_env_version self = Raise IndexError) /\
  (forall bp more,
     base_python (conf self) = bp :: more ->
     all_chars is_ascii bp = true ->
     (forall d r, bp = "python" +:+ String d r -> is_digit d = false) ->
     _get_python_env_version self = version_dot self).
Proof.
  unfold _get_python_env_version. split.
  - intros ->. reflexivity.
  - intros bp more -> _ Hno. now rewrite (match_base_python_None bp Hno).
Qed.

(** X2. A name [python<d0><d1>...] with two digits in a row and no dot is
    pinned to [<d0>.<d1>], whatever follows: [python310] gives [3.1]. *)
Theorem get_python_env_version_two_digits (self : Runner)
    (d0 d1 : ascii) (rest : string) (more : list string) :
  base_python (conf self) = ("python" +:+ String d0 (String d1 rest)) :: more ->
  is_digit d0 = true ->
  is_digit d1 = true ->
  _get_python_env_version self
  = Return (String d0 (String "." (String d1 EmptyString))).
Proof.
  intros Hbp H0 H1. unfold _get_python_env_version. rewrite Hbp.
  rewrite (match_base_python_python d0 _ H0).
  assert (d1 <> "."%char) as Hdot by (intros ->; discriminate H1).
  assert (match String d1 rest with
          | String "."%char r1 =>
              match span_digits r1 with
              | (EmptyString, _) => (None, String d1 rest)
              | (ds, r2) => (Some ds, r2)
              end
          | _ => (None, String d1 rest)
          end = (None, String d1 rest)) as ->.
  { destruct d1 as [[] [] [] [] [] [] [] []]; try reflexivity. now elim Hdot. }
  cbv beta iota zeta.
  assert (match String d1 rest with
          | String "."%char (String d _) =>
              if is_digit d then Some (String d EmptyString) else None
          | String d _ => if is_digit d then Some (String d EmptyString) else None
          | EmptyString => None
          end = Some (String d1 EmptyString)) as ->.
  { destruct d1 as [[] [] [] [] [] [] [] []]; try discriminate H1; try reflexivity. }
  reflexivity.
Qed.

(** X3. A dotted name [python<d0>.<minor>] is pinned to [<d0>.<minor>], and
    of a third component only the first digit is kept:
    [python<d0>.<minor>.<d><tail>] is pinned to [<d0>.<minor>.<d>] for every
    [tail], so [python3.8.12] gives [3.8.1]. *)
Theorem get_python_env_version_dotted (self : Runner)
    (d0 d : ascii) (minor tail : string) (more : list string) :
  is_digit d0 = true ->
  run_of is_digit minor = true ->
  is_digit d = true ->
  (base_python (conf self) = ("python" +:+ String d0 ("." +:+ minor)) :: more ->
   _get_python_env_version self = Return (String d0 ("." +:+ minor))) /\
  (base_python (conf self)
   = ("python" +:+ String d0 ("." +:+ minor +:+ "." +:+ String d tail)) :: more ->
   _get_python_env_version self
   = Return (String d0 ("." +:+ minor +:+ "." +:+ String d EmptyString))).
Proof.
  intros H0 Hrun Hd.
  assert (minor <> "" /\ all_chars is_digit minor = true) as [Hne Hminor].
  { unfold run_of in Hrun. apply andb_true_iff in Hrun as [Hn Hall].
    split; [|exact Hall]. intros ->. discriminate Hn. }
  unfold _get_python_env_version. split; intros ->.
  - rewrite (match_base_python_python d0 _ H0).
    change ("." +:+ minor) with (String "." minor). cbv beta iota.
    rewrite <- (append_nil_r minor) at 1.
    rewrite (span_digits_app minor "" Hminor I).
    destruct minor as [|c minor]; [now elim Hne|].
    cbv beta iota zeta. rewrite truthy_digits. reflexivity.
  - rewrite (match_base_python_python d0 _ H0).
    change ("." +:+ minor +:+ "." +:+ String d tail)
      with (String "." (minor +:+ String "." (String d tail))).
    cbv beta iota.
    rewrite (span_digits_app minor (String "." (String d tail)) Hminor eq_refl).
    destruct minor as [|c minor]; [now elim Hne|].
    cbv beta iota zeta. rewrite Hd, !truthy_digits.
    rewrite !append_assoc. reflexivity.
Qed.

(** X4. For a first name of ASCII characters, whatever
    [_get_python_env_version] returns is the host's dotted version, or one
    digit, then at most a dot and a run of digits, then at most a dot and
    one digit: digits and dots only. *)
Theorem get_python_env_version_shape (self : Runner) (bp : string)
    (more : list string) (v : string) :
  base_python (conf self) = bp :: more ->
  all_chars is_ascii bp = true ->
  _get_python_env_version self = Return v ->
  version_dot self = Return v \/
  exists d0 g1 g2,
    v = dotted (String d0 EmptyString) g1 g2 /\
    is_digit d0 = true /\
    (forall g, g1 = Some g -> g <> "" /\ all_chars is_digit g = true) /\
    (forall g, g2 = Some g -> exists d, g = String d EmptyString /\ is_digit d = true) /\
    all_chars (fun c => is_digit c || Ascii.eqb c ".") v = true.
Proof.
  unfold _get_python_env_version. intros -> _.
  destruct (match_base_python bp) as [[[g0 g1] g2]|] eqn:Hm;
    [|intros ->; now left].
  intros [= <-]. right.
  destruct (match_base_python_groups _ _ _ _ Hm)
    as ((d0 & -> & H0) & H1 & H2).
  exists d0, g1, g2.
  assert (forall s, all_chars is_digit s = true ->
                    all_chars (fun c => is_digit c || Ascii.eqb c ".") s = true) as Hw.
  { induction s as [|c s IH]; simpl; [reflexivity|].
    intros [-> Hs]%andb_true_iff. now rewrite IH. }
  assert (forall d, is_digit d = true ->
            all_chars (fun c => is_digit c || Ascii.eqb c ".") (String d EmptyString)
            = true) as Hone.
  { intros d Hd. simpl. now rewrite Hd. }
  assert (all_chars (fun c => is_digit c || Ascii.eqb c ".") "." = true) as Hdot
    by reflexivity.
  split; [|split; [exact H0|split; [|split]]].
  - destruct H1 as [->|(c & ds & -> & Hds)]; destruct H2 as [->|(d & -> & Hd)];
      rewrite ?truthy_digits; unfold dotted, truthy;
      rewrite ?append_nil_r, ?append_assoc; reflexivity.
  - destruct H1 as [->|(c & ds & -> & Hds)]; [discriminate|].
    intros g [= <-]. split; [discriminate | exact Hds].
  - destruct H2 as [->|(d & -> & Hd)]; [discriminate|].
    intros g [= <-]. eauto.
  - destruct H1 as [->|(c & ds & -> & Hds)]; destruct H2 as [->|(d & -> & Hd)];
      rewrite ?truthy_digits; unfold truthy;
      rewrite ?all_chars_app, ?Hdot.
    all: rewrite ?(Hone d0 H0), ?(Hone d Hd), ?(Hw _ Hds); reflexivity.
Qed.

End PythonPin.

(* ===================================================================== *)
(** ** Further properties: the interpreter probe *)
(* ===================================================================== *)

Lemma after_literal_app (lit s : string) : after_literal lit (lit +:+ s) = Some s.
Proof.
  induction lit as [|a lit IH]; [reflexivity|].
  change (String a lit +:+ s) with (String a (lit +:+ s)). simpl.
  now rewrite Ascii.eqb_refl.
Qed.

Lemma after_literal_inv (lit s r : string) :
  after_literal lit s = Some r -> s = lit +:+ r.
Proof.
  revert s. induction lit as [|a lit IH]; intros s; simpl.
  - now intros [= ->].
  - destruct s as [|b s]; [discriminate|].
    destruct (Ascii.eqb a b) eqn:Hab; [|discriminate].
    apply Ascii.eqb_eq in Hab as ->. intros Hr.
    change (String b lit +:+ r) with (String b (lit +:+ r)). f_equal. now apply IH.
Qed.

Lemma span_word_app (w r : string) :
  all_chars is_word w = true ->
  match r with String c _ => is_word c = false | EmptyString => True end ->
  span_word (w +:+ r) = (w, r).
Proof.
  intros Hw Hr. induction w as [|c w IH].
  - change ("" +:+ r) with r. destruct r as [|c r]; [reflexivity|]. simpl.
    now rewrite Hr.
  - change (String c w +:+ r) with (String c (w +:+ r)). simpl in *.
    apply andb_true_iff in Hw as [Hc Hw]. rewrite Hc, (IH Hw). reflexivity.
Qed.

Lemma span_word_split (s : string) :
  s = fst (span_word s) +:+ snd (span_word s) /\
  all_chars is_word (fst (span_word s)) = true.
Proof.
  induction s as [|c s (IH1 & IH2)]; simpl; [auto|].
  destruct (is_word c) eqn:Hc.
  - destruct (span_word s) as [w r]. simpl in *.
    change (String c w +:+ r) with (String c (w +:+ r)).
    rewrite Hc. split; [congruence|]. auto.
  - simpl. auto.
Qed.

Lemma run_of_cons (p : ascii -> bool) (s : string) :
  run_of p s = true <-> exists c s', s = String c s' /\ all_chars p s = true.
Proof.
  unfold run_of. destruct s as [|c s']; simpl.
  - split; [discriminate | intros (? & ? & ? & _); discriminate].
  - split; [eauto | now intros (? & ? & _ & ->)].
Qed.

(** [(\d+)lit] matches exactly a run of digits followed by the literal,
    for a literal that does not start with a digit. *)
Lemma digits_then_iff (a : ascii) (lit s ds r : string) :
  is_digit a = false ->
  digits_then (String a lit) s = Some (ds, r) <->
  s = ds +:+ String a lit +:+ r /\ run_of is_digit ds = true.
Proof.
  intros Ha. unfold digits_then. split.
  - destruct (span_digits_split s) as (Hs & Hds & _).
    destruct (span_digits s) as [[|c ds'] r0]; [discriminate|]. simpl in Hs, Hds.
    destruct (after_literal (String a lit) r0) as [r'|] eqn:Hlit; [|discriminate].
    intros [= <- <-]. apply after_literal_inv in Hlit. subst r0.
    split; [exact Hs|]. apply run_of_cons. eauto.
  - intros [-> Hrun]. apply run_of_cons in Hrun as (c & ds' & -> & Hds).
    rewrite (span_digits_app _ (String a lit +:+ r) Hds)
      by (change (String a lit +:+ r) with (String a (lit +:+ r)); exact Ha).
    now rewrite after_literal_app.
Qed.

Lemma word_then_iff (a : ascii) (lit s w r : string) :
  is_word a = false ->
  word_then (String a lit) s = Some (w, r) <->
  s = w +:+ String a lit +:+ r /\ run_of is_word w = true.
Proof.
  intros Ha. unfold word_then. split.
  - destruct (span_word_split s) as (Hs & Hw).
    destruct (span_word s) as [[|c w'] r0]; [discriminate|]. simpl in Hs, Hw.
    destruct (after_literal (String a lit) r0) as [r'|] eqn:Hlit; [|discriminate].
    intros [= <- <-]. apply after_literal_inv in Hlit. subst r0.
    split; [exact Hs|]. apply run_of_cons. eauto.
  - intros [-> Hrun]. apply run_of_cons in Hrun as (c & w' & -> & Hw).
    rewrite (span_word_app _ (String a lit +:+ r) Hw)
      by (change (String a lit +:+ r) with (String a (lit +:+ r)); exact Ha).
    now rewrite after_literal_app.
Qed.

(** The pattern for [sys.version_info] matches exactly the lines that
    start with what Python prints for five fields, the numbers being runs
    of digits and the release level a run of word characters. *)
Lemma match_version_info_iff (s a b c w e : string) :
  match_version_info s = Some (a, b, c, w, e) <->
  (exists tail, s = version_info_repr a b c w e +:+ tail) /\
  run_of is_digit a = true /\ run_of is_digit b = true /\
  run_of is_digit c = true /\ run_of is_word w = true /\
  run_of is_digit e = true.
Proof.
  unfold match_version_info, version_info_repr. split.
  - destruct (after_literal "sys.version_info(major=" s) as [r0|] eqn:H0;
      [|discriminate]. simpl.
    destruct (digits_then ", minor=" r0) as [[g1 r1]|] eqn:H1; [|discriminate]. simpl.
    destruct (digits_then ", micro=" r1) as [[g2 r2]|] eqn:H2; [|discriminate]. simpl.
    destruct (digits_then ", releaselevel='" r2) as [[g3 r3]|] eqn:H3;
      [|discriminate]. simpl.
    destruct (word_then "', serial=" r3) as [[g4 r4]|] eqn:H4; [|discriminate]. simpl.
    destruct (digits_then ")" r4) as [[g5 r5]|] eqn:H5; [|discriminate]. simpl.
    intros [= <- <- <- <- <-].
    apply after_literal_inv in H0.
    apply digits_then_iff in H1 as [-> ?]; [|reflexivity].
    apply digits_then_iff in H2 as [-> ?]; [|reflexivity].
    apply digits_then_iff in H3 as [-> ?]; [|reflexivity].
    apply word_then_iff in H4 as [-> ?]; [|reflexivity].
    apply digits_then_iff in H5 as [-> ?]; [|reflexivity].
    split; [|auto]. exists r5. subst s. rewrite !append_assoc. reflexivity.
  - intros ((tail & ->) & Ha & Hb & Hc & Hw & He).
    rewrite !append_assoc.
    rewrite after_literal_app. simpl.
    rewrite (proj2 (digits_then_iff "," " minor=" _ a _ eq_refl) (conj eq_refl Ha)).
    simpl.
    rewrite (proj2 (digits_then_iff "," " micro=" _ b _ eq_refl) (conj eq_refl Hb)).
    simpl.
    rewrite (proj2 (digits_then_iff "," " releaselevel='" _ c _ eq_refl)
               (conj eq_refl Hc)).
    simpl.
    rewrite (proj2 (word_then_iff "'" ", serial=" _ w _ eq_refl) (conj eq_refl Hw)).
    simpl.
    rewrite (proj2 (digits_then_iff ")" "" _ e _ eq_refl) (conj eq_refl He)).
    reflexivity.
Qed.

Section Probe.
Context `{Platform}.

(** [int()] converts a digit string that is within the limit of the
    interpreter, and every digit string when there is no limit. *)
Lemma py_int_fits (ds : string) :
  int_fits ds -> py_int ds = Return (int_of_digits 0 ds).
Proof.
  intros Hfit. unfold py_int.
  destruct (0 <? int_max_str_digits)%nat eqn:H0; [|reflexivity].
  destruct (int_max_str_digits <? String.length ds)%nat eqn:H1; [|reflexivity].
  apply Nat.ltb_lt in H0, H1. destruct Hfit as [Hfit|Hfit].
  - rewrite Hfit in H0. now apply Nat.lt_irrefl in H0.
  - exfalso. apply (Nat.lt_irrefl (String.length ds)).
    eapply Nat.le_lt_trans; eassumption.
Qed.

Lemma py_int_cases (ds : string) :
  int_fits ds \/ (~ int_fits ds /\ py_int ds = Raise ValueError).
Proof.
  unfold int_fits, py_int.
  destruct (0 <? int_max_str_digits)%nat eqn:H0.
  - destruct (int_max_str_digits <? String.length ds)%nat eqn:H1.
    + right. split; [|reflexivity]. apply Nat.ltb_lt in H0, H1.
      intros [Hz|Hle].
      * rewrite Hz in H0. now apply Nat.lt_irrefl in H0.
      * apply (Nat.lt_irrefl (String.length ds)).
        eapply Nat.le_lt_trans; eassumption.
    + left. right. now apply Nat.ltb_ge in H1.
  - left. left. apply Nat.ltb_ge in H0. now apply Nat.le_0_r in H0.
Qed.

(** The steps of [_get_python] up to the lines of the output. *)
Lemma get_python_lines (exe : string) (more : list string) (st : State)
    (output : string) :
  can_start [exe; "-c"; probe_program] st = true ->
  returncode (spawn [exe; "-c"; probe_program] st) = 0 ->
  decode (stdout (spawn [exe; "-c"; probe_program] st)) = Some output ->
  _get_python (exe :: more) st
  = match split_lines "" (str_strip output) with
    | [implementation; version_info; version; is_64; platform_name] =>
        match match_version_info version_info with
        | Some (g1, g2, g3, g4, g5) =>
            obind (py_int g1) (fun major =>
            obind (py_int g2) (fun minor =>
            obind (py_int g3) (fun micro =>
            obind (py_int g5) (fun serial =>
            Return (mk_python_info implementation
                      (mk_version_info major minor micro g4 serial)
                      version (negb (String.eqb is_64 "")) platform_name
                      {[ "executable_path" := exe ]})))))
        | None => Raise AttributeError
        end
    | _ => Raise ValueError
    end.
Proof.
  intros Hcs Hz Hd. unfold _get_python. rewrite Hcs.
  destruct (decide (returncode (spawn [exe; "-c"; probe_program] st) = 0));
    [|contradiction].
  rewrite Hd. reflexivity.
Qed.

(** With five lines of which the second has the form of
    [sys.version_info], the four numbers are converted in turn. *)
Lemma get_python_numbers (exe : string) (more : list string) (st : State)
    (output l1 a b c w e tail l3 l4 l5 : string) :
  can_start [exe; "-c"; probe_program] st = true ->
  returncode (spawn [exe; "-c"; probe_program] st) = 0 ->
  decode (stdout (spawn [exe; "-c"; probe_program] st)) = Some output ->
  split_lines "" (str_strip output)
  = [l1; version_info_repr a b c w e +:+ tail; l3; l4; l5] ->
  run_of is_digit a = true -> run_of is_digit b = true ->
  run_of is_digit c = true -> run_of is_word w = true ->
  run_of is_digit e = true ->
  _get_python (exe :: more) st
  = obind (py_int a) (fun major =>
    obind (py_int b) (fun minor =>
    obind (py_int c) (fun micro =>
    obind (py_int e) (fun serial =>
    Return (mk_python_info l1 (mk_version_info major minor micro w serial)
                           l3 (negb (String.eqb l4 "")) l5
                           {[ "executable_path" := exe ]}))))).
Proof.
  intros Hcs Hz Hd Hlines Ha Hb Hc Hw He.
  rewrite (get_python_lines exe more st output Hcs Hz Hd), Hlines.
  now rewrite (proj2 (match_version_info_iff _ a b c w e)) by eauto 10.
Qed.

(** X5. When the interpreter can be started, exits with 0, its output can be
    decoded and, stripped, has five lines, the second being what Python
    prints for [sys.version_info] (numbers in ASCII digits, a release level
    of ASCII word characters), [_get_python] converts the four numbers with
    [int()], which raises [ValueError] for one longer than the limit of the
    interpreter, and returns the first, third and fifth line as they are,
    the five fields of the second, and the path it was given under
    [executable_path]. *)
Theorem get_python_parses_probe (exe : string) (more : list string) (st : State)
    (output l1 a b c w e tail l3 l4 l5 : string) :
  can_start [exe; "-c"; probe_program] st = true ->
  returncode (spawn [exe; "-c"; probe_program] st) = 0 ->
  decode (stdout (spawn [exe; "-c"; probe_program] st)) = Some output ->
  split_lines "" (str_strip output)
  = [l1; version_info_repr a b c w e +:+ tail; l3; l4; l5] ->
  run_of is_digit a = true -> run_of is_digit b = true ->
  run_of is_digit c = true -> run_of is_word w = true ->
  run_of is_digit e = true ->
  (int_fits a /\ int_fits b /\ int_fits c /\ int_fits e ->
   _get_python (exe :: more) st
   = Return (mk_python_info l1
               (mk_version_info (int_of_digits 0 a) (int_of_digits 0 b)
                                (int_of_digits 0 c) w (int_of_digits 0 e))
               l3 (negb (String.eqb l4 "")) l5 {[ "executable_path" := exe ]})) /\
  (~ (int_fits a /\ int_fits b /\ int_fits c /\ int_fits e) ->
   _get_python (exe :: more) st = Raise ValueError).
Proof.
  intros Hcs Hz Hd Hlines Ha Hb Hc Hw He.
  rewrite (get_python_numbers exe more st output l1 a b c w e tail l3 l4 l5
             Hcs Hz Hd Hlines Ha Hb Hc Hw He).
  split.
  - intros (Fa & Fb & Fc & Fe).
    now rewrite !py_int_fits by assumption.
  - intros Hno.
    destruct (py_int_cases a) as [Fa|[_ ->]]; [|reflexivity].
    rewrite (py_int_fits a Fa). simpl.
    destruct (py_int_cases b) as [Fb|[_ ->]]; [|reflexivity].
    rewrite (py_int_fits b Fb). simpl.
    destruct (py_int_cases c) as [Fc|[_ ->]]; [|reflexivity].
    rewrite (py_int_fits c Fc). simpl.
    destruct (py_int_cases e) as [Fe|[_ ->]]; [|reflexivity].
    exfalso. apply Hno. auto.
Qed.

(** X6. [is_64] is the truth of the fourth line as a string: it is true
    for every interpreter that prints something there, [False] included. *)
Theorem get_python_is_64 (base_python : list string) (st : State)
    (info : PythonInfo) :
  _get_python base_python st = Return info ->
  exists exe output l4,
    head base_python = Some exe /\
    decode (stdout (spawn [exe; "-c"; probe_program] st)) = Some output /\
    split_lines "" (str_strip output) !! 3%nat = Some l4 /\
    (is_64 info = true <-> l4 <> "") /\
    (l4 = "False" -> is_64 info = true).
Proof.
  unfold _get_python. destruct base_python as [|exe more]; [discriminate|].
  destruct (can_start [exe; "-c"; probe_program] st); [|discriminate].
  destruct (decide (returncode (spawn [exe; "-c"; probe_program] st) = 0));
    [|discriminate].
  destruct (decode (stdout (spawn [exe; "-c"; probe_program] st)))
    as [output|] eqn:Hd; [|discriminate].
  destruct (split_lines "" (str_strip output))
    as [|l1 [|l2 [|l3 [|l4 [|l5 [|l6 ls]]]]]] eqn:Hlines; try discriminate.
  destruct (match_version_info l2) as [[[[[g1 g2] g3] g4] g5]|]; [|discriminate].
  destruct (py_int g1); [|discriminate]. destruct (py_int g2); [|discriminate].
  destruct (py_int g3); [|discriminate]. destruct (py_int g5); [|discriminate].
  simpl. intros [= <-]. exists exe, output, l4. rewrite Hlines. simpl.
  split; [reflexivity|]. split; [exact Hd|]. split; [reflexivity|]. split.
  - rewrite negb_true_iff. split.
    + intros Hn ->. discriminate Hn.
    + intros Hne. apply String.eqb_neq. exact Hne.
  - intros ->. reflexivity.
Qed.

(** X7. How [_get_python] ends. An interpreter that cannot be started
    raises [OSError]; a nonzero exit, [CalledProcessError] with the command
    and the code; output that is not UTF-8, [UnicodeDecodeError]; another
    number of lines than five, [ValueError]; a second line of ASCII
    characters that has not the form of [sys.version_info],
    [AttributeError]; and with a second line of that form, [_get_python]
    returns exactly when each of the four numbers is within the limit of
    [int()], and raises [ValueError] otherwise. *)
Theorem get_python_outcomes (exe : string) (more : list string) (st : State) :
  let argv := [exe; "-c"; probe_program] in
  let well_formed (line : string) :=
    exists a b c w e tail,
      line = version_info_repr a b c w e +:+ tail /\
      run_of is_digit a = true /\ run_of is_digit b = true /\
      run_of is_digit c = true /\ run_of is_word w = true /\
      run_of is_digit e = true in
  (can_start argv st = false -> _get_python (exe :: more) st = Raise OSError) /\
  (can_start argv st = true -> returncode (spawn argv st) <> 0 ->
   _get_python (exe :: more) st
   = Raise (CalledProcessError argv (returncode (spawn argv st)))) /\
  (can_start argv st = true -> returncode (spawn argv st) = 0 ->
   decode (stdout (spawn argv st)) = None ->
   _get_python (exe :: more) st = Raise UnicodeDecodeError) /\
  (forall output,
     can_start argv st = true -> returncode (spawn argv st) = 0 ->
     decode (stdout (spawn argv st)) = Some output ->
     let lines := split_lines "" (str_strip output) in
     (length lines <> 5%nat -> _get_python (exe :: more) st = Raise ValueError) /\
     (forall line,
        length lines = 5%nat -> lines !! 1%nat = Some line ->
        all_chars is_ascii line = true -> ~ well_formed line ->
        _get_python (exe :: more) st = Raise AttributeError) /\
     (forall a b c w e tail,
        length lines = 5%nat ->
        lines !! 1%nat = Some (version_info_repr a b c w e +:+ tail) ->
        run_of is_digit a = true -> run_of is_digit b = true ->
        run_of is_digit c = true -> run_of is_word w = true ->
        run_of is_digit e = true ->
        ((exists info, _get_python (exe :: more) st = Return info) <->
         int_fits a /\ int_fits b /\ int_fits c /\ int_fits e) /\
        (~ (int_fits a /\ int_fits b /\ int_fits c /\ int_fits e) ->
         _get_python (exe :: more) st = Raise ValueError))).
Proof.
  intros argv well_formed.
  split; [|split; [|split]].
  - intros Hcs. unfold _get_python. fold argv. now rewrite Hcs.
  - intros Hcs Hnz. unfold _get_python. fold argv. rewrite Hcs.
    destruct (decide (returncode (spawn argv st) = 0)); [contradiction|reflexivity].
  - intros Hcs Hz Hd. unfold _get_python. fold argv. rewrite Hcs.
    destruct (decide (returncode (spawn argv st) = 0)); [|contradiction].
    now rewrite Hd.
  - intros output Hcs Hz Hd lines.
    pose proof (get_python_lines exe more st output Hcs Hz Hd) as Hg.
    fold lines in Hg.
    split; [|split].
    + intros Hlen. rewrite Hg.
      destruct lines as [|l1 [|l2 [|l3 [|l4 [|l5 [|l6 ls]]]]]]; try reflexivity.
      now elim Hlen.
    + intros line Hlen Hline _ Hno. rewrite Hg.
      destruct lines as [|l1 [|l2 [|l3 [|l4 [|l5 [|l6 ls]]]]]]; try discriminate Hlen.
      injection Hline as ->.
      destruct (match_version_info line) as [[[[[g1 g2] g3] g4] g5]|] eqn:Hm;
        [|reflexivity].
      exfalso. apply Hno. apply match_version_info_iff in Hm.
      destruct Hm as ((tail & ->) & Hr). exists g1, g2, g3, g4, g5, tail. auto.
    + intros a b c w e tail Hlen Hline Ha Hb Hc Hw He.
      assert (exists l1 l3 l4 l5,
                lines = [l1; version_info_repr a b c w e +:+ tail; l3; l4; l5])
        as (l1 & l3 & l4 & l5 & Hlines).
      { destruct lines as [|l1 [|l2 [|l3 [|l4 [|l5 [|l6 ls]]]]]];
          try discriminate Hlen. injection Hline as ->. eauto. }
      clear Hg.
      rewrite (get_python_numbers exe more st output l1 a b c w e tail
                 l3 l4 l5 Hcs Hz Hd Hlines Ha Hb Hc Hw He).
      destruct (py_int_cases a) as [Fa|[Fa ->]];
        [rewrite (py_int_fits a Fa)|]; simpl.
      2: { split; [split; [intros [? ?]; discriminate | tauto] | reflexivity]. }
      destruct (py_int_cases b) as [Fb|[Fb ->]];
        [rewrite (py_int_fits b Fb)|]; simpl.
      2: { split; [split; [intros [? ?]; discriminate | tauto] | reflexivity]. }
      destruct (py_int_cases c) as [Fc|[Fc ->]];
        [rewrite (py_int_fits c Fc)|]; simpl.
      2: { split; [split; [intros [? ?]; discriminate | tauto] | reflexivity]. }
      destruct (py_int_cases e) as [Fe|[Fe ->]];
        [rewrite (py_int_fits e Fe)|]; simpl.
      2: { split; [split; [intros [? ?]; discriminate | tauto] | reflexivity]. }
      split; [split; eauto | tauto].
Qed.

End Probe.

(* ===================================================================== *)
(** ** Further properties: finding conda and the hooks *)
(* ===================================================================== *)

Section Hooks.
Context `{Platform}.

(** X8. When neither variable names conda and [conda] is found on PATH,
    [find_conda] starts [<conda> -h]: when the program can be started it
    runs once and the resolved path is returned whatever the process exits
    with, nothing but the log and the directories changing; when it cannot
    be started, [OSError] leaves [find_conda] and nothing has changed. *)
Theorem find_conda_on_path (st : State) (found : string) :
  truthy (environ st !! "_CONDA_EXE") = None ->
  truthy (environ st !! "CONDA_EXE") = None ->
  truthy (which_conda st) = Some found ->
  let exe := resolve_in st found in
  let argv := [Path.to_string exe; "-h"] in
  find_conda st
  = (if can_start argv st
     then (Return exe, after_process ProbeConda argv st)
     else (Raise OSError, st)) /\
  (can_start argv st = true ->
   log (snd (find_conda st))
   = (log st ++ [mk_call ProbeConda argv (returncode (spawn argv st))])%list).
Proof.
  intros H1 H2 H3 exe argv.
  pose proof (find_conda_cases st) as Heq. rewrite H1, H2, H3 in Heq.
  cbv zeta in Heq. fold exe in Heq. fold argv in Heq.
  split; [exact Heq|]. intros Hcs. rewrite Heq, Hcs. reflexivity.
Qed.

(** X9. [tox_register_tox_env] registers the runner [conda] beside the
    runners there are, whether it returns or raises. It raises nothing but
    the [OSError] of a [conda] on PATH that cannot be started; the [Fail]
    of [find_conda] is caught. It makes [conda] the default exactly when
    conda is found and [CONDA_DEFAULT_ENV] is in the environment, be it
    empty; otherwise the default stays. *)
Theorem tox_register_tox_env_default (register : ToxEnvRegister) (st : State) :
  exists r register',
    tox_register_tox_env register st = (r, register', snd (find_conda st)) /\
    run_envs register' = {[ "conda" ]} ∪ run_envs register /\
    (r = Raise OSError <-> fst (find_conda st) = Raise OSError) /\
    (r = Return tt <-> fst (find_conda st) <> Raise OSError) /\
    ((exists exe, fst (find_conda st) = Return exe) ->
     is_Some (environ st !! "CONDA_DEFAULT_ENV") ->
     default_env_runner register' = "conda") /\
    ((exists e, fst (find_conda st) = Raise e)
     \/ environ st !! "CONDA_DEFAULT_ENV" = None ->
     default_env_runner register' = default_env_runner register).
Proof.
  unfold tox_register_tox_env.
  destruct (find_conda_frame st) as (Henv & _).
  pose proof (find_conda_raises st) as Hraise.
  destruct (find_conda st) as [[exe|e] st1]; simpl in *.
  - rewrite Henv.
    destruct (bool_decide (is_Some (environ st !! "CONDA_DEFAULT_ENV"))) eqn:Hb.
    + do 2 eexists. split; [reflexivity|]. simpl. split; [reflexivity|].
      split; [split; discriminate|]. split; [split; [discriminate|reflexivity]|].
      split; [reflexivity|]. apply bool_decide_eq_true in Hb as [x Hx].
      intros [[e He]|Hn]; [discriminate | congruence].
    + do 2 eexists. split; [reflexivity|]. simpl. split; [reflexivity|].
      split; [split; discriminate|]. split; [split; [discriminate|reflexivity]|].
      apply bool_decide_eq_false in Hb. split; [intros _ Hs; contradiction|].
      reflexivity.
  - destruct (Hraise e eq_refl) as [(-> & _)|(-> & _)].
    + do 2 eexists. split; [reflexivity|]. simpl. split; [reflexivity|].
      split; [split; discriminate|]. split; [split; [discriminate|reflexivity]|].
      split; [intros [x Hx]; discriminate | reflexivity].
    + do 2 eexists. split; [reflexivity|]. simpl. split; [reflexivity|].
      split; [split; reflexivity|].
      split; [split; [discriminate|intros Hne; now elim Hne]|].
      split; [intros [x Hx]; discriminate | reflexivity].
Qed.

End Hooks.

(* ===================================================================== *)
(** ** Further properties: the fingerprint *)
(* ===================================================================== *)

Lemma dom_insert_within (k : string) (v : cval) (m : gmap string cval)
    (K : gset string) :
  k ∈ K -> dom m ⊆ K -> dom (<[k := v]> m) ⊆ K.
Proof.
  intros Hk Hm. rewrite dom_insert_L. apply union_least; [|exact Hm].
  now apply singleton_subseteq_l.
Qed.

Lemma conda_keys_elem (k : string) :
  bool_decide (k ∈ conda_keys) = true -> k ∈ conda_keys.
Proof. apply bool_decide_eq_true. Qed.

Ltac within_conda_keys :=
  repeat first
    [ assumption
    | apply dom_insert_within; [apply conda_keys_elem; vm_compute; reflexivity|]
    | rewrite dom_empty_L; apply empty_subseteq ].

Section Fingerprint.
Context `{Platform}.

(** X11. The [conda] dictionary of a fingerprint has no key besides the
    ten that [python_cache] writes; it has [create_args], with the
    configured list, exactly when [conda_create_args] is set; and it has
    [env_path] and [env_hash] exactly when the environment is selected by
    the environment file (no environment name is set, [conda_env] is). *)
Theorem python_cache_key_set (self : Runner) (st : State)
    (cache : gmap string entry) :
  python_cache self st = Return cache ->
  exists d : gmap string cval,
    cache !! "conda" = Some (Conda d) /\
    dom d ⊆ conda_keys /\
    d !! "create_args" = VList <$> truthy_list (conda_create_args (conf self)) /\
    (is_Some (d !! "env_path") <->
       effective_conda_name self = None /\ is_set (conda_env (conf self))) /\
    (is_Some (d !! "env_hash") <-> is_Some (d !! "env_path")).
Proof.
  intros Hc.
  destruct (python_cache_lookups _ _ _ Hc)
    as (d & Heq & _ & _ & _ & _ & _ & Hca & Hsel).
  exists d. split; [subst cache; apply lookup_insert_eq|].
  split; [|split; [exact Hca|]].
  - clear Hsel Hca. subst cache. unfold python_cache in Hc.
    match type of Hc with
    | obind ?o _ = _ => destruct o as [d1|] eqn:H1; [|discriminate]
    end. simpl in Hc.
    match type of Hc with
    | obind ?o _ = _ => destruct o as [d2|] eqn:H2; [|discriminate]
    end. simpl in Hc.
    injection Hc as Hc. apply (f_equal (fun m => m !! "conda")) in Hc.
    rewrite !lookup_insert_eq in Hc. injection Hc as <-.
    assert (dom d1 ⊆ conda_keys) as Hd1.
    { clear -H1.
      destruct (truthy match truthy (options_conda_name self) with
                       | Some n => Some n
                       | None => conda_name (conf self)
                       end).
      - injection H1 as <-.
        within_conda_keys.
      - destruct (truthy (conda_env (conf self))).
        + destruct (load_yaml st (resolve_in st s)) as [[doc|]|];
            [|discriminate|discriminate].
          simpl in H1. destruct (ef_name doc); [|discriminate]. simpl in H1.
          destruct (hash_file st (resolve_in st s)); [|discriminate].
          injection H1 as <-.
          within_conda_keys.
        + injection H1 as <-.
          within_conda_keys. }
    assert (dom d2 ⊆ conda_keys) as Hd2.
    { clear -H2 Hd1. destruct (truthy (conda_spec (conf self))).
      - simpl in H2. destruct (hash_file st (resolve_in st s)); [|discriminate].
        injection H2 as <-.
        destruct (conda_deps (conf self)); within_conda_keys.
      - injection H2 as <-.
        destruct (conda_deps (conf self)); within_conda_keys. }
    clear -Hd2.
    destruct (truthy_list (conda_channels (conf self)));
      destruct (truthy_list (conda_install_args (conf self)));
      destruct (truthy_list (conda_create_args (conf self)));
      within_conda_keys.
  - unfold is_set.
    destruct (effective_conda_name self) as [n|].
    + destruct Hsel as (_ & _ & -> & ->).
      split; [|reflexivity].
      split; [intros [? ?]; discriminate | intros [? _]; discriminate].
    + destruct (truthy (conda_env (conf self))) as [ce|].
      * destruct Hsel as (doc & name & h & _ & _ & _ & _ & _ & -> & ->).
        split; split; eauto.
      * destruct Hsel as (_ & _ & -> & ->).
        split; [|reflexivity].
        split; [intros [? ?]; discriminate | intros [_ [? ?]]; discriminate].
Qed.

(** X12. [python_cache] keeps every entry of the fingerprint of the base
    class, except that [conda] is its own: the keys are those of the base
    class and [conda]. *)
Theorem python_cache_keeps_base_entries (self : Runner) (st : State)
    (cache : gmap string entry) :
  python_cache self st = Return cache ->
  (forall k, k <> "conda" -> cache !! k = Host <$> base_cache self !! k) /\
  (exists d, cache !! "conda" = Some (Conda d)) /\
  dom cache = {[ "conda" ]} ∪ dom (base_cache self).
Proof.
  intros Hc. destruct (python_cache_lookups _ _ _ Hc) as (d & -> & _).
  split; [|split].
  - intros k Hk. rewrite lookup_insert_ne by congruence. apply lookup_fmap.
  - exists d. apply lookup_insert_eq.
  - rewrite dom_insert_L, dom_fmap_L. reflexivity.
Qed.

(** With no conda setting the selection falls through to the directory of
    the environment and nothing else is recorded. *)
Lemma python_cache_plain (self : Runner) (st : State) :
  truthy (options_conda_name self) = None ->
  nothing_set (conf self) ->
  python_cache self st
  = Return (<["conda" := Conda (<["env" := VStr (Path.to_string (env_dir self))]>
                                  (<["env_spec" := VStr "-p"]> ∅))]>
              (Host <$> base_cache self)).
Proof.
  intros Ho (Hn & He & Hs & Hd & Hc & Hi & Ha).
  unfold python_cache. rewrite Ho, Hn, He, Hs, Hd, Hc, Hi, Ha. reflexivity.
Qed.

(** X13. With no conda setting (each one absent or empty) the fingerprint
    is that of the base class with [conda] bound to [env_spec = "-p"] and
    the environment directory, and to nothing else; no file is read, so it
    is the same in every state, and there is nothing to install for it. *)
Theorem python_cache_nothing_set (self : Runner) (st : State) :
  truthy (options_conda_name self) = None ->
  nothing_set (conf self) ->
  let d : gmap string cval :=
    <["env" := VStr (Path.to_string (env_dir self))]>
      (<["env_spec" := VStr "-p"]> ∅) in
  python_cache self st = Return (<["conda" := Conda d]> (Host <$> base_cache self)) /\
  dom d = {[ "env_spec"; "env" ]} /\
  (forall st', python_cache self st' = python_cache self st) /\
  (forall exe python, _generate_install_command exe python d = Return None).
Proof.
  intros Ho Hns d. split; [|split; [|split]].
  - apply python_cache_plain; assumption.
  - subst d. rewrite !dom_insert_L, dom_empty_L.
    apply set_eq. intros k. rewrite !elem_of_union, !elem_of_singleton.
    rewrite elem_of_empty. tauto.
  - intros st'. now rewrite !python_cache_plain.
  - intros exe python. unfold _generate_install_command. subst d.
    rewrite !lookup_insert_ne by discriminate. rewrite lookup_empty. reflexivity.
Qed.

(** X14. With no conda setting, [create_python_env] spawns one process
    after it has found conda, the tokens of
    ['<conda>' create -p '<env_dir>' python=<version> --yes --quiet]; it
    returns when that process exits with 0 and raises [Fail] otherwise;
    when the program cannot be started, [OSError] is raised and nothing has
    run. *)
Theorem create_python_env_nothing_set (self : Runner) (st st1 : State)
    (exe : Path.t) (v : string) (argv : list string) :
  truthy (options_conda_name self) = None ->
  nothing_set (conf self) ->
  find_conda st = (Return exe, st1) ->
  _get_python_env_version self = Return v ->
  shlex_split (create_command_line exe ("python=" +:+ v) "-p"
                 (Path.to_string (env_dir self)) []) = Some argv ->
  create_python_env self st
  = if can_start argv st1 then
      (if decide (returncode (spawn argv st1) = 0) then Return tt
       else Raise (Fail ("Failed to create '" +:+ Path.to_string (env_dir self)
                         +:+ "' conda environment. Error: "
                         +:+ str_of_called_process_error argv
                               (returncode (spawn argv st1)))),
       after_process CreateEnv argv st1)
    else (Raise OSError, st1).
Proof.
  intros Ho Hns Hfc Hv Hsplit.
  pose proof (python_cache_plain self st1 Ho Hns) as Hc.
  destruct Hns as (Hn & He & Hs & Hd & _ & _ & Ha).
  set (d := <["env" := VStr (Path.to_string (env_dir self))]>
              (<["env_spec" := VStr "-p"]> (∅ : gmap string cval))) in *.
  assert (conda_entry (<["conda" := Conda d]> (Host <$> base_cache self)) = Return d)
    as Hentry.
  { unfold conda_entry. now rewrite lookup_insert_eq. }
  destruct (generate_create_command_line self st1 st1 _ d exe ("python=" +:+ v)
              Hc Hentry) as (s & e & Hs' & He' & td & Hgen & ->).
  subst d. rewrite lookup_insert_ne in Hs' by discriminate.
  rewrite lookup_insert_eq in Hs'. rewrite lookup_insert_eq in He'.
  injection Hs' as <-. injection He' as <-.
  assert (default [] (conda_create_args (conf self)) = []) as Hargs.
  { destruct (conda_create_args (conf self)) as [[|x l]|]; try reflexivity.
    discriminate Ha. }
  rewrite Hargs in Hgen. clear Hargs. cbn [py_str] in Hgen.
  unfold create_python_env. rewrite bind_run, Hfc.
  rewrite bind_run. unfold of_outcome at 1. rewrite Hv.
  rewrite bind_run. unfold lift at 1. rewrite Hc.
  rewrite bind_run. unfold of_outcome at 1. rewrite Hentry.
  rewrite bind_run. rewrite He. rewrite Hgen.
  rewrite bind_run. unfold try_finally at 1, except_called_process_error at 1.
  rewrite bind_run. unfold shlex_split_py at 1. rewrite Hsplit.
  unfold ret at 1. rewrite bind_run. unfold subprocess_run_check at 1.
  rewrite bind_run. unfold subprocess_run at 1. unfold run_process at 1.
  destruct (can_start argv st1); [|reflexivity].
  destruct (decide (returncode (spawn argv st1) = 0)) as [Hz|Hnz].
  - unfold ret at 1 2 3. rewrite bind_run. unfold of_outcome at 1.
    unfold _generate_install_command.
    rewrite !lookup_insert_ne by discriminate. rewrite lookup_empty.
    reflexivity.
  - reflexivity.
Qed.

End Fingerprint.

(* ===================================================================== *)
(** ** Further properties: creating the environment *)
(* ===================================================================== *)

Section Creation.
Context `{Platform}.

(** X16. The processes that [create_python_env] spawns come in a fixed
    order: the probe of [find_conda] if any, then at most one creation,
    then at most one installation, and an installation only after a
    creation that exited with 0. *)
Theorem create_python_env_spawn_order (self : Runner) (st : State) :
  exists probes rest,
    log (snd (create_python_env self st)) = (log st ++ probes ++ rest)%list /\
    Forall (fun c => c_site c = ProbeConda) probes /\
    (rest = []
     \/ (exists argv code, rest = [mk_call CreateEnv argv code])
     \/ (exists argv argv' code,
           rest = [mk_call CreateEnv argv 0; mk_call InstallDeps argv' code])).
Proof.
  destruct (create_python_env_runs self st) as (probes & Hprobes & Hcases).
  exists probes.
  destruct Hcases as [[Hl _]|[(? & argv & ? & code & _ & _ & Hl & _)
                     |[(? & argv & ? & _ & _ & Hl & _)
                     |(? & argv & ? & argv' & code & _ & _ & Hl & _)]]].
  - exists []. rewrite app_nil_r. auto.
  - eexists. split; [exact Hl|]. split; [exact Hprobes|]. right; left. eauto.
  - eexists. split; [exact Hl|]. split; [exact Hprobes|]. right; left. eauto.
  - eexists. split; [exact Hl|]. split; [exact Hprobes|]. right; right. eauto.
Qed.

(** X17. How [_generate_env_create_command] fails. It raises [KeyError]
    when the dictionary has no [env_path] and [TypeError] when the value
    there is not a string; the error of the load when the file cannot be
    read or parsed; [TypeError] when the document is not a mapping (an empty
    file loads as [None]); [KeyError] when the mapping has no
    [dependencies], and [AttributeError] when the value there is not a list
    ([dependencies:] without an item loads as [None]). In every other case
    it returns; and when it raises it has written nothing. *)
Theorem generate_env_create_command_raises (exe : Path.t) (python : string)
    (d : gmap string cval) (st : State) :
  let r := _generate_env_create_command exe python d st in
  (forall e, fst r = Raise e -> snd r = st) /\
  (d !! "env_path" = None -> fst r = Raise (KeyError "env_path")) /\
  (forall v, d !! "env_path" = Some v -> (forall s, v <> VStr s) ->
             fst r = Raise TypeError) /\
  (forall s,
     d !! "env_path" = Some (VStr s) ->
     match load_yaml st (resolve_in st s) with
     | Raise e => fst r = Raise e
     | Return NotMapping => fst r = Raise TypeError
     | Return (Mapping m) =>
         match ef_dependencies m with
         | None => fst r = Raise (KeyError "dependencies")
         | Some None => fst r = Raise AttributeError
         | Some (Some deps) => exists line td, fst r = Return (line, td)
         end
     end).
Proof.
  cbv zeta.
  unfold _generate_env_create_command, write_file, bind, of_outcome, ret, raise,
    get, getitem.
  simpl.
  split; [|split; [|split]].
  - destruct (d !! "env_path") as [[s|l|t i]|]; simpl; try reflexivity.
    destruct (load_yaml st (resolve_in st s)) as [[m|]|e]; simpl; try reflexivity.
    destruct (ef_dependencies m) as [[deps|]|]; simpl; try reflexivity.
    discriminate.
  - intros ->. reflexivity.
  - intros v -> Hv. destruct v as [s|l|t i]; simpl; try reflexivity.
    now elim (Hv s).
  - intros s ->. simpl.
    destruct (load_yaml st (resolve_in st s)) as [[m|]|e] eqn:Hdoc; simpl.
    + destruct (ef_dependencies m) as [[deps|]|]; simpl; eauto.
    + reflexivity.
    + reflexivity.
Qed.

(** X18. What [_generate_env_create_command] writes, its tear-down
    removes. The file is [tox_conda_tmp<infix>.yaml] beside the environment
    file; the tear-down, run right after the generator, succeeds, and where
    that name was not taken before, the state is again the one before the
    generator; run a second time the tear-down raises
    [FileNotFoundError]. *)
Theorem generate_env_create_command_round_trip (exe : Path.t)
    (python line s : string) (d : gmap string cval) (st st2 : State)
    (td : Py unit) :
  d !! "env_path" = Some (VStr s) ->
  _generate_env_create_command exe python d st = (Return (line, td), st2) ->
  let tmp := tmp_env_file_name (resolve_in st s) (mkstemp_infix st) in
  let key := Path.to_string (resolve_in st tmp) in
  line = env_create_command_line exe tmp /\
  is_Some (files st2 !! key) /\
  exists st3,
    td st2 = (Return tt, st3) /\
    files st3 = delete key (files st) /\
    (files st !! key = None -> st3 = st) /\
    td st3 = (Raise (FileNotFoundError tmp), st3).
Proof.
  intros Hs.
  unfold _generate_env_create_command, write_file, bind, of_outcome, ret, raise,
    get, getitem.
  simpl. rewrite Hs. simpl.
  destruct (load_yaml st (resolve_in st s)) as [[doc|]|e]; simpl;
    [|discriminate|discriminate].
  destruct (ef_dependencies doc) as [[deps|]|]; simpl; [|discriminate|discriminate].
  intros [= <- <- <-]. simpl.
  split; [reflexivity|].
  split; [unfold tmp_env_file_name; rewrite lookup_insert_eq; eauto|].
  unfold unlink, bind, get, set_files, modify, resolve_in. simpl.
  unfold resolve_in, tmp_env_file_name. rewrite lookup_insert_eq. simpl.
  eexists. split; [reflexivity|]. simpl.
  split; [apply delete_insert_eq|].
  split.
  - intros Hfresh. rewrite delete_insert_eq, delete_id by exact Hfresh.
    now destruct st.
  - rewrite lookup_delete_eq. reflexivity.
Qed.

(** X19. On any dictionary, [_generate_install_command] first tests whether
    there is something to install: without [deps] and [spec] it returns
    nothing, even where [env_spec] and [env] are missing; otherwise it
    raises [KeyError] for the first of [env_spec] and [env] that is
    missing, and with both there it returns a command when what is under
    [channels], [install_args] and [deps] can be iterated, and raises
    [TypeError] when one of them cannot.
    [_generate_create_command] needs the same two keys and an iterable under
    [create_args], and changes nothing. *)
Theorem generators_need_env_keys (exe : Path.t) (python : string)
    (d : gmap string cval) (st : State) :
  (d !! "deps" = None -> d !! "spec" = None ->
   _generate_install_command exe python d = Return None) /\
  (is_Some (d !! "deps") \/ is_Some (d !! "spec") ->
   match d !! "env_spec", d !! "env" with
   | None, _ => _generate_install_command exe python d = Raise (KeyError "env_spec")
   | Some _, None => _generate_install_command exe python d = Raise (KeyError "env")
   | Some _, Some _ =>
       match get_items d "channels", get_items d "install_args",
             get_items d "deps" with
       | Return _, Return _, Return _ =>
           exists line, _generate_install_command exe python d = Return (Some line)
       | _, _, _ => _generate_install_command exe python d = Raise TypeError
       end
   end) /\
  match d !! "env_spec", d !! "env" with
  | None, _ =>
      _generate_create_command exe python d st = (Raise (KeyError "env_spec"), st)
  | Some _, None =>
      _generate_create_command exe python d st = (Raise (KeyError "env"), st)
  | Some _, Some _ =>
      match get_items d "create_args" with
      | Return _ =>
          exists line td,
            _generate_create_command exe python d st = (Return (line, td), st) /\
            forall st', td st' = (Return tt, st')
      | Raise _ =>
          _generate_create_command exe python d st = (Raise TypeError, st)
      end
  end.
Proof.
  assert (forall k e, get_items d k = Raise e -> e = TypeError) as Hiter.
  { intros k e. unfold get_items, py_iter.
    destruct (default (VList []) (d !! k)) as [s|l|t [i|]]; try discriminate.
    now intros [= <-]. }
  split; [|split].
  - intros Hd Hs. unfold _generate_install_command. now rewrite Hd, Hs.
  - intros Hsome. unfold _generate_install_command, getitem.
    assert (bool_decide (d !! "deps" = None) && bool_decide (d !! "spec" = None)
            = false) as ->.
    { apply andb_false_iff.
      destruct Hsome as [[x Hx]|[x Hx]]; [left|right];
        apply bool_decide_eq_false; congruence. }
    destruct (d !! "env_spec"); [|reflexivity]. simpl.
    destruct (d !! "env"); [|reflexivity]. simpl.
    destruct (get_items d "channels") as [ch|e1] eqn:H1; simpl.
    2: { rewrite (Hiter _ _ H1). reflexivity. }
    destruct (get_items d "install_args") as [ia|e2] eqn:H2; simpl.
    2: { rewrite (Hiter _ _ H2). reflexivity. }
    destruct (get_items d "deps") as [de|e3] eqn:H3; simpl.
    2: { rewrite (Hiter _ _ H3). reflexivity. }
    eauto.
  - unfold _generate_create_command, bind, of_outcome, getitem, ret.
    destruct (d !! "env_spec"); [|reflexivity]. simpl.
    destruct (d !! "env"); [|reflexivity]. simpl.
    destruct (get_items d "create_args") as [ca|e1] eqn:H1; simpl.
    + eauto.
    + rewrite (Hiter _ _ H1). reflexivity.
Qed.

End Creation.

(* ===================================================================== *)
(** ** Further properties: the queries of the environment *)
(* ===================================================================== *)

Section Queries.
Context `{Platform}.



End Queries.

(* ===================================================================== *)
(** ** Further properties: the filtered comparison *)
(* ===================================================================== *)

Module FilteredInfoCopy.
Import FilteredInfo.

(** [pop] and the loop over the keys touch the object they are given and
    no other. *)
Lemma pop_all_other (keys : list string) (h h' : gmap positive obj) (l l0 : positive) :
  pop_all h l keys = Return h' -> l0 <> l -> h' !! l0 = h !! l0.
Proof.
  revert h. induction keys as [|k keys IH]; intros h; simpl.
  - now intros [= <-].
  - unfold pop. destruct (h !! l) as [[items|items]|] eqn:Hl; try discriminate.
    intros Hp Hne. rewrite (IH _ Hp Hne). apply lookup_insert_ne. congruence.
Qed.

(** On a list, the loop raises [TypeError] at its first key. *)
Lemma pop_all_list (keys : list string) (h : gmap positive obj) (l : positive)
    (items : list value) :
  h !! l = Some (List items) ->
  pop_all h l keys = match keys with [] => Return h | _ => Raise TypeError end.
Proof.
  intros Hl. destruct keys as [|k keys]; [reflexivity|]. simpl. unfold pop.
  now rewrite Hl.
Qed.

(** What is left of a dictionary, key by key. *)
Lemma without_lookup (keys : list string) (items : gmap string value) (k : string) :
  without keys items !! k = if bool_decide (k ∈ keys) then None else items !! k.
Proof.
  unfold without. revert items. induction keys as [|k0 keys IH]; intros items; simpl.
  - reflexivity.
  - rewrite IH. destruct (decide (k = k0)) as [->|Hne].
    + rewrite lookup_delete_eq.
      rewrite (bool_decide_eq_true_2 (k0 ∈ k0 :: keys)) by (apply elem_of_cons; now left).
      now destruct (bool_decide (k0 ∈ keys)).
    + rewrite lookup_delete_ne by congruence.
      destruct (bool_decide (k ∈ keys)) eqn:Hin.
      * apply bool_decide_eq_true in Hin.
        now rewrite bool_decide_eq_true_2 by (apply elem_of_cons; now right).
      * apply bool_decide_eq_false in Hin.
        rewrite bool_decide_eq_false_2; [reflexivity|].
        intros [?|?]%elem_of_cons; contradiction.
Qed.

Section Compare.
Context {R : Type}.
Variable Info_compare :
  gmap positive obj -> value -> string -> option string -> R.

(** X23. [compare] never changes an object of the caller: whatever the
    value and the outcome, every object of the store is afterwards what it
    was; filtering works on a copy. *)
Theorem compare_keeps_store (self : t) (h : gmap positive obj) (v : value)
    (section : string) (sub_section : option string) :
  h ⊆ snd (compare Info_compare self h v section sub_section).
Proof.
  unfold compare.
  destruct (bool_decide (filter_section self = None)
            || bool_decide (Some section = filter_section self)); [|reflexivity].
  destruct v as [repr|l]; [reflexivity|].
  destruct (h !! l) as [o|]; [|reflexivity].
  assert (h !! fresh (dom h) = None) as Hfresh.
  { apply not_elem_of_dom. apply is_fresh. }
  destruct (pop_all (<[fresh (dom h) := o]> h) (fresh (dom h))
              (default [] (filter_keys self))) as [h''|e] eqn:Hp; [|reflexivity].
  simpl. apply map_subseteq_spec. intros l0 o0 Hl0.
  rewrite (pop_all_other _ _ _ _ l0 Hp) by congruence.
  rewrite lookup_insert_ne by congruence. exact Hl0.
Qed.

(** X24. [compare] raises exactly when it filters in the section, the
    value is a list and there is a filter key; it raises [TypeError] then,
    and leaves the store as it was. *)
Theorem compare_raises_iff (self : t) (h : gmap positive obj) (v : value)
    (section : string) (sub_section : option string) :
  ((exists e, fst (compare Info_compare self h v section sub_section) = Raise e) <->
   filters self section /\
   exists l items k keys,
     v = Ref l /\ h !! l = Some (List items) /\ filter_keys self = Some (k :: keys)) /\
  (forall e, fst (compare Info_compare self h v section sub_section) = Raise e ->
             e = TypeError /\
             snd (compare Info_compare self h v section sub_section) = h).
Proof.
  unfold compare.
  destruct (bool_decide (filter_section self = None)
            || bool_decide (Some section = filter_section self)) eqn:Hb.
  2: { simpl. split; [|discriminate]. split; [intros [? ?]; discriminate|].
       intros [Hf _]. apply FilteredInfoFacts.filters_decide in Hf. congruence. }
  apply FilteredInfoFacts.filters_decide in Hb.
  destruct v as [repr|l].
  { simpl. split; [|discriminate]. split; [intros [? ?]; discriminate|].
    intros (_ & ? & ? & ? & ? & ? & _). discriminate. }
  destruct (h !! l) as [[items|items]|] eqn:Hl.
  - rewrite (FilteredInfoFacts.pop_all_dict _ _ items) by apply lookup_insert_eq.
    simpl. split; [|discriminate]. split; [intros [? ?]; discriminate|].
    intros (_ & ? & ? & ? & ? & [= <-] & ? & _). congruence.
  - rewrite (pop_all_list _ _ _ items) by apply lookup_insert_eq.
    destruct (filter_keys self) as [[|k keys]|]; simpl.
    + split; [|discriminate]. split; [intros [? ?]; discriminate|].
      intros (_ & ? & ? & ? & ? & _ & _ & ?). discriminate.
    + split; [|intros e [= <-]; auto]. split; [|eauto].
      intros _. split; [exact Hb|]. exists l, items, k, keys. auto.
    + split; [|discriminate]. split; [intros [? ?]; discriminate|].
      intros (_ & ? & ? & ? & ? & _ & _ & ?). discriminate.
  - simpl. split; [|discriminate]. split; [intros [? ?]; discriminate|].
    intros (_ & ? & ? & ? & ? & [= <-] & ? & _). congruence.
Qed.

(** X25. Of a dictionary in a filtered section the base class gets a new
    object, which has no filter key and under every other key what the
    dictionary has there. *)
Theorem compare_dict_lookup (self : t) (h : gmap positive obj) (l : positive)
    (items : gmap string value) (section : string) (sub_section : option string) :
  h !! l = Some (Dict items) ->
  filters self section ->
  exists l' items',
    h !! l' = None /\
    compare Info_compare self h (Ref l) section sub_section
    = (Return (Info_compare (<[l' := Dict items']> h) (Ref l') section sub_section),
       <[l' := Dict items']> h) /\
    forall k, items' !! k
              = if bool_decide (k ∈ default [] (filter_keys self)) then None
                else items !! k.
Proof.
  intros Hl Hf.
  destruct (FilteredInfoFacts.compare_dict Info_compare self h l items section
              sub_section Hl Hf) as (Hc & _ & _).
  exists (fresh (dom h)), (without (default [] (filter_keys self)) items).
  split; [apply not_elem_of_dom, is_fresh|]. split; [exact Hc|].
  intros k. apply without_lookup.
Qed.

(** X26. Without filter keys ([None] or an empty sequence) a filtered
    section still copies: the base class gets a new object with the
    content of the given one, a list as well as a dictionary. *)
Theorem compare_copies_without_keys (self : t) (h : gmap positive obj) (l : positive)
    (o : obj) (section : string) (sub_section : option string) :
  h !! l = Some o ->
  filters self section ->
  default [] (filter_keys self) = [] ->
  exists l',
    l' <> l /\ h !! l' = None /\
    compare Info_compare self h (Ref l) section sub_section
    = (Return (Info_compare (<[l' := o]> h) (Ref l') section sub_section),
       <[l' := o]> h).
Proof.
  intros Hl Hf Hk. exists (fresh (dom h)).
  assert (h !! fresh (dom h) = None) as Hfresh.
  { apply not_elem_of_dom. apply is_fresh. }
  split; [congruence|]. split; [exact Hfresh|].
  unfold compare. apply FilteredInfoFacts.filters_decide in Hf. rewrite Hf, Hl, Hk. reflexivity.
Qed.

End Compare.

End FilteredInfoCopy.

(* ===================================================================== *)
(** ** The further statements at work *)
(* ===================================================================== *)

Lemma get_python_env_version_fallback_witness :
  _get_python_env_version (Interpreter.runner_for "py38") = Return "3.11".
Proof.
  apply (proj2 (get_python_env_version_fallback (Interpreter.runner_for "py38"))
           "py38" []); [reflexivity|reflexivity|].
  intros d r Hbp. discriminate Hbp.
Defined.

Lemma get_python_env_version_two_digits_witness :
  _get_python_env_version (Interpreter.runner_for "python310") = Return "3.1".
Proof.
  apply (get_python_env_version_two_digits
           (Interpreter.runner_for "python310") "3" "1" "0" []); reflexivity.
Defined.

Lemma get_python_env_version_dotted_witness :
  _get_python_env_version (Interpreter.runner_for "python3.8.12") = Return "3.8.1".
Proof.
  apply (proj2 (get_python_env_version_dotted
                  (Interpreter.runner_for "python3.8.12") "3" "1" "8" "2" []
                  eq_refl eq_refl eq_refl)).
  reflexivity.
Defined.

Lemma get_python_env_version_shape_witness :
  all_chars (fun c => is_digit c || Ascii.eqb c ".") "3.10" = true.
Proof.
  destruct (get_python_env_version_shape (Interpreter.runner_for "python3.10")
              "python3.10" [] "3.10" eq_refl eq_refl eq_refl)
    as [Heq|(d0 & g1 & g2 & _ & _ & _ & _ & Hall)];
    [discriminate Heq | exact Hall].
Defined.

Lemma get_python_parses_probe_witness :
  @_get_python Interpreter.platform ["/usr/bin/python3"] Sample.world
  = Return Interpreter.info.
Proof.
  refine (proj1 (@get_python_parses_probe Interpreter.platform "/usr/bin/python3" []
                   Sample.world Interpreter.answer "CPython" "3" "10" "4" "final" "0" ""
                   "3.10.4 (main, Jun  7 2022, 10:02:11) [GCC 11.2.0]" "False" "Linux"
                   _ _ _ _ _ _ _ _ _) _).
  all: try (vm_compute; reflexivity).
  unfold int_fits. simpl. repeat split; right; lia.
Defined.

Lemma get_python_is_64_witness :
  returncode (Interpreter.python ["/usr/bin/python3"; "-c"; probe_program] Sample.world)
  = 0 /\
  is_64 Interpreter.info = true.
Proof.
  split; [reflexivity|].
  destruct (@get_python_is_64 Interpreter.platform ["/usr/bin/python3"] Sample.world
              Interpreter.info ltac:(vm_compute; reflexivity))
    as (exe & output & l4 & Hexe & Hd & Hl4 & _ & Hfalse).
  apply Hfalse. injection Hexe as <-. vm_compute in Hd. injection Hd as <-.
  vm_compute in Hl4. now injection Hl4 as <-.
Defined.

Lemma find_conda_on_path_witness :
  fst (@find_conda (Sample.platform Interpreter.broken_help)
         Interpreter.world_path_only)
  = Return (Path.of_string "/usr/bin/conda") /\
  log (snd (@find_conda (Sample.platform Interpreter.broken_help)
              Interpreter.world_path_only))
  = [mk_call ProbeConda ["/usr/bin/conda"; "-h"] 2].
Proof.
  destruct (@find_conda_on_path (Sample.platform Interpreter.broken_help)
              Interpreter.world_path_only "/usr/bin/conda"
              ltac:(vm_compute; reflexivity) ltac:(vm_compute; reflexivity)
              ltac:(vm_compute; reflexivity)) as [Hfc Hlog].
  split; [rewrite Hfc | rewrite (Hlog eq_refl)]; vm_compute; reflexivity.
Defined.

Lemma python_cache_key_set_witness :
  exists d : gmap string cval,
    @Sample.fingerprint Sample.quiet_platform Sample.full Sample.world_two_specs
      !! "conda" = Some (Conda d) /\
    dom d ⊆ conda_keys /\
    d !! "create_args" = Some (VList ["--no-default-packages"]) /\
    is_Some (d !! "env_path").
Proof.
  destruct (@python_cache_key_set Sample.quiet_platform Sample.full
              Sample.world_two_specs
              (@Sample.fingerprint Sample.quiet_platform Sample.full
                 Sample.world_two_specs)
              ltac:(vm_compute; reflexivity))
    as (d & Hd & Hdom & Hca & Hpath & _).
  exists d. split; [exact Hd|]. split; [exact Hdom|]. split; [exact Hca|].
  apply Hpath. split; [reflexivity | eexists; reflexivity].
Defined.

Lemma python_cache_keeps_base_entries_witness :
  @Sample.fingerprint Sample.quiet_platform Sample.full Sample.world_two_specs
    !! "version_info" = Some (Host "3.10.4").
Proof.
  destruct (@python_cache_keeps_base_entries Sample.quiet_platform Sample.full
              Sample.world_two_specs
              (@Sample.fingerprint Sample.quiet_platform Sample.full
                 Sample.world_two_specs)
              ltac:(vm_compute; reflexivity)) as (Hbase & _).
  rewrite (Hbase "version_info") by discriminate. reflexivity.
Defined.

Lemma python_cache_nothing_set_witness :
  nothing_set (conf Sample.plain) /\
  conda_entry (@Sample.fingerprint Sample.quiet_platform Sample.plain Sample.world)
  = Return {[ "env_spec" := VStr "-p"; "env" := VStr "/proj/.tox/py310" ]}.
Proof.
  assert (nothing_set (conf Sample.plain)) as Hns by (repeat split).
  split; [exact Hns|]. unfold Sample.fingerprint.
  destruct (@python_cache_nothing_set Sample.quiet_platform Sample.plain Sample.world
              eq_refl Hns) as (-> & _).
  vm_compute. reflexivity.
Defined.

Lemma create_python_env_nothing_set_witness :
  @create_python_env Sample.quiet_platform Sample.plain Sample.world
  = (Return tt,
     @after_process Sample.quiet_platform CreateEnv
       ["/opt/conda/bin/conda"; "create"; "-p"; "/proj/.tox/py310"; "python=3.10";
        "--yes"; "--quiet"] Sample.world).
Proof.
  rewrite (@create_python_env_nothing_set Sample.quiet_platform Sample.plain
             Sample.world Sample.world (Path.of_string "/opt/conda/bin/conda")
             "3.10"
             ["/opt/conda/bin/conda"; "create"; "-p"; "/proj/.tox/py310";
              "python=3.10"; "--yes"; "--quiet"]
             eq_refl ltac:(repeat split) ltac:(vm_compute; reflexivity)
             ltac:(vm_compute; reflexivity) ltac:(vm_compute; reflexivity)).
  vm_compute. reflexivity.
Defined.

Lemma generate_env_create_command_round_trip_witness :
  let gen :=
    @_generate_env_create_command Sample.quiet_platform
      (Path.of_string "/opt/conda/bin/conda") "python=3.10"
      {[ "env_path" := VStr "/proj/environment.yml" ]} Sample.world in
  fst gen
  = Return ("'/opt/conda/bin/conda' env create --file "
            +:+ "'/proj/tox_conda_tmpk3x9.yaml' --quiet --force",
            unlink "/proj/tox_conda_tmpk3x9.yaml") /\
  files (snd gen) !! "/proj/tox_conda_tmpk3x9.yaml"
  = Some ("name: science" +:+ Sample.nl +:+ "dependencies:" +:+ Sample.nl
          +:+ "- numpy" +:+ Sample.nl +:+ "- python=3.10" +:+ Sample.nl) /\
  unlink "/proj/tox_conda_tmpk3x9.yaml" (snd gen) = (Return tt, Sample.world).
Proof.
  cbv zeta.
  assert (({[ "env_path" := VStr "/proj/environment.yml" ]} : gmap string cval)
            !! "env_path" = Some (VStr "/proj/environment.yml")) as Hpath
    by (vm_compute; reflexivity).
  assert (@_generate_env_create_command Sample.quiet_platform
            (Path.of_string "/opt/conda/bin/conda") "python=3.10"
            {[ "env_path" := VStr "/proj/environment.yml" ]} Sample.world
          = (Return ("'/opt/conda/bin/conda' env create --file "
                     +:+ "'/proj/tox_conda_tmpk3x9.yaml' --quiet --force",
                     unlink "/proj/tox_conda_tmpk3x9.yaml"),
             snd (@_generate_env_create_command Sample.quiet_platform
                    (Path.of_string "/opt/conda/bin/conda") "python=3.10"
                    {[ "env_path" := VStr "/proj/environment.yml" ]} Sample.world)))
    as Hgen by (vm_compute; reflexivity).
  destruct (@generate_env_create_command_round_trip Sample.quiet_platform
              _ _ _ _ _ _ _ _ Hpath Hgen)
    as (_ & _ & st3 & Htd & _ & Hsame & _).
  split; [vm_compute; reflexivity|]. split; [vm_compute; reflexivity|].
  rewrite Htd. f_equal. apply Hsame. vm_compute. reflexivity.
Defined.



Lemma compare_dict_lookup_witness :
  exists l' items',
    FilteredInfo.compare (fun _ _ _ _ => tt)
      (FilteredInfo.mk (Some ["name"]) (Some "python")) FilteredInfo.store
      (FilteredInfo.Ref 2) "python" None
    = (Return tt, <[l' := FilteredInfo.Dict items']> FilteredInfo.store) /\
    items' !! "name" = None /\
    items' !! "version" = Some (FilteredInfo.Atom "3.10").
Proof.
  destruct (FilteredInfoCopy.compare_dict_lookup (fun _ _ _ _ => tt)
              (FilteredInfo.mk (Some ["name"]) (Some "python")) FilteredInfo.store
              2%positive
              {[ "name" := FilteredInfo.Atom "py310";
                 "version" := FilteredInfo.Atom "3.10" ]}
              "python" None eq_refl (or_intror eq_refl))
    as (l' & items' & _ & Hc & Hk).
  exists l', items'. split; [exact Hc|].
  split; [rewrite Hk | rewrite Hk]; vm_compute; reflexivity.
Defined.

Lemma compare_copies_without_keys_witness :
  exists l',
    l' <> 1%positive /\
    FilteredInfo.compare (fun _ _ _ _ => tt)
      (FilteredInfo.mk None None) FilteredInfo.store (FilteredInfo.Ref 1) "deps" None
    = (Return tt,
       <[l' := FilteredInfo.List [FilteredInfo.Atom "numpy"; FilteredInfo.Atom "scipy"]]>
         FilteredInfo.store).
Proof.
  destruct (FilteredInfoCopy.compare_copies_without_keys (fun _ _ _ _ => tt)
              (FilteredInfo.mk None None) FilteredInfo.store 1%positive
              (FilteredInfo.List [FilteredInfo.Atom "numpy"; FilteredInfo.Atom "scipy"])
              "deps" None eq_refl (or_introl eq_refl) eq_refl)
    as (l' & Hne & _ & Hc).
  exists l'. split; [exact Hne | exact Hc].
Defined.

(** *** Runs of the hooks *)

Example settings_added :
  cd_key <$> tox_add_env_config []
  = ["conda_name"; "conda_env"; "conda_spec"; "conda_deps"; "conda_channels";
     "conda_install_args"; "conda_create_args"] /\
  forallb (fun c => default_is_false (cd_default c)) (tox_add_env_config []) = true.
Proof. split; reflexivity. Qed.

Example pass_env : _default_pass_env ["PATH"; "TMPDIR"] = ["PATH"; "TMPDIR"; "*CONDA*"].
Proof. reflexivity. Qed.

Example search_path :
  fst (@prepend_env_var_path Sample.quiet_platform Sample.world)
  = Return [Path.of_string "/opt/conda/bin"].
Proof. vm_compute. reflexivity. Qed.

Example registration_with_conda_on_path :
  fst (@tox_register_tox_env (Sample.platform Interpreter.broken_help)
         (mk_register {[ "virtualenv" ]} "virtualenv") Interpreter.world_path_only)
  = (Return tt, mk_register {[ "conda"; "virtualenv" ]} "conda").
Proof. vm_compute. reflexivity. Qed.

Example registration_without_conda :
  fst (@tox_register_tox_env Sample.quiet_platform
         (mk_register {[ "virtualenv" ]} "virtualenv")
         (mk_state ∅ ["proj"] ∅ ∅ None false []))
  = (Return tt, mk_register {[ "conda"; "virtualenv" ]} "virtualenv").
Proof. vm_compute. reflexivity. Qed.

Example registration_with_conda_that_cannot_start :
  fst (@tox_register_tox_env
         (Sample.platform_where Interpreter.not_startable Sample.quiet)
         (mk_register {[ "virtualenv" ]} "virtualenv") Interpreter.world_path_only)
  = (Raise OSError, mk_register {[ "conda"; "virtualenv" ]} "virtualenv").
Proof. vm_compute. reflexivity. Qed.

Example probe_of_interpreter_that_cannot_start :
  @_get_python (Sample.platform_where (fun _ _ => false) Sample.quiet)
     ["/usr/bin/python3"] Sample.world
  = Raise OSError.
Proof. reflexivity. Qed.

Example creation_with_empty_environment_file :
  fst (@_generate_env_create_command Sample.quiet_platform
         (Path.of_string "/opt/conda/bin/conda") "python=3.10"
         {[ "env_path" := VStr "/proj/environment.yml" ]}
         (mk_state ∅ ["proj"] {[ "/proj/environment.yml" := "" ]} {[ "/proj" ]}
                   None false []))
  = Raise TypeError /\
  fst (@_generate_env_create_command Sample.quiet_platform
         (Path.of_string "/opt/conda/bin/conda") "python=3.10"
         {[ "env_path" := VStr "/proj/environment.yml" ]}
         (mk_state ∅ ["proj"]
            {[ "/proj/environment.yml" :=
                 "name: science" +:+ Sample.nl +:+ "dependencies:" +:+ Sample.nl ]}
            {[ "/proj" ]} None false []))
  = Raise AttributeError.
Proof. split; vm_compute; reflexivity. Qed.
